(** * Waste-management back end: report lifecycle and points/rewards ledger

    A shallow embedding of the server code of the repository
    (models [Report], [User], [Reward]; routes [reports], [users],
    [rewards]; middleware [auth]) together with the properties that the
    specification states about it.

    Conventions of the embedding:
    - a MongoDB collection is a finite map from document ids to documents;
      a document id ([ObjectId]) is a natural number;
    - a JavaScript [Number] holding a count or a balance is an integer [Z];
      a date is its number of milliseconds since the epoch, in [Z];
    - an [async] route handler is a function from the stores and the request
      to an HTTP response and the new stores; a [throw] inside a handler is
      caught by the handler's [catch] and becomes its status-500 answer;
    - what the environment decides (the clock, [Math.random], fresh ids)
      is a parameter of the function that consumes it. *)

From Stdlib Require Import ZArith QArith Reals Lra Lia String Ascii List.
From stdpp Require Import base gmap list strings.
From stdpp Require Import sorting.

Local Open Scope Z_scope.

(** ** Shared vocabulary *)

(** [role] enum of the user schema. *)
Inductive Role := citizen | admin | collector.

#[global] Instance Role_eq_dec : EqDecision Role.
Proof. solve_decision. Defined.

(** [status] enum of the report schema. *)
Inductive Status :=
  submitted | verified | assigned | in_progress | completed | rejected.

#[global] Instance Status_eq_dec : EqDecision Status.
Proof. solve_decision. Defined.

(** The [error] tag of a failure answer ([message] for the rewards router,
    which sends no tag). *)
Inductive ApiError :=
  | NOT_AUTHENTICATED | USER_NOT_FOUND | ACCOUNT_DEACTIVATED
  | INSUFFICIENT_PERMISSIONS
  | UPLOAD_REJECTED
  | VALIDATION_FAILED | NO_IMAGE | SUBMISSION_ERROR
  | REPORT_NOT_FOUND | INVALID_STATUS | VERIFY_ERROR
  | INVALID_COLLECTOR | ASSIGN_ERROR
  | ACCESS_DENIED | START_ERROR
  | NO_AFTER_IMAGE | COMPLETE_ERROR
  | POINTS_ALREADY_AWARDED | AWARD_POINTS_ERROR
  | REWARD_NOT_FOUND | REWARD_NOT_AVAILABLE | INSUFFICIENT_POINTS
  | REDEEM_ERROR
  | REWARD_NOT_ACTIVE | REWARD_OUT_OF_STOCK | REWARD_EXPIRED
  | MOCK_USER_NOT_FOUND.

#[global] Instance ApiError_eq_dec : EqDecision ApiError.
Proof. solve_decision. Defined.

(** An HTTP answer: [res.status(c).json(..)], a success when no error is
    sent. *)
Inductive Response :=
  | Ok (code : Z)
  | Err (code : Z) (error : ApiError).

Definition succeeded (r : Response) : bool :=
  match r with Ok _ => true | Err _ _ => false end.

(** The result of a model method that may [throw]. *)
Inductive Outcome (A : Type) :=
  | Returned (a : A)
  | Thrown (message : string).
Arguments Returned {A} a.
Arguments Thrown {A} message.

(** A numeric field of a request body: absent, or a number (the client
    types the award as [points: number]). A JSON number is a rational. *)
Inductive JsValue :=
  | JsUndefined
  | JsNumber (q : Q).

(** The integer a value denotes, when it is one. *)
Definition intValue (v : JsValue) : option Z :=
  match v with
  | JsUndefined => None
  | JsNumber q =>
      if (Z.pos (Qden (Qred q)) =? 1) then Some (Qnum (Qred q)) else None
  end.

(** express-validator's [isInt({ min, max })]. *)
Definition isInt (min max : Z) (v : JsValue) : bool :=
  match intValue v with
  | Some z => (min <=? z) && (z <=? max)
  | None => false
  end.

(** An uploaded file, [req.file]: its mime type, its size in bytes and its
    base64 payload. *)
Record Upload := mkUpload { mimetype : string; bytes : N; base64 : string }.

(** The [multer] configuration of the reports router: only images, of at
    most 10 MB. A request without a file passes; a refused file ends the
    request with an error before the handler runs. *)
Definition maxFileSize : N := 10 * 1024 * 1024.

Definition uploadAccepted (f : option Upload) : bool :=
  match f with
  | None => true
  | Some u => String.prefix "image/" (mimetype u) && (bytes u <=? maxFileSize)%N
  end.

Definition dataUrl (f : Upload) : string :=
  "data:" +:+ mimetype f +:+ ";base64," +:+ base64 f.

(** ** Decimal rendering of a non-negative integer: [String(n)] *)

Definition digitChar (d : N) : ascii :=
  ascii_of_N (48 + d).

Fixpoint digitsFrom (fuel : nat) (n : N) (acc : string) : string :=
  match fuel with
  | O => acc
  | S fuel' =>
      let acc' := String (digitChar (n mod 10)%N) acc in
      if (n / 10 =? 0)%N then acc' else digitsFrom fuel' (n / 10)%N acc'
  end.

Definition toString (n : N) : string :=
  digitsFrom (S (N.to_nat (N.log2 n))) n "".

Fixpoint repeatChar (k : nat) (c : ascii) : string :=
  match k with
  | O => ""
  | S k' => String c (repeatChar k' c)
  end.

(** [s.padStart(width, c)] for a one-character filler: pads on the left up
    to [width], and leaves a longer string as it is. *)
Definition padStart (width : nat) (c : ascii) (s : string) : string :=
  repeatChar (width - String.length s)%nat c +:+ s.

(** ** models/User.js *)

Module User.

Record t := mk {
  name : string;
  role : Role;
  points : Z;
  totalReports : Z;
  completedReports : Z;
  assignedReports : list nat;
  completedTasks : Z;
  isActive : bool;
  updatedAt : Z
}.

Definition set_points (p : Z) (u : t) : t :=
  mk (name u) (role u) p (totalReports u) (completedReports u)
     (assignedReports u) (completedTasks u) (isActive u) (updatedAt u).

Definition set_updatedAt (now : Z) (u : t) : t :=
  mk (name u) (role u) (points u) (totalReports u) (completedReports u)
     (assignedReports u) (completedTasks u) (isActive u) now.

Definition inc_totalReports (u : t) : t :=
  mk (name u) (role u) (points u) (totalReports u + 1) (completedReports u)
     (assignedReports u) (completedTasks u) (isActive u) (updatedAt u).

Definition inc_completedReports (u : t) : t :=
  mk (name u) (role u) (points u) (totalReports u) (completedReports u + 1)
     (assignedReports u) (completedTasks u) (isActive u) (updatedAt u).

(** [$addToSet: { assignedReports: rid }] *)
Definition addToSet_assignedReports (rid : nat) (u : t) : t :=
  mk (name u) (role u) (points u) (totalReports u) (completedReports u)
     (if bool_decide (rid ∈ assignedReports u) then assignedReports u
      else assignedReports u ++ [rid])
     (completedTasks u) (isActive u) (updatedAt u).

(** [$inc: { completedTasks: 1 }, $pull: { assignedReports: rid }] *)
Definition finish_task (rid : nat) (u : t) : t :=
  mk (name u) (role u) (points u) (totalReports u) (completedReports u)
     (filter (λ x, x ≠ rid) (assignedReports u))
     (completedTasks u + 1) (isActive u) (updatedAt u).

(** [userSchema.pre('save')]: stamps [updatedAt]. (The password hook does
    nothing unless the password is modified, which no operation here
    does.) *)
Definition preSave (now : Z) (u : t) : t := set_updatedAt now u.

(** [userSchema.methods.addPoints]: the document as [this.save()] stores
    it, or the error thrown. *)
Definition addPoints (pts : Z) (now : Z) (u : t) : Outcome t :=
  if decide (role u = citizen) then
    Returned (preSave now (set_points (points u + pts) u))
  else Thrown "Only citizens can earn points".

(** [userSchema.methods.deductPoints]. *)
Definition deductPoints (pts : Z) (now : Z) (u : t) : Outcome t :=
  if bool_decide (role u = citizen) && (pts <=? points u) then
    Returned (preSave now (set_points (points u - pts) u))
  else Thrown "Insufficient points or invalid user role".

End User.

(** ** models/Report.js *)

Module Report.

(** An element of [statusHistory]. *)
Record HistoryEntry := mkEntry {
  h_status : Status;
  changedBy : nat;
  changedAt : Z;
  notes : string
}.

(** One of the three [images] of a report. *)
Record Image := mkImage {
  url : string;
  publicId : string;
  uploadedBy : option nat;
  uploadedAt : option Z
}.

Inductive Priority := low | medium | high | urgent.

(** [location] of a report; coordinates are JSON numbers. *)
Record Location := mkLocation {
  address : string;
  lat : Q;
  lng : Q;
  landmark : option string
}.

Record t := mk {
  reportId : option string;
  citizen : nat;
  title : string;
  description : string;
  location : Location;
  original : option Image;
  beforeCleanup : option Image;
  afterCleanup : option Image;
  status : Status;
  assignedTo : option nat;
  assignedAt : option Z;
  verifiedBy : option nat;
  verifiedAt : option Z;
  verificationNotes : option string;
  completedAt : option Z;
  completionNotes : option string;
  pointsAwarded : Z;
  pointsAwardedAt : option Z;
  priority : Priority;
  actualCleanupTime : option Z;
  statusHistory : list HistoryEntry;
  createdAt : Z;
  updatedAt : Z
}.

Definition set_reportId (x : option string) (r : t) : t :=
  mk x (citizen r) (title r) (description r) (location r) (original r)
     (beforeCleanup r) (afterCleanup r) (status r) (assignedTo r)
     (assignedAt r) (verifiedBy r) (verifiedAt r) (verificationNotes r)
     (completedAt r) (completionNotes r) (pointsAwarded r)
     (pointsAwardedAt r) (priority r) (actualCleanupTime r)
     (statusHistory r) (createdAt r) (updatedAt r).

Definition set_updatedAt (x : Z) (r : t) : t :=
  mk (reportId r) (citizen r) (title r) (description r) (location r)
     (original r) (beforeCleanup r) (afterCleanup r) (status r)
     (assignedTo r) (assignedAt r) (verifiedBy r) (verifiedAt r)
     (verificationNotes r) (completedAt r) (completionNotes r)
     (pointsAwarded r) (pointsAwardedAt r) (priority r)
     (actualCleanupTime r) (statusHistory r) (createdAt r) x.

Definition set_beforeCleanup (x : option Image) (r : t) : t :=
  mk (reportId r) (citizen r) (title r) (description r) (location r)
     (original r) x (afterCleanup r) (status r)
     (assignedTo r) (assignedAt r) (verifiedBy r) (verifiedAt r)
     (verificationNotes r) (completedAt r) (completionNotes r)
     (pointsAwarded r) (pointsAwardedAt r) (priority r)
     (actualCleanupTime r) (statusHistory r) (createdAt r) (updatedAt r).

Definition set_afterCleanup (x : option Image) (r : t) : t :=
  mk (reportId r) (citizen r) (title r) (description r) (location r)
     (original r) (beforeCleanup r) x (status r)
     (assignedTo r) (assignedAt r) (verifiedBy r) (verifiedAt r)
     (verificationNotes r) (completedAt r) (completionNotes r)
     (pointsAwarded r) (pointsAwardedAt r) (priority r)
     (actualCleanupTime r) (statusHistory r) (createdAt r) (updatedAt r).

(** [this.status = s; this.statusHistory.push(e)] *)
Definition set_status_push (s : Status) (e : HistoryEntry) (r : t) : t :=
  mk (reportId r) (citizen r) (title r) (description r) (location r)
     (original r) (beforeCleanup r) (afterCleanup r) s
     (assignedTo r) (assignedAt r) (verifiedBy r) (verifiedAt r)
     (verificationNotes r) (completedAt r) (completionNotes r)
     (pointsAwarded r) (pointsAwardedAt r) (priority r)
     (actualCleanupTime r) (statusHistory r ++ [e]) (createdAt r)
     (updatedAt r).

Definition set_assignedTo (x : option nat) (r : t) : t :=
  mk (reportId r) (citizen r) (title r) (description r) (location r)
     (original r) (beforeCleanup r) (afterCleanup r) (status r)
     x (assignedAt r) (verifiedBy r) (verifiedAt r)
     (verificationNotes r) (completedAt r) (completionNotes r)
     (pointsAwarded r) (pointsAwardedAt r) (priority r)
     (actualCleanupTime r) (statusHistory r) (createdAt r) (updatedAt r).

Definition set_assignedAt (x : option Z) (r : t) : t :=
  mk (reportId r) (citizen r) (title r) (description r) (location r)
     (original r) (beforeCleanup r) (afterCleanup r) (status r)
     (assignedTo r) x (verifiedBy r) (verifiedAt r)
     (verificationNotes r) (completedAt r) (completionNotes r)
     (pointsAwarded r) (pointsAwardedAt r) (priority r)
     (actualCleanupTime r) (statusHistory r) (createdAt r) (updatedAt r).

Definition set_verified (by_ : option nat) (at_ : option Z) (r : t) : t :=
  mk (reportId r) (citizen r) (title r) (description r) (location r)
     (original r) (beforeCleanup r) (afterCleanup r) (status r)
     (assignedTo r) (assignedAt r) by_ at_
     (verificationNotes r) (completedAt r) (completionNotes r)
     (pointsAwarded r) (pointsAwardedAt r) (priority r)
     (actualCleanupTime r) (statusHistory r) (createdAt r) (updatedAt r).

Definition set_verificationNotes (x : option string) (r : t) : t :=
  mk (reportId r) (citizen r) (title r) (description r) (location r)
     (original r) (beforeCleanup r) (afterCleanup r) (status r)
     (assignedTo r) (assignedAt r) (verifiedBy r) (verifiedAt r)
     x (completedAt r) (completionNotes r)
     (pointsAwarded r) (pointsAwardedAt r) (priority r)
     (actualCleanupTime r) (statusHistory r) (createdAt r) (updatedAt r).

Definition set_completedAt (x : option Z) (r : t) : t :=
  mk (reportId r) (citizen r) (title r) (description r) (location r)
     (original r) (beforeCleanup r) (afterCleanup r) (status r)
     (assignedTo r) (assignedAt r) (verifiedBy r) (verifiedAt r)
     (verificationNotes r) x (completionNotes r)
     (pointsAwarded r) (pointsAwardedAt r) (priority r)
     (actualCleanupTime r) (statusHistory r) (createdAt r) (updatedAt r).

Definition set_completionNotes (x : option string) (r : t) : t :=
  mk (reportId r) (citizen r) (title r) (description r) (location r)
     (original r) (beforeCleanup r) (afterCleanup r) (status r)
     (assignedTo r) (assignedAt r) (verifiedBy r) (verifiedAt r)
     (verificationNotes r) (completedAt r) x
     (pointsAwarded r) (pointsAwardedAt r) (priority r)
     (actualCleanupTime r) (statusHistory r) (createdAt r) (updatedAt r).

Definition set_actualCleanupTime (x : option Z) (r : t) : t :=
  mk (reportId r) (citizen r) (title r) (description r) (location r)
     (original r) (beforeCleanup r) (afterCleanup r) (status r)
     (assignedTo r) (assignedAt r) (verifiedBy r) (verifiedAt r)
     (verificationNotes r) (completedAt r) (completionNotes r)
     (pointsAwarded r) (pointsAwardedAt r) (priority r)
     x (statusHistory r) (createdAt r) (updatedAt r).

(** [this.pointsAwarded = p; this.pointsAwardedAt = d] *)
Definition set_pointsAwarded (p : Z) (d : option Z) (r : t) : t :=
  mk (reportId r) (citizen r) (title r) (description r) (location r)
     (original r) (beforeCleanup r) (afterCleanup r) (status r)
     (assignedTo r) (assignedAt r) (verifiedBy r) (verifiedAt r)
     (verificationNotes r) (completedAt r) (completionNotes r)
     p d (priority r)
     (actualCleanupTime r) (statusHistory r) (createdAt r) (updatedAt r).

(** JavaScript truthiness of an optional string: [undefined] and the empty
    string are falsy. *)
Definition truthy (s : option string) : bool :=
  match s with
  | None => false
  | Some x => negb (String.eqb x "")
  end.

(** [reportSchema.pre('save')]. [isNew] tells a first save from an update,
    [count] is [countDocuments()] at that moment. *)
Definition preSave (isNew : bool) (count : N) (now : Z) (r : t) : t :=
  let r1 :=
    if isNew && negb (truthy (reportId r)) then
      set_reportId
        (Some ("WR" +:+ padStart 6 "0"%char (toString (count + 1)%N))) r
    else r in
  set_updatedAt now r1.

(** The field updates of [reportSchema.methods.changeStatus], before its
    final [this.save()]. A missing [notes] argument takes the default
    [''], which the caller resolves. *)
Definition changeStatus_fields
    (newStatus : Status) (by_ : nat) (notes_ : string) (now : Z) (r : t) : t :=
  let r1 := set_status_push newStatus (mkEntry newStatus by_ now notes_) r in
  match newStatus with
  | verified => set_verified (Some by_) (Some now) r1
  | assigned => set_assignedAt (Some now) r1
  | completed => set_completedAt (Some now) r1
  | _ => r1
  end.

(** [reportSchema.methods.changeStatus]: the document as its [this.save()]
    stores it (an update, so the save hook only stamps [updatedAt]). *)
Definition changeStatus
    (newStatus : Status) (by_ : nat) (notes_ : string) (now : Z) (r : t) : t :=
  preSave false 0%N now (changeStatus_fields newStatus by_ notes_ now r).

(** The transition graph of the lifecycle. *)
Definition transition (a b : Status) : bool :=
  match a, b with
  | submitted, verified
  | submitted, rejected
  | verified, assigned
  | assigned, in_progress
  | in_progress, completed => true
  | _, _ => false
  end.

(** A sequence of statuses in which each one follows its predecessor by an
    edge of the graph. *)
Fixpoint valid_path (l : list Status) : bool :=
  match l with
  | a :: (b :: _) as tl => transition a b && valid_path tl
  | _ => true
  end.

Definition terminal (s : Status) : bool :=
  match s with
  | completed | rejected => true
  | _ => false
  end.

Definition history_statuses (r : t) : list Status :=
  map h_status (statusHistory r).

End Report.

(** ** String helpers of the JavaScript runtime *)

Definition isSpace (c : ascii) : bool :=
  let n := N_of_ascii c in
  ((n =? 32) || ((9 <=? n) && (n <=? 13)))%N.

Fixpoint dropSpaces (l : list ascii) : list ascii :=
  match l with
  | c :: l' => if isSpace c then dropSpaces l' else l
  | [] => []
  end.

(** [s.trim()] *)
Definition trim (s : string) : string :=
  string_of_list_ascii
    (rev (dropSpaces (rev (dropSpaces (list_ascii_of_string s))))).

Definition upperChar (c : ascii) : ascii :=
  let n := N_of_ascii c in
  if ((97 <=? n) && (n <=? 122))%N then ascii_of_N (n - 32) else c.

(** [s.toUpperCase()] on ASCII text *)
Fixpoint toUpperCase (s : string) : string :=
  match s with
  | EmptyString => EmptyString
  | String c s' => String (upperChar c) (toUpperCase s')
  end.

(** [s.slice(-k)]: the last [k] characters. *)
Definition sliceLast (k : nat) (s : string) : string :=
  substring (String.length s - k)%nat k s.

(** ** models/Reward.js *)

Module Reward.

Inductive RedemptionStatus := active | used | expired | cancelled.

Record t := mk {
  title : string;
  pointsCost : Z;
  isActive : bool;
  totalQuantity : Z;
  remainingQuantity : Z;
  validFrom : Z;
  validUntil : Z;
  partnerName : option string;
  totalRedeemed : Z;
  updatedAt : Z
}.

Record Redemption := mkRedemption {
  user : nat;
  reward : nat;
  pointsUsed : Z;
  generatedCode : string;
  status : RedemptionStatus;
  expiresAt : Z;
  redeemedAt : Z;
  r_updatedAt : Z
}.

(** [this.remainingQuantity -= 1; this.totalRedeemed += 1] *)
Definition take_one (r : t) : t :=
  mk (title r) (pointsCost r) (isActive r) (totalQuantity r)
     (remainingQuantity r - 1) (validFrom r) (validUntil r)
     (partnerName r) (totalRedeemed r + 1) (updatedAt r).

(** [rewardSchema.pre('save')] *)
Definition preSave (now : Z) (r : t) : t :=
  mk (title r) (pointsCost r) (isActive r) (totalQuantity r)
     (remainingQuantity r) (validFrom r) (validUntil r)
     (partnerName r) (totalRedeemed r) now.

(** [rewardSchema.methods.generateCouponCode]; [rnd] is what
    [Math.random().toString(36).substring(2, 6).toUpperCase()] yields. *)
Definition generateCouponCode (now : Z) (rnd : string) (r : t) : string :=
  let prefix :=
    match partnerName r with
    | Some n =>
        if String.eqb n "" then "WMS" else toUpperCase (substring 0 3 n)
    | None => "WMS"
    end in
  let timestamp := sliceLast 6 (toString (Z.to_N now)) in
  prefix +:+ timestamp +:+ rnd.

(** [rewardSchema.methods.isAvailable]; [now] is its [new Date()]. *)
Definition isAvailable (now : Z) (r : t) : bool :=
  isActive r && (0 <? remainingQuantity r)
  && (validFrom r <=? now) && (now <=? validUntil r).

(** The two collections [redeem] writes to. The [unique] index on
    [generatedCode] makes the store refuse a redemption whose code is
    already there. *)
Record Store := mkStore {
  rewards : gmap nat t;
  redemptions : list Redemption
}.

Definition codeTaken (code : string) (l : list Redemption) : bool :=
  existsb (λ d, String.eqb (generatedCode d) code) l.

(** [rewardSchema.methods.redeem], called on the document [this] stored
    under [rewardId]. It saves the reward first and the redemption second,
    so a refused redemption leaves the reward saved. *)
Definition redeem
    (rewardId : nat) (this : t) (userId : nat) (now : Z) (rnd : string)
    (st : Store) : Outcome Redemption * Store :=
  if negb (isAvailable now this) then
    (Thrown "Reward is not available for redemption", st)
  else
    let this' := take_one this in
    let redemption :=
      mkRedemption userId rewardId (pointsCost this')
        (generateCouponCode now rnd this') active (validUntil this')
        now now in
    let st1 := mkStore (<[rewardId := preSave now this']> (rewards st))
                       (redemptions st) in
    if codeTaken (generatedCode redemption) (redemptions st1) then
      (Thrown "E11000 duplicate key error", st1)
    else
      (Returned redemption,
       mkStore (rewards st1) (redemptions st1 ++ [redemption])).

(** The redemptions that reference a reward. *)
Definition redemptionsOf (rewardId : nat) (l : list Redemption) : list Redemption :=
  filter (λ d, reward d = rewardId) l.

End Reward.

(** ** The database *)

Record DB := mkDB {
  users : gmap nat User.t;
  reports : gmap nat Report.t;
  rewardStore : Reward.Store
}.

Definition set_users (us : gmap nat User.t) (db : DB) : DB :=
  mkDB us (reports db) (rewardStore db).

Definition set_reports (rs : gmap nat Report.t) (db : DB) : DB :=
  mkDB (users db) rs (rewardStore db).

Definition set_rewardStore (st : Reward.Store) (db : DB) : DB :=
  mkDB (users db) (reports db) st.

(** [User.findByIdAndUpdate(id, update)]: nothing happens when the user
    does not exist. *)
Definition findByIdAndUpdate (id : nat) (f : User.t → User.t) (db : DB) : DB :=
  set_users (alter f id (users db)) db.

(** ** middleware/auth.js *)

(** [authenticateToken], for a request whose token decodes to [userId]:
    the user loaded into [req.user], or the 401 answer. *)
Definition authenticateToken (db : DB) (userId : nat) : Response + User.t :=
  match users db !! userId with
  | None => inl (Err 401 USER_NOT_FOUND)
  | Some u =>
      if User.isActive u then inr u else inl (Err 401 ACCOUNT_DEACTIVATED)
  end.

(** [requireRole(...roles)] *)
Definition requireRole (roles : list Role) (u : User.t) : option Response :=
  if bool_decide (User.role u ∈ roles) then None
  else Some (Err 403 INSUFFICIENT_PERMISSIONS).

Definition requireCitizen := requireRole [citizen].
Definition requireAdmin := requireRole [admin].
Definition requireCollector := requireRole [collector].

(** The middleware chain in front of a handler: authentication, then the
    role check when the route has one. *)
Definition guarded {A : Type}
    (db : DB) (userId : nat) (check : User.t → option Response)
    (handler : User.t → Response * A) (unchanged : A) : Response * A :=
  match authenticateToken db userId with
  | inl r => (r, unchanged)
  | inr u =>
      match check u with
      | Some r => (r, unchanged)
      | None => handler u
      end
  end.

(** ** routes/reports.js *)

Module ReportsRoutes.

(** The body and file of [POST /api/reports]. [location] is the result of
    [JSON.parse(location)], [None] when it throws; the three [v_] fields
    are the values the validators read at ['location.address'],
    ['location.coordinates.lat'] and ['location.coordinates.lng']. *)
Record SubmitBody := mkSubmitBody {
  b_title : string;
  b_description : string;
  v_address : string;
  v_lat : JsValue;
  v_lng : JsValue;
  b_location : option Report.Location;
  b_priority : option Report.Priority;
  b_file : option Upload
}.

(** express-validator's [isFloat({ min, max })], bounds given as integers *)
Definition isFloat (min max : Z) (v : JsValue) : bool :=
  match v with
  | JsUndefined => false
  | JsNumber q => Qle_bool (inject_Z min) q && Qle_bool q (inject_Z max)
  end.

Definition lengthBetween (lo hi : nat) (s : string) : bool :=
  ((lo <=? String.length s) && (String.length s <=? hi))%nat.

(** [reportValidation]: [validationResult(req).isEmpty()] *)
Definition reportValidation (b : SubmitBody) : bool :=
  lengthBetween 5 100 (trim (b_title b))
  && lengthBetween 10 500 (trim (b_description b))
  && negb (String.eqb (trim (v_address b)) "")
  && isFloat (-90) 90 (v_lat b)
  && isFloat (-180) 180 (v_lng b).

(** Is some stored report already carrying this [reportId]? (the [unique]
    index on [reportId]) *)
Definition reportIdTaken (rs : gmap nat Report.t) (x : option string) : bool :=
  existsb (λ kv, bool_decide (Report.reportId kv.2 = x)) (map_to_list rs).

(** [POST /api/reports]: submit. [oid] is the [_id] of the new document. *)
Definition submit
    (db : DB) (userId : nat) (b : SubmitBody) (oid : nat) (now : Z)
    : Response * DB :=
  guarded db userId requireCitizen (λ _,
    if negb (uploadAccepted (b_file b)) then (Err 500 UPLOAD_REJECTED, db)
    else if negb (reportValidation b) then (Err 400 VALIDATION_FAILED, db)
    else match b_file b with
    | None => (Err 400 NO_IMAGE, db)
    | Some file =>
      match b_location b with
      | None => (Err 500 SUBMISSION_ERROR, db)
      | Some loc =>
        let report :=
          Report.mk None userId (trim (b_title b)) (trim (b_description b))
            loc
            (Some (Report.mkImage (dataUrl file)
                     ("report_" +:+ toString (Z.to_N now)) None None))
            None None submitted None None None None None None None
            0 None (default Report.medium (b_priority b)) None [] now now in
        let saved :=
          Report.preSave true (N.of_nat (size (reports db))) now report in
        if bool_decide (is_Some (reports db !! oid))
           || reportIdTaken (reports db) (Report.reportId saved)
        then (Err 500 SUBMISSION_ERROR, db)
        else
          let db1 := set_reports (<[oid := saved]> (reports db)) db in
          (Ok 201, findByIdAndUpdate userId User.inc_totalReports db1)
      end
    end) db.

(** [PUT /api/reports/:id/verify] *)
Definition verify
    (db : DB) (userId : nat) (id : nat) (action : string)
    (notes : option string) (now : Z) : Response * DB :=
  guarded db userId requireAdmin (λ _,
    if negb (String.eqb action "approve" || String.eqb action "reject")
    then (Err 400 VALIDATION_FAILED, db)
    else match reports db !! id with
    | None => (Err 404 REPORT_NOT_FOUND, db)
    | Some report =>
      if negb (bool_decide (Report.status report = submitted))
      then (Err 400 INVALID_STATUS, db)
      else
        let notes' := trim <$> notes in
        let newStatus :=
          if String.eqb action "approve" then verified else rejected in
        let r1 :=
          Report.changeStatus newStatus userId (default "" notes') now report in
        let r2 :=
          if String.eqb action "reject"
          then Report.preSave false 0%N now
                 (Report.set_verificationNotes notes' r1)
          else r1 in
        (Ok 200, set_reports (<[id := r2]> (reports db)) db)
    end) db.

(** [PUT /api/reports/:id/assign]; [collectorId] is [None] when the body
    field is not a Mongo id. *)
Definition assign
    (db : DB) (userId : nat) (id : nat) (collectorId : option nat) (now : Z)
    : Response * DB :=
  guarded db userId requireAdmin (λ _,
    match collectorId with
    | None => (Err 400 VALIDATION_FAILED, db)
    | Some cid =>
      match reports db !! id with
      | None => (Err 404 REPORT_NOT_FOUND, db)
      | Some report =>
        if negb (bool_decide (Report.status report = verified))
        then (Err 400 INVALID_STATUS, db)
        else match users db !! cid with
        | None => (Err 400 INVALID_COLLECTOR, db)
        | Some c =>
          if negb (bool_decide (User.role c = collector))
          then (Err 400 INVALID_COLLECTOR, db)
          else
            let r1 := Report.set_assignedTo (Some cid) report in
            let r2 :=
              Report.changeStatus assigned userId
                ("Assigned to " +:+ User.name c) now r1 in
            let db1 := set_reports (<[id := r2]> (reports db)) db in
            (Ok 200,
             findByIdAndUpdate cid (User.addToSet_assignedReports id) db1)
        end
      end
    end) db.

(** [PUT /api/reports/:id/start]. [report.assignedTo.toString()] throws on
    a report that has no assignee. *)
Definition start
    (db : DB) (userId : nat) (id : nat) (file : option Upload) (now : Z)
    : Response * DB :=
  guarded db userId requireCollector (λ _,
    if negb (uploadAccepted file) then (Err 500 UPLOAD_REJECTED, db)
    else match reports db !! id with
    | None => (Err 404 REPORT_NOT_FOUND, db)
    | Some report =>
      match Report.assignedTo report with
      | None => (Err 500 START_ERROR, db)
      | Some a =>
        if negb (bool_decide (a = userId)) then (Err 403 ACCESS_DENIED, db)
        else if negb (bool_decide (Report.status report = assigned))
        then (Err 400 INVALID_STATUS, db)
        else
          let r1 :=
            match file with
            | Some f =>
                Report.set_beforeCleanup
                  (Some (Report.mkImage (dataUrl f)
                           ("before_" +:+ toString (N.of_nat id) +:+ "_"
                            +:+ toString (Z.to_N now))
                           (Some userId) (Some now))) report
            | None => report
            end in
          let r2 :=
            Report.changeStatus in_progress userId "Started cleanup work"
              now r1 in
          (Ok 200, set_reports (<[id := r2]> (reports db)) db)
      end
    end) db.

(** [Math.round(ms / (1000 * 60))] for an integer number of milliseconds *)
Definition roundMinutes (ms : Z) : Z := (ms + 30000) / 60000.

(** [PUT /api/reports/:id/complete] *)
Definition complete
    (db : DB) (userId : nat) (id : nat) (file : option Upload)
    (notes : option string) (now : Z) : Response * DB :=
  guarded db userId requireCollector (λ _,
    if negb (uploadAccepted file) then (Err 500 UPLOAD_REJECTED, db)
    else match reports db !! id with
    | None => (Err 404 REPORT_NOT_FOUND, db)
    | Some report =>
      match Report.assignedTo report with
      | None => (Err 500 COMPLETE_ERROR, db)
      | Some a =>
        if negb (bool_decide (a = userId)) then (Err 403 ACCESS_DENIED, db)
        else if negb (bool_decide (Report.status report = in_progress))
        then (Err 400 INVALID_STATUS, db)
        else match file with
        | None => (Err 400 NO_AFTER_IMAGE, db)
        | Some f =>
          let notes' := trim <$> notes in
          let r1 :=
            Report.set_afterCleanup
              (Some (Report.mkImage (dataUrl f)
                       ("after_" +:+ toString (N.of_nat id) +:+ "_"
                        +:+ toString (Z.to_N now))
                       (Some userId) (Some now))) report in
          let r2 :=
            Report.set_completionNotes
              (Some (if Report.truthy notes' then default "" notes' else ""))
              r1 in
          let r3 :=
            match
              find (λ h, bool_decide (Report.h_status h = in_progress))
                   (Report.statusHistory r2)
            with
            | Some h =>
                Report.set_actualCleanupTime
                  (Some (roundMinutes (now - Report.changedAt h))) r2
            | None => r2
            end in
          let r4 :=
            Report.changeStatus completed userId
              (if Report.truthy notes' then default "" notes'
               else "Cleanup completed") now r3 in
          let db1 := set_reports (<[id := r4]> (reports db)) db in
          (Ok 200, findByIdAndUpdate userId (User.finish_task id) db1)
        end
      end
    end) db.

(** [PUT /api/reports/:id/award-points]. The report is loaded with its
    [citizen] populated; [report.citizen.addPoints] throws for a user who
    is not a citizen, and on a citizen that no longer exists. *)
Definition awardPoints
    (db : DB) (userId : nat) (id : nat) (points : JsValue) (now : Z)
    : Response * DB :=
  guarded db userId requireAdmin (λ _,
    if negb (isInt 1 1000 points) then (Err 400 VALIDATION_FAILED, db)
    else match reports db !! id with
    | None => (Err 404 REPORT_NOT_FOUND, db)
    | Some report =>
      if negb (bool_decide (Report.status report = completed))
      then (Err 400 INVALID_STATUS, db)
      else if 0 <? Report.pointsAwarded report
      then (Err 400 POINTS_ALREADY_AWARDED, db)
      else
        match users db !! Report.citizen report, intValue points with
        | Some c, Some p =>
          match User.addPoints p now c with
          | Thrown _ => (Err 500 AWARD_POINTS_ERROR, db)
          | Returned c' =>
            let db1 :=
              set_users (<[Report.citizen report := c']> (users db)) db in
            let r1 :=
              Report.preSave false 0%N now
                (Report.set_pointsAwarded p (Some now) report) in
            let db2 := set_reports (<[id := r1]> (reports db1)) db1 in
            (Ok 200,
             findByIdAndUpdate (Report.citizen report)
               User.inc_completedReports db2)
          end
        | _, _ => (Err 500 AWARD_POINTS_ERROR, db)
        end
    end) db.

(** A request to one of the lifecycle routes. *)
Inductive Request :=
  | Submit (userId : nat) (b : SubmitBody) (oid : nat)
  | Verify (userId id : nat) (action : string) (notes : option string)
  | Assign (userId id : nat) (collectorId : option nat)
  | Start (userId id : nat) (file : option Upload)
  | Complete (userId id : nat) (file : option Upload) (notes : option string)
  | AwardPoints (userId id : nat) (points : JsValue).

(** Serving one request at clock reading [now]. *)
Definition serve (db : DB) (rq : Request) (now : Z) : Response * DB :=
  match rq with
  | Submit u b oid => submit db u b oid now
  | Verify u id action notes => verify db u id action notes now
  | Assign u id cid => assign db u id cid now
  | Start u id file => start db u id file now
  | Complete u id file notes => complete db u id file notes now
  | AwardPoints u id points => awardPoints db u id points now
  end.

(** Serving a sequence of requests, each with its clock reading. *)
Fixpoint serveAll (db : DB) (rqs : list (Request * Z)) : DB :=
  match rqs with
  | [] => db
  | (rq, now) :: rest => serveAll (serve db rq now).2 rest
  end.

(** The answers given along the way. *)
Fixpoint responses (db : DB) (rqs : list (Request * Z)) : list Response :=
  match rqs with
  | [] => []
  | (rq, now) :: rest =>
      (serve db rq now).1 :: responses (serve db rq now).2 rest
  end.

End ReportsRoutes.

(** ** routes/users.js: redeeming a reward of the catalogue *)

Module UsersRoutes.

(** [POST /api/users/rewards/:rewardId/redeem]. [now1] is the clock read by
    the route's own [reward.isAvailable()], [now2] the one read inside
    [reward.redeem]; [req.user] is the document loaded by the
    authentication. *)
Definition redeem
    (db : DB) (userId : nat) (rewardId : nat) (now1 now2 : Z) (rnd : string)
    : Response * DB :=
  guarded db userId requireCitizen (λ user,
    match Reward.rewards (rewardStore db) !! rewardId with
    | None => (Err 404 REWARD_NOT_FOUND, db)
    | Some reward =>
      if negb (Reward.isAvailable now1 reward)
      then (Err 400 REWARD_NOT_AVAILABLE, db)
      else if User.points user <? Reward.pointsCost reward
      then (Err 400 INSUFFICIENT_POINTS, db)
      else
        match User.deductPoints (Reward.pointsCost reward) now1 user with
        | Thrown _ => (Err 500 REDEEM_ERROR, db)
        | Returned user' =>
          let db1 := set_users (<[userId := user']> (users db)) db in
          match
            Reward.redeem rewardId reward userId now2 rnd (rewardStore db1)
          with
          | (Thrown _, st) => (Err 500 REDEEM_ERROR, set_rewardStore st db1)
          | (Returned _, st) => (Ok 200, set_rewardStore st db1)
          end
        end
    end) db.

End UsersRoutes.

(** ** routes/rewards.js: the in-memory rewards router *)

Module RewardsRoutes.

(** An element of the module-level [rewards] array. *)
Record MockReward := mkReward {
  _id : string;
  title : string;
  pointsRequired : Z;
  isActive : bool;
  availableQuantity : Z;
  validUntil : Z
}.

(** An element of the module-level [redemptions] array. *)
Record MockRedemption := mkRedemption {
  rd_id : string;
  userId : nat;
  rewardId : string;
  couponCode : string;
  pointsUsed : Z;
  isUsed : bool;
  usedAt : option Z;
  expiresAt : Z;
  createdAt : Z
}.

Record Memory := mkMemory {
  rewards : list MockReward;
  redemptions : list MockRedemption
}.

Definition thirtyDays : Z := 30 * 24 * 60 * 60 * 1000.

Definition take_one (r : MockReward) : MockReward :=
  mkReward (_id r) (title r) (pointsRequired r) (isActive r)
           (availableQuantity r - 1) (validUntil r).

(** [rewards.find(r => r._id === id)] returns the first match, and the
    handler mutates that very object. *)
Fixpoint updateFirst
    (id : string) (f : MockReward → MockReward) (l : list MockReward)
    : list MockReward :=
  match l with
  | [] => []
  | r :: l' =>
      if String.eqb (_id r) id then f r :: l' else r :: updateFirst id f l'
  end.

(** [POST /api/rewards/:id/redeem]. [code] is what [generateCouponCode()]
    draws and [suffix] the random part of the redemption id. *)
Definition redeem
    (db : DB) (mem : Memory) (uid : nat) (id : string) (now : Z)
    (code suffix : string) : Response * (DB * Memory) :=
  guarded db uid (λ _, None) (λ _,
    match find (λ r, String.eqb (_id r) id) (rewards mem) with
    | None => (Err 404 REWARD_NOT_FOUND, (db, mem))
    | Some reward =>
      if negb (isActive reward) then (Err 400 REWARD_NOT_ACTIVE, (db, mem))
      else if availableQuantity reward <=? 0
      then (Err 400 REWARD_OUT_OF_STOCK, (db, mem))
      else if validUntil reward <? now
      then (Err 400 REWARD_EXPIRED, (db, mem))
      else match users db !! uid with
      | None => (Err 404 MOCK_USER_NOT_FOUND, (db, mem))
      | Some user =>
        if User.points user <? pointsRequired reward
        then (Err 400 INSUFFICIENT_POINTS, (db, mem))
        else
          let redemption :=
            mkRedemption
              ("redemption_" +:+ toString (Z.to_N now) +:+ "_" +:+ suffix)
              uid (_id reward) code (pointsRequired reward) false None
              (now + thirtyDays) now in
          let user' :=
            User.preSave now
              (User.set_points (User.points user - pointsRequired reward)
                 user) in
          (Ok 200,
           (set_users (<[uid := user']> (users db)) db,
            mkMemory (updateFirst id take_one (rewards mem))
                     (redemptions mem ++ [redemption])))
      end
    end) (db, mem).

End RewardsRoutes.

(** ** Calls that move points *)

Module Ledger.

(** Calling a method of the user document stored under [uid]: what the
    method saves replaces the stored document, and a throw stores
    nothing. *)
Definition onUser
    (uid : nat) (method : User.t → Outcome User.t) (db : DB)
    : Outcome unit * DB :=
  match users db !! uid with
  | None => (Thrown "Cannot read properties of null", db)
  | Some u =>
      match method u with
      | Returned u' => (Returned tt, set_users (<[uid := u']> (users db)) db)
      | Thrown m => (Thrown m, db)
      end
  end.

(** The calls that change a balance: the two methods of the user model,
    the redemption route of the users router (its second clock reading
    and random draw as arguments) and the redemption route of the
    in-memory rewards router. *)
Inductive Call :=
  | AddPoints (uid : nat) (amount : Z)
  | DeductPoints (uid : nat) (amount : Z)
  | Redeem (uid rewardId : nat) (now2 : Z) (rnd : string)
  | RedeemInMemory (uid : nat) (id : string) (code suffix : string).

Definition State : Type := DB * RewardsRoutes.Memory.

Definition perform (st : State) (c : Call) (now : Z) : State :=
  match c with
  | AddPoints uid amount =>
      ((onUser uid (User.addPoints amount now) st.1).2, st.2)
  | DeductPoints uid amount =>
      ((onUser uid (User.deductPoints amount now) st.1).2, st.2)
  | Redeem uid rewardId now2 rnd =>
      ((UsersRoutes.redeem st.1 uid rewardId now now2 rnd).2, st.2)
  | RedeemInMemory uid id code suffix =>
      (RewardsRoutes.redeem st.1 st.2 uid id now code suffix).2
  end.

(** The states passed through, the initial one excluded. *)
Fixpoint trace (st : State) (calls : list (Call * Z)) : list State :=
  match calls with
  | [] => []
  | (c, now) :: rest => perform st c now :: trace (perform st c now) rest
  end.

End Ledger.

(** ** Geospatial statics of models/Report.js, over the real numbers *)

Module Geo.

Local Open Scope R_scope.



Definition Rleb (a b : R) : bool := if Rle_dec a b then true else false.
Definition Rltb (a b : R) : bool := if Rlt_dec a b then true else false.

(** The latitude condition of the [findNearby] query. *)
Definition latInBox (lat radiusKm x : R) : bool :=
  Rleb (lat - radiusKm / 111) x && Rleb x (lat + radiusKm / 111).

(** The longitude condition. Where the cosine vanishes JavaScript divides
    by zero: the bounds are infinite for a positive radius, and no number
    meets them otherwise. *)
Definition lngInBox (lat lng radiusKm x : R) : bool :=
  let d := 111 * cos (lat * PI / 180) in
  if Req_dec_T d 0 then Rltb 0 radiusKm
  else Rleb (lng - radiusKm / d) x && Rleb x (lng + radiusKm / d).

Definition inBox (lat lng radiusKm : R) (r : Report.t) : bool :=
  latInBox lat radiusKm (Q2R (Report.lat (Report.location r)))
  && lngInBox lat lng radiusKm (Q2R (Report.lng (Report.location r))).

(** [reportSchema.statics.findNearby]: the stored reports that match the
    query, in storage order. *)
Definition findNearby
    (lat lng radiusKm : R) (docs : list Report.t) : list Report.t :=
  List.filter (inBox lat lng radiusKm) docs.


End Geo.

(** ** Vocabulary of the properties *)






(** How the stored report under one id may differ before and after a
    request: created in [submitted] with an empty history; kept as far as
    status, history and award go; moved along one edge of the graph with
    one history entry appended; or, when completed and not yet awarded,
    given an award between 1 and 1000. *)
Inductive evolves (old : option Report.t) (new : Report.t) : Prop :=
  | ev_created :
      old = None →
      Report.status new = submitted →
      Report.statusHistory new = [] →
      Report.pointsAwarded new = 0 →
      evolves old new
  | ev_kept (r : Report.t) :
      old = Some r →
      Report.status new = Report.status r →
      Report.statusHistory new = Report.statusHistory r →
      Report.pointsAwarded new = Report.pointsAwarded r →
      Report.citizen new = Report.citizen r →
      evolves old new
  | ev_moved (r : Report.t) (e : Report.HistoryEntry) :
      old = Some r →
      Report.transition (Report.status r) (Report.status new) = true →
      Report.h_status e = Report.status new →
      Report.statusHistory new = Report.statusHistory r ++ [e] →
      Report.pointsAwarded new = Report.pointsAwarded r →
      Report.citizen new = Report.citizen r →
      evolves old new
  | ev_awarded (r : Report.t) :
      old = Some r →
      Report.status r = completed →
      Report.status new = completed →
      Report.statusHistory new = Report.statusHistory r →
      Report.pointsAwarded r ≤ 0 →
      1 ≤ Report.pointsAwarded new ≤ 1000 →
      Report.citizen new = Report.citizen r →
      evolves old new.

(** The lifecycle invariant of one report: its recorded statuses, put
    after the initial [submitted], form a path of the graph that ends in
    the current status. *)
Definition onPath (r : Report.t) : Prop :=
  Report.valid_path (submitted :: Report.history_statuses r) = true
  ∧ last (submitted :: Report.history_statuses r) = Some (Report.status r).

Definition lifecycleInvariant (db : DB) : Prop :=
  map_Forall (λ (_ : nat) (r : Report.t), onPath r) (reports db).

(** Two user documents of the same account: role, activation and name
    agree. *)
Definition sameAccount (u u' : User.t) : Prop :=
  User.role u' = User.role u
  ∧ User.isActive u' = User.isActive u
  ∧ User.name u' = User.name u.

(** The user [uid] passes the authentication and has role [r]. *)
Definition signedIn (db : DB) (uid : nat) (r : Role) : Prop :=
  ∃ u, users db !! uid = Some u ∧ User.isActive u = true ∧ User.role u = r.


(** Every stored award is 0 (none yet) or lies between 1 and 1000. *)
Definition awardRange (db : DB) : Prop :=
  map_Forall
    (λ (_ : nat) (r : Report.t),
       Report.pointsAwarded r = 0 ∨ 1 ≤ Report.pointsAwarded r ≤ 1000)
    (reports db).

(** No stored balance is negative. *)
Definition nonNegative (db : DB) : Prop :=
  map_Forall (λ (_ : nat) (u : User.t), 0 ≤ User.points u) (users db).

(** [addPoints] is only ever asked to add a non-negative amount. *)
Definition addsNonNegative (c : Ledger.Call) : Prop :=
  match c with
  | Ledger.AddPoints _ amount => 0 ≤ amount
  | _ => True
  end.

(** Stock conservation for the rewards of a store: what has left the stock
    of each reward is the number of redemptions that reference it, and no
    stock is negative. *)
Definition stockConserved (st : Reward.Store) : Prop :=
  map_Forall
    (λ (id : nat) (r : Reward.t),
       Reward.totalQuantity r - Reward.remainingQuantity r
       = Z.of_nat (length (Reward.redemptionsOf id (Reward.redemptions st)))
       ∧ 0 ≤ Reward.remainingQuantity r)
    (Reward.rewards st).


(** ** Sample data, used to exercise the definitions *)

Module Sample.

Definition asha : User.t :=
  User.mk "Asha" citizen 0 0 0 [] 0 true 0.

Definition root : User.t :=
  User.mk "Root" admin 0 0 0 [] 0 true 0.

Definition carl : User.t :=
  User.mk "Carl" collector 0 0 0 [] 0 true 0.

(** Users 1 (citizen), 2 (admin) and 3 (collector); nothing else. *)
Definition db0 : DB :=
  mkDB (<[1%nat := asha]> (<[2%nat := root]> (<[3%nat := carl]> ∅)))
       ∅ (Reward.mkStore ∅ []).

Definition photo : Upload := mkUpload "image/png" 8 "iVBORw0KGgo=".

Definition cityHall : Report.Location :=
  Report.mkLocation "City Hall Park, New York" (407128 # 10000)
    (-740060 # 10000) None.

Definition body : ReportsRoutes.SubmitBody :=
  ReportsRoutes.mkSubmitBody
    "Overflowing bin" "Bin at the park gate is overflowing"
    "City Hall Park, New York"
    (JsNumber (407128 # 10000)) (JsNumber (-740060 # 10000))
    (Some cityHall) None (Some photo).

(** A report as [new Report({...})] builds it, before its first save. *)
Definition draft : Report.t :=
  Report.mk None 1%nat "Overflowing bin" "Bin at the park gate is overflowing"
    cityHall None None None submitted None None None None None None None
    0 None Report.medium None [] 0 0.

(** Report 10 from submission to completion: submit, approve, assign to
    collector 3, start, complete. *)
Definition toCompletion : list (ReportsRoutes.Request * Z) :=
  [ (ReportsRoutes.Submit 1 body 10, 1000);
    (ReportsRoutes.Verify 2 10 "approve" None, 2000);
    (ReportsRoutes.Assign 2 10 (Some 3%nat), 3000);
    (ReportsRoutes.Start 3 10 None, 4000);
    (ReportsRoutes.Complete 3 10 (Some photo) (Some "done"), 904000) ].

(** The happy path: the same, followed by an award of 50 points. *)
Definition happyPath : list (ReportsRoutes.Request * Z) :=
  toCompletion ++ [ (ReportsRoutes.AwardPoints 2 10 (JsNumber (50 # 1)), 905000) ].

Definition completedDb : DB := ReportsRoutes.serveAll db0 toCompletion.

Definition completedReport : Report.t :=
  default draft (reports completedDb !! 10%nat).

(** A shop: citizen 1 holds 500 points; reward 7 costs 100 points, with
    two in stock and none redeemed. *)
Definition voucher : Reward.t :=
  Reward.mk "Coffee voucher" 100 true 2 2 1600000000000 1800000000000
    None 0 1600000000000.

Definition shopDb : DB :=
  mkDB (<[1%nat := User.set_points 500 asha]> (<[2%nat := root]> ∅))
       ∅ (Reward.mkStore (<[7%nat := voucher]> ∅) []).

(** The in-memory catalogue: one reward, valid for 60 days from the
    moment the server started (1700000000000). *)
Definition ecoDiscount : RewardsRoutes.MockReward :=
  RewardsRoutes.mkReward "reward_2" "10% Discount on Eco Products" 150 true
    100 (1700000000000 + 60 * 24 * 60 * 60 * 1000).

Definition memory0 : RewardsRoutes.Memory :=
  RewardsRoutes.mkMemory [ecoDiscount] [].

(** A report of citizen 1 at the given coordinates. *)
Definition reportAt (la lo : Q) : Report.t :=
  Report.mk None 1%nat "Overflowing bin" "Bin at the park gate is overflowing"
    (Report.mkLocation "somewhere" la lo None)
    None None None submitted None None None None None None None
    0 None Report.medium None [] 0 0.

End Sample.

(** * Further parts of the server *)

(** ** Vocabulary of the further lifecycle properties *)

(** What the status of a report says about its other fields: who it is
    assigned to and since when, who verified it, when it was completed,
    its picture after the cleanup, and its award. *)
Definition fieldsMatchStatus (r : Report.t) : Prop :=
  (is_Some (Report.assignedTo r)
   ↔ Report.status r ∈ [assigned; in_progress; completed])
  ∧ (is_Some (Report.assignedAt r)
     ↔ Report.status r ∈ [assigned; in_progress; completed])
  ∧ (is_Some (Report.verifiedBy r)
     ↔ Report.status r ∈ [verified; assigned; in_progress; completed])
  ∧ (is_Some (Report.completedAt r) ↔ Report.status r = completed)
  ∧ (is_Some (Report.afterCleanup r) ↔ Report.status r = completed)
  ∧ (Report.pointsAwarded r ≠ 0 → Report.status r = completed).

Definition reportsWellFormed (db : DB) : Prop :=
  map_Forall (λ (_ : nat) (r : Report.t), fieldsMatchStatus r) (reports db).

(** The assignee of every report is a registered collector and its
    verifier a registered admin. *)
Definition staffRegistered (db : DB) : Prop :=
  map_Forall
    (λ (_ : nat) (r : Report.t),
       (∀ c, Report.assignedTo r = Some c →
             ∃ u, users db !! c = Some u ∧ User.role u = collector)
       ∧ (∀ a, Report.verifiedBy r = Some a →
               ∃ u, users db !! a = Some u ∧ User.role u = admin))
    (reports db).

(** The moment the cleanup of a report started: the date of the first
    [in_progress] entry of its history, which is the entry the completion
    route looks up. *)
Definition startedAt (r : Report.t) : option Z :=
  Report.changedAt <$>
    find (λ h, bool_decide (Report.h_status h = in_progress))
         (Report.statusHistory r).



(** A report is an open task of collector [c]: assigned to [c] and not
    yet completed. *)
Definition openTask (c : nat) (r : Report.t) : Prop :=
  Report.assignedTo r = Some c
  ∧ Report.status r ∈ [assigned; in_progress].

(** The [assignedReports] of every user list, without repetition, exactly
    the open tasks of that user. *)
Definition workloadConsistent (db : DB) : Prop :=
  map_Forall
    (λ (c : nat) (u : User.t),
       NoDup (User.assignedReports u)
       ∧ ∀ id, id ∈ User.assignedReports u
               ↔ ∃ r, reports db !! id = Some r ∧ openTask c r)
    (users db).

(** The sum of a quantity over the stored reports. *)
Definition mapSum (f : Report.t → Z) (m : gmap nat Report.t) : Z :=
  map_fold (λ (_ : nat) (r : Report.t) (acc : Z), acc + f r) 0 m.

(** What a report contributes to the balance and the counters of the user
    [uid]: its award when [uid] submitted it; one submission; one rewarded
    report once it carries an award; one finished task when [uid] was its
    collector and it is completed. *)
Definition awardedTo (uid : nat) (r : Report.t) : Z :=
  if bool_decide (Report.citizen r = uid) then Report.pointsAwarded r else 0.

Definition submittedBy (uid : nat) (r : Report.t) : Z :=
  if bool_decide (Report.citizen r = uid) then 1 else 0.

Definition rewardedTo (uid : nat) (r : Report.t) : Z :=
  if bool_decide (Report.citizen r = uid ∧ 0 < Report.pointsAwarded r)
  then 1 else 0.

Definition finishedBy (uid : nat) (r : Report.t) : Z :=
  if bool_decide (Report.assignedTo r = Some uid
                  ∧ Report.status r = completed)
  then 1 else 0.



(** The balance and the counters of a user, each less what the stored
    reports account for. *)
Definition unaccounted (db : DB) (uid : nat) (u : User.t) : Z * Z * Z * Z :=
  (User.points u - mapSum (awardedTo uid) (reports db),
   User.totalReports u - mapSum (submittedBy uid) (reports db),
   User.completedReports u - mapSum (rewardedTo uid) (reports db),
   User.completedTasks u - mapSum (finishedBy uid) (reports db)).

(** ** middleware/auth.js: the limiter of sensitive operations *)

Module RateLimit.

(** [global.rateLimitStore] is a map from keys to the attempts let through
    under each key, oldest first: a [gmap string (list Z)]. *)

Definition windowMs : Z := 15 * 60 * 1000.

Definition maxAttempts : nat := 5.

(** The key of a request: [`${userId}_${req.route.path}`], where [userId]
    is the id of the authenticated user or else the address of the
    client. *)
Definition key (userId path : string) : string := userId +:+ "_" +:+ path.

(** [Math.ceil(ms / 1000)] for an integer number of milliseconds *)
Definition ceilSeconds (ms : Z) : Z := - ((- ms) / 1000).

(** What the middleware does with the request: [next()], or the 429
    answer with its [retryAfter]. *)
Inductive Verdict :=
  | Next
  | RateLimited (retryAfter : Z).

(** [sensitiveOperationLimit], for a request with key [k] at clock reading
    [now]. *)
Definition sensitiveOperationLimit
    (store : gmap string (list Z)) (k : string) (now : Z) : Verdict * gmap string (list Z) :=
  let userAttempts := default [] (store !! k) in
  let recentAttempts :=
    filter (λ timestamp, now - timestamp < windowMs) userAttempts in
  if (maxAttempts <=? length recentAttempts)%nat then
    (RateLimited (ceilSeconds (hd 0 recentAttempts + windowMs - now)), store)
  else (Next, <[k := recentAttempts ++ [now]]> store).

(** The store after a sequence of requests, each with its key and its
    clock reading. *)
Fixpoint run (store : gmap string (list Z)) (reqs : list (string * Z))
    : gmap string (list Z) :=
  match reqs with
  | [] => store
  | (k, now) :: rest => run (sensitiveOperationLimit store k now).2 rest
  end.

(** The clock readings of the requests with key [k] that were let
    through, in order. *)
Fixpoint accepted (store : gmap string (list Z)) (reqs : list (string * Z)) (k : string)
    : list Z :=
  match reqs with
  | [] => []
  | (k', now) :: rest =>
      match (sensitiveOperationLimit store k' now).1 with
      | Next => if bool_decide (k' = k) then [now] else []
      | RateLimited _ => []
      end ++ accepted (sensitiveOperationLimit store k' now).2 rest k
  end.

End RateLimit.

(** What the limiter has stored for a key after letting through the
    attempts [A], the last of them at [tl]: those of [A] that are less
    than a window older than [tl]. *)
Definition storedFor (A : list Z) : list Z :=
  filter (λ t, default 0 (last A) - t < RateLimit.windowMs) A.

Definition spaced (A : list Z) : Prop :=
  ∀ i a b, A !! i = Some a → A !! (i + 5)%nat = Some b →
           RateLimit.windowMs ≤ b - a.

(** Seven attempts to log in from one address: one per second for six
    seconds, and one a quarter of an hour after the first. *)
Definition loginAttempts : list (string * Z) :=
  [ ("203.0.113.7_/login", 0); ("203.0.113.7_/login", 1000);
    ("203.0.113.7_/login", 2000); ("203.0.113.7_/login", 3000);
    ("203.0.113.7_/login", 4000); ("203.0.113.7_/login", 5000);
    ("203.0.113.7_/login", 900000) ].

(** No key has more than five attempts stored. *)
Definition storeBounded (store : gmap string (list Z)) : Prop :=
  ∀ k l, store !! k = Some l → (length l ≤ 5)%nat.

(** Clock readings that never go back. *)
Definition ascending (A : list Z) : Prop :=
  ∀ i j a b, (i ≤ j)%nat → A !! i = Some a → A !! j = Some b → a ≤ b.

(** The state of the limiter for the key [k] once it has let through the
    attempts [A] with that key. *)
Definition limiterAt (store : gmap string (list Z)) (k : string) (A : list Z) : Prop :=
  default [] (store !! k) = storedFor A ∧ ascending A ∧ spaced A.

(** ** Answers of the further routes *)

(** What a route sends: the body of its 200 answer; the refusal of the
    middleware in front of it; or a failure of its own, with its status
    and its [error] tag (its [message], where it sends no tag). *)
Inductive Answer (A : Type) :=
  | Json (body : A)
  | Refused (r : Response)
  | Failure (code : Z) (error : string).
Arguments Json {A} body.
Arguments Refused {A} r.
Arguments Failure {A} code error.

(** The middleware chain in front of a handler, for any kind of result:
    [refuse] turns the answer of the middleware into a result. *)
Definition withAuth {R : Type}
    (db : DB) (userId : nat) (check : User.t → option Response)
    (refuse : Response → R) (handler : User.t → R) : R :=
  match authenticateToken db userId with
  | inl r => refuse r
  | inr u =>
      match check u with
      | Some r => refuse r
      | None => handler u
      end
  end.

(** express-validator's [isInt()] without bounds, on a JSON number: the
    number is rendered with [String], which gives the digits of an integer
    below 10^21 and an exponent from there on. *)
Definition isInteger (v : JsValue) : bool :=
  match intValue v with
  | Some z => Z.abs z <? 10 ^ 21
  | None => false
  end.

(** ** routes/users.js: the routes of the admin *)

Module UsersAdmin.

Definition set_isActive (b : bool) (u : User.t) : User.t :=
  User.mk (User.name u) (User.role u) (User.points u) (User.totalReports u)
    (User.completedReports u) (User.assignedReports u)
    (User.completedTasks u) b (User.updatedAt u).

(** [PUT /api/users/:id/status]; [isActive] is the body field, sent as a
    JSON boolean. *)
Definition setStatus
    (db : DB) (userId id : nat) (isActive : bool) (now : Z)
    : Answer unit * DB :=
  withAuth db userId requireAdmin (λ r, (Refused r, db)) (λ _,
    match users db !! id with
    | None => (Failure 404 "USER_NOT_FOUND", db)
    | Some user =>
        if bool_decide (userId = id) && negb isActive
        then (Failure 400 "CANNOT_DEACTIVATE_SELF", db)
        else
          (Json tt,
           set_users
             (<[id := User.preSave now (set_isActive isActive user)]>
                (users db)) db)
    end).

(** What [PUT /api/users/:id/points/adjust] answers on success. *)
Record Adjustment := mkAdjustment {
  oldPoints : Z;
  newPoints : Z;
  adjustment : Z;
  reason : string
}.

(** [PUT /api/users/:id/points/adjust]; [points] is the body field, a JSON
    number or absent. *)
Definition adjustPoints
    (db : DB) (userId id : nat) (points : JsValue) (reason_ operation : string)
    (now : Z) : Answer Adjustment * DB :=
  withAuth db userId requireAdmin (λ r, (Refused r, db)) (λ _,
    if negb (isInteger points
             && negb (String.eqb (trim reason_) "")
             && bool_decide (operation ∈ ["add"; "subtract"; "set"]))
    then (Failure 400 "Validation failed", db)
    else match users db !! id with
    | None => (Failure 404 "USER_NOT_FOUND", db)
    | Some user =>
        if negb (bool_decide (User.role user = citizen))
        then (Failure 400 "INVALID_USER_ROLE", db)
        else
          let points_ := default 0 (intValue points) in
          let old := User.points user in
          let new :=
            if String.eqb operation "add" then old + points_
            else if String.eqb operation "subtract"
            then Z.max 0 (old - points_)
            else Z.max 0 points_ in
          (Json (mkAdjustment old new (new - old) reason_),
           set_users
             (<[id := User.preSave now (User.set_points new user)]>
                (users db)) db)
    end).

(** A request to one of the two routes. *)
Inductive Request :=
  | SetStatus (userId id : nat) (isActive : bool)
  | AdjustPoints (userId id : nat) (points : JsValue)
      (reason_ operation : string).

Definition serve (db : DB) (rq : Request) (now : Z) : DB :=
  match rq with
  | SetStatus u id b => (setStatus db u id b now).2
  | AdjustPoints u id p r o => (adjustPoints db u id p r o now).2
  end.

Fixpoint serveAll (db : DB) (rqs : list (Request * Z)) : DB :=
  match rqs with
  | [] => db
  | (rq, now) :: rest => serveAll (serve db rq now) rest
  end.

End UsersAdmin.

(** The user who sends a request to a lifecycle route. *)
Definition caller (rq : ReportsRoutes.Request) : nat :=
  match rq with
  | ReportsRoutes.Submit u _ _
  | ReportsRoutes.Verify u _ _ _
  | ReportsRoutes.Assign u _ _
  | ReportsRoutes.Start u _ _
  | ReportsRoutes.Complete u _ _ _
  | ReportsRoutes.AwardPoints u _ _ => u
  end.

(** An adjustment that adds does not add a negative amount. *)
Definition addsNoDebt (rq : UsersAdmin.Request) : Prop :=
  match rq with
  | UsersAdmin.AdjustPoints _ _ points _ operation =>
      operation = "add" → 0 ≤ default 0 (intValue points)
  | UsersAdmin.SetStatus _ _ _ => True
  end.


(** ** routes/rewards.js: using a redemption *)

Module RedemptionsRoutes.

(** [redemption.isUsed = true; redemption.usedAt = new Date()] *)
Definition markUsed (now : Z) (r : RewardsRoutes.MockRedemption)
    : RewardsRoutes.MockRedemption :=
  RewardsRoutes.mkRedemption
    (RewardsRoutes.rd_id r) (RewardsRoutes.userId r)
    (RewardsRoutes.rewardId r) (RewardsRoutes.couponCode r)
    (RewardsRoutes.pointsUsed r) true (Some now)
    (RewardsRoutes.expiresAt r) (RewardsRoutes.createdAt r).

(** [redemptions.find(r => r._id === id)] returns the first match, and the
    handler mutates that very object. *)
Fixpoint updateFirst
    (id : string)
    (f : RewardsRoutes.MockRedemption → RewardsRoutes.MockRedemption)
    (l : list RewardsRoutes.MockRedemption)
    : list RewardsRoutes.MockRedemption :=
  match l with
  | [] => []
  | r :: l' =>
      if String.eqb (RewardsRoutes.rd_id r) id then f r :: l'
      else r :: updateFirst id f l'
  end.

(** [PUT /api/rewards/redemptions/:id/use] *)
Definition use
    (db : DB) (mem : RewardsRoutes.Memory) (uid : nat) (id : string) (now : Z)
    : Answer unit * RewardsRoutes.Memory :=
  withAuth db uid (λ _, None) (λ r, (Refused r, mem)) (λ user,
    match
      find (λ r, String.eqb (RewardsRoutes.rd_id r) id)
           (RewardsRoutes.redemptions mem)
    with
    | None => (Failure 404 "Redemption not found", mem)
    | Some redemption =>
        if negb (bool_decide (RewardsRoutes.userId redemption = uid))
           && negb (bool_decide (User.role user = admin))
        then (Failure 403 "Access denied", mem)
        else if RewardsRoutes.isUsed redemption
        then (Failure 400 "Redemption already used", mem)
        else if RewardsRoutes.expiresAt redemption <? now
        then (Failure 400 "Redemption has expired", mem)
        else
          (Json tt,
           RewardsRoutes.mkMemory (RewardsRoutes.rewards mem)
             (updateFirst id (markUsed now) (RewardsRoutes.redemptions mem)))
    end).

(** A request to the rewards router that changes its memory, or a
    balance. *)
Inductive Request :=
  | Redeem (uid : nat) (id : string) (code suffix : string)
  | Use (uid : nat) (id : string).

Definition serve (st : DB * RewardsRoutes.Memory) (rq : Request) (now : Z)
    : DB * RewardsRoutes.Memory :=
  match rq with
  | Redeem uid id code suffix =>
      (RewardsRoutes.redeem st.1 st.2 uid id now code suffix).2
  | Use uid id => (st.1, (use st.1 st.2 uid id now).2)
  end.

Fixpoint serveAll (st : DB * RewardsRoutes.Memory) (rqs : list (Request * Z))
    : DB * RewardsRoutes.Memory :=
  match rqs with
  | [] => st
  | (rq, now) :: rest => serveAll (serve st rq now) rest
  end.

End RedemptionsRoutes.

(** The redemption that requests with the id [id] reach has been used. *)
Definition usedUp (id : string) (mem : RewardsRoutes.Memory) : Prop :=
  ∃ r, find (λ r, String.eqb (RewardsRoutes.rd_id r) id)
            (RewardsRoutes.redemptions mem) = Some r
       ∧ RewardsRoutes.isUsed r = true.

(** The points that the redemptions of a user record. *)
Definition spentBy (uid : nat) (l : list RewardsRoutes.MockRedemption) : Z :=
  foldr Z.add 0
    (RewardsRoutes.pointsUsed
       <$> filter (λ r, RewardsRoutes.userId r = uid) l).

(** ** models/Reward.js and routes/users.js: the rewards on offer *)

Module RewardQueries.

(** The order of [.sort({ pointsCost: 1 })]. *)
Definition cheaperFirst (a b : nat * Reward.t) : Prop :=
  Reward.pointsCost a.2 ≤ Reward.pointsCost b.2.

#[global] Instance cheaperFirst_dec : RelDecision cheaperFirst.
Proof. intros a b. unfold cheaperFirst. apply _. Defined.

(** The query of [getAvailable]:
    [{ isActive: true, remainingQuantity: { $gt: 0 },
       validFrom: { $lte: now }, validUntil: { $gte: now } }]. *)
Definition inQuery (now : Z) (r : Reward.t) : bool :=
  bool_decide (Reward.isActive r = true)
  && bool_decide (0 < Reward.remainingQuantity r)
  && bool_decide (Reward.validFrom r ≤ now)
  && bool_decide (now ≤ Reward.validUntil r).

(** [rewardSchema.statics.getAvailable]; [now] is its [new Date()]. The
    rewards come with their ids, cheapest first; rewards of the same cost
    keep the order of the collection. *)
Definition getAvailable (now : Z) (st : Reward.Store) : list (nat * Reward.t) :=
  merge_sort cheaperFirst
    (List.filter (λ kv, inQuery now kv.2) (map_to_list (Reward.rewards st))).

(** An element of the [rewards] array of the answer. *)
Record Offer := mkOffer {
  o_id : nat;
  o_reward : Reward.t;
  canAfford : bool
}.

(** [GET /api/users/rewards/available]: the [rewards] and the [userPoints]
    of the answer. *)
Definition available (db : DB) (userId : nat) (now : Z)
    : Answer (list Offer * Z) :=
  withAuth db userId requireCitizen Refused (λ user,
    Json
      (map (λ kv, mkOffer kv.1 kv.2
                    (bool_decide (Reward.pointsCost kv.2 ≤ User.points user)))
           (getAvailable now (rewardStore db)),
       User.points user)).

End RewardQueries.

(** ** routes/reports.js: reading reports *)

#[global] Instance Priority_eq_dec : EqDecision Report.Priority.
Proof. solve_decision. Defined.

Module ReportsQueries.

(** A parameter of the query string: absent; present but refused by its
    validator (for a date, which has no validator: not a date); or present
    with the value it denotes. *)
Inductive Param (A : Type) :=
  | Absent
  | Malformed
  | Given (a : A).
Arguments Absent {A}.
Arguments Malformed {A}.
Arguments Given {A} a.

(** [req.query] of [GET /api/reports]. *)
Record Query := mkQuery {
  q_page : Param Z;
  q_limit : Param Z;
  q_status : Param Status;
  q_priority : Param Report.Priority;
  q_citizenId : Param nat;
  q_assignedTo : Param nat;
  q_startDate : Param Z;
  q_endDate : Param Z
}.

Definition wellFormed {A : Type} (p : Param A) : bool :=
  match p with
  | Malformed => false
  | _ => true
  end.

Definition given {A : Type} (p : Param A) : option A :=
  match p with
  | Given a => Some a
  | _ => None
  end.

(** [.optional().isInt({ min })] and [.optional().isInt({ min, max })] *)
Definition optionalIntFrom (lo : Z) (p : Param Z) : bool :=
  match p with
  | Absent => true
  | Malformed => false
  | Given z => lo <=? z
  end.

Definition optionalIntBetween (lo hi : Z) (p : Param Z) : bool :=
  match p with
  | Absent => true
  | Malformed => false
  | Given z => (lo <=? z) && (z <=? hi)
  end.

(** [validationResult(req).isEmpty()] *)
Definition validated (q : Query) : bool :=
  optionalIntFrom 1 (q_page q)
  && optionalIntBetween 1 100 (q_limit q)
  && wellFormed (q_status q)
  && wellFormed (q_priority q)
  && wellFormed (q_citizenId q)
  && wellFormed (q_assignedTo q).

(** The [filter] object handed to [Report.find]. *)
Record Filter := mkFilter {
  f_citizen : option nat;
  f_assignedTo : option nat;
  f_status : option Status;
  f_priority : option Report.Priority;
  f_from : option Z;
  f_to : option Z
}.

(** The filter the handler builds: first from the role of the caller, then
    from the query; [citizenId] and [assignedTo] count for an admin
    only. *)
Definition buildFilter (user : User.t) (userId : nat) (q : Query) : Filter :=
  let isAdmin := bool_decide (User.role user = admin) in
  let citizen1 :=
    if bool_decide (User.role user = citizen) then Some userId else None in
  let assignedTo1 :=
    if bool_decide (User.role user = citizen) then None
    else if bool_decide (User.role user = collector) then Some userId
    else None in
  mkFilter
    (match given (q_citizenId q) with
     | Some c => if isAdmin then Some c else citizen1
     | None => citizen1
     end)
    (match given (q_assignedTo q) with
     | Some a => if isAdmin then Some a else assignedTo1
     | None => assignedTo1
     end)
    (given (q_status q))
    (given (q_priority q))
    (given (q_startDate q))
    (given (q_endDate q)).

(** Does a report match the filter? *)
Definition matches (f : Filter) (r : Report.t) : bool :=
  from_option (λ c, bool_decide (Report.citizen r = c)) true (f_citizen f)
  && from_option (λ a, bool_decide (Report.assignedTo r = Some a)) true
       (f_assignedTo f)
  && from_option (λ s, bool_decide (Report.status r = s)) true (f_status f)
  && from_option (λ p, bool_decide (Report.priority r = p)) true
       (f_priority f)
  && from_option (λ d, d <=? Report.createdAt r) true (f_from f)
  && from_option (λ d, Report.createdAt r <=? d) true (f_to f).

(** The order of [.sort({ createdAt: -1 })]. *)
Definition newerFirst (a b : nat * Report.t) : Prop :=
  Report.createdAt b.2 ≤ Report.createdAt a.2.

#[global] Instance newerFirst_dec : RelDecision newerFirst.
Proof. intros a b. unfold newerFirst. apply _. Defined.

(** [Report.find(filter).sort({ createdAt: -1 })]: the matching reports
    with their ids, newest first; reports of the same date keep the order
    of the collection. *)
Definition findSorted (db : DB) (f : Filter) : list (nat * Report.t) :=
  merge_sort newerFirst
    (List.filter (λ kv, matches f kv.2) (map_to_list (reports db))).

(** [Math.ceil(a / b)] for integers, [b] positive *)
Definition ceilDiv (a b : Z) : Z := - ((- a) / b).

Record Pagination := mkPagination {
  current : Z;
  pages : Z;
  total : Z;
  limit : Z
}.

Record Listing := mkListing {
  items : list (nat * Report.t);
  pagination : Pagination
}.

(** [GET /api/reports]. A date that is not one makes the query throw. *)
Definition getAll (db : DB) (userId : nat) (q : Query) : Answer Listing :=
  withAuth db userId (λ _, None) Refused (λ user,
    if negb (validated q) then Failure 400 "Validation failed"
    else if negb (wellFormed (q_startDate q) && wellFormed (q_endDate q))
    then Failure 500 "GET_REPORTS_ERROR"
    else
      let page := default 1 (given (q_page q)) in
      let limit_ := default 10 (given (q_limit q)) in
      let skip := (page - 1) * limit_ in
      let found := findSorted db (buildFilter user userId q) in
      let total_ := Z.of_nat (length found) in
      Json
        (mkListing
           (take (Z.to_nat limit_) (drop (Z.to_nat skip) found))
           (mkPagination page (ceilDiv total_ limit_) total_ limit_))).

(** [.populate(path)] of a reference to a user: [null] when nobody is
    referenced or the user does not exist. *)
Definition populate (db : DB) (ref : option nat) : option nat :=
  ref ≫= λ a, match users db !! a with Some _ => Some a | None => None end.

(** [GET /api/reports/:id]. [report.citizen._id] throws when the citizen
    could not be populated. *)
Definition getById (db : DB) (userId id : nat) : Answer Report.t :=
  withAuth db userId (λ _, None) Refused (λ user,
    match reports db !! id with
    | None => Failure 404 "REPORT_NOT_FOUND"
    | Some report =>
        if bool_decide (User.role user = citizen) then
          match populate db (Some (Report.citizen report)) with
          | None => Failure 500 "GET_REPORT_ERROR"
          | Some c =>
              if negb (bool_decide (c = userId))
              then Failure 403 "ACCESS_DENIED"
              else Json report
          end
        else if bool_decide (User.role user = collector)
                && negb (bool_decide
                           (populate db (Report.assignedTo report)
                            = Some userId))
        then Failure 403 "ACCESS_DENIED"
        else Json report
    end).

(** The same query for another page. *)
Definition atPage (p : Z) (q : Query) : Query :=
  mkQuery (Given p) (q_limit q) (q_status q) (q_priority q) (q_citizenId q)
    (q_assignedTo q) (q_startDate q) (q_endDate q).

(** The reports on a page of the answer; none when the request fails. *)
Definition pageItems (db : DB) (userId : nat) (q : Query) (p : Z)
    : list (nat * Report.t) :=
  match getAll db userId (atPage p q) with
  | Json l => items l
  | _ => []
  end.

End ReportsQueries.

(** No two stored reports were created at the same moment. *)
Definition distinctDates (db : DB) : Prop :=
  ∀ id1 id2 r1 r2,
    reports db !! id1 = Some r1 → reports db !! id2 = Some r2 →
    Report.createdAt r1 = Report.createdAt r2 → id1 = id2.

(** Two reports of citizen 1: report 10, completed, and report 11,
    submitted later; and the request of the admin for pages of one
    report. *)
Definition twoReports : DB :=
  (ReportsRoutes.submit Sample.completedDb 1 Sample.body 11 906000).2.

Definition onePerPage : ReportsQueries.Query :=
  ReportsQueries.mkQuery ReportsQueries.Absent (ReportsQueries.Given 1)
    ReportsQueries.Absent ReportsQueries.Absent ReportsQueries.Absent
    ReportsQueries.Absent ReportsQueries.Absent ReportsQueries.Absent.

Definition firstPage : ReportsQueries.Listing :=
  match ReportsQueries.getAll twoReports 2 onePerPage with
  | Json l => l
  | _ => ReportsQueries.mkListing [] (ReportsQueries.mkPagination 0 0 0 0)
  end.

Definition bothReports : list (nat * Report.t) :=
  ReportsQueries.findSorted twoReports
    (ReportsQueries.buildFilter Sample.root 2 onePerPage).

(** What a user may read: everything as an admin, the own reports as a
    citizen, the reports assigned to the user as a collector. *)
Definition mayRead (u : User.t) (uid : nat) (r : Report.t) : Prop :=
  match User.role u with
  | admin => True
  | citizen => Report.citizen r = uid
  | collector => Report.assignedTo r = Some uid
  end.

(** ** routes/users.js: the collectors an admin can assign to *)

#[global] Instance openTask_dec (c : nat) (r : Report.t) : Decision (openTask c r).
Proof. unfold openTask. apply _. Defined.

Module UsersQueries.

(** The order of [.sort({ completedTasks: -1 })]. *)
Definition moreTasksFirst (a b : nat * User.t) : Prop :=
  User.completedTasks b.2 ≤ User.completedTasks a.2.

#[global] Instance moreTasksFirst_dec : RelDecision moreTasksFirst.
Proof. intros a b. unfold moreTasksFirst. apply _. Defined.

(** An element of the [collectors] array of the answer. *)
Record Collector := mkCollector {
  c_id : nat;
  c_user : User.t;
  currentWorkload : Z
}.

(** [GET /api/users/collectors/available]; collectors with the same
    number of completed tasks keep the order of the collection. *)
Definition availableCollectors (db : DB) (userId : nat)
    : Answer (list Collector) :=
  withAuth db userId requireAdmin Refused (λ _,
    Json
      (map (λ kv, mkCollector kv.1 kv.2
                    (Z.of_nat (length (User.assignedReports kv.2))))
           (merge_sort moreTasksFirst
              (List.filter
                 (λ kv, bool_decide (User.role kv.2 = collector)
                        && bool_decide (User.isActive kv.2 = true))
                 (map_to_list (users db)))))).

End UsersQueries.

(** The number of open tasks of a collector among the stored reports. *)
Definition openTasks (db : DB) (c : nat) : nat :=
  size (filter (λ kv : nat * Report.t, openTask c kv.2) (reports db)).

(** No reward has more redemptions on record than have left its stock, and
    no stock is negative. *)
Definition neverOversold (st : Reward.Store) : Prop :=
  map_Forall
    (λ (id : nat) (r : Reward.t),
       Z.of_nat (length (Reward.redemptionsOf id (Reward.redemptions st)))
       ≤ Reward.totalQuantity r - Reward.remainingQuantity r
       ∧ 0 ≤ Reward.remainingQuantity r)
    (Reward.rewards st).

(** * Properties *)

(** ** The definitions at work *)

Example toString_examples :
  toString 0 = "0" ∧ toString 7 = "7" ∧ toString 1000000 = "1000000".
Proof. repeat split. Qed.

Example padStart_examples :
  padStart 6 "0"%char "42" = "000042"
  ∧ padStart 6 "0"%char "1234567" = "1234567".
Proof. repeat split. Qed.

Example trim_example : trim "  Overflowing bin " = "Overflowing bin".
Proof. reflexivity. Qed.

Example generateCouponCode_examples :
  Reward.generateCouponCode 1700000123456 "AB12" Sample.voucher
  = "WMS123456AB12"
  ∧ Reward.generateCouponCode 1700000123456 "AB12"
      (Reward.mk "Tea" 10 true 1 1 0 1 (Some "GreenStore") 0 0)
    = "GRE123456AB12".
Proof. repeat split. Qed.

Example roundMinutes_examples :
  ReportsRoutes.roundMinutes 900000 = 15
  ∧ ReportsRoutes.roundMinutes 29999 = 0
  ∧ ReportsRoutes.roundMinutes 30000 = 1.
Proof. repeat split. Qed.

Example valid_path_examples :
  Report.valid_path [submitted; verified; assigned; in_progress; completed]
  = true
  ∧ Report.valid_path [submitted; rejected] = true
  ∧ Report.valid_path [submitted; assigned] = false
  ∧ Report.valid_path [verified; rejected] = false
  ∧ Report.valid_path [completed; submitted] = false.
Proof. repeat split. Qed.

(** A report that was rejected cannot be assigned. *)
Example rejected_report_cannot_be_assigned :
  let s1 := ReportsRoutes.submit Sample.db0 1 Sample.body 10 1000 in
  let s2 := ReportsRoutes.verify s1.2 2 10 "reject" (Some "duplicate") 2000 in
  let s3 := ReportsRoutes.assign s2.2 2 10 (Some 3%nat) 3000 in
  s2.1 = Ok 200
  ∧ (Report.status <$> reports s2.2 !! 10%nat) = Some rejected
  ∧ (Report.verificationNotes <$> reports s2.2 !! 10%nat)
    = Some (Some "duplicate")
  ∧ s3 = (Err 400 INVALID_STATUS, s2.2).
Proof. vm_compute. repeat split. Qed.

(** A file that is not an image stops the submission. *)
Example submit_refuses_other_files :
  ReportsRoutes.submit Sample.db0 1
    (ReportsRoutes.mkSubmitBody "Overflowing bin"
       "Bin at the park gate is overflowing" "City Hall Park, New York"
       (JsNumber (407128 # 10000)) (JsNumber (-740060 # 10000))
       (Some Sample.cityHall) None
       (Some (mkUpload "text/plain" 8 "aGVsbG8=")))
    10 1000
  = (Err 500 UPLOAD_REJECTED, Sample.db0).
Proof. vm_compute. reflexivity. Qed.

(** ** Report identifiers *)

















(** The first report is "WR000001". *)
Example first_reportId :
  Report.reportId (Report.preSave true 0 1000 Sample.draft)
  = Some "WR000001".
Proof. reflexivity. Qed.


(** ** The points ledger: [addPoints] *)




(** ** The report lifecycle *)

Lemma reports_findByIdAndUpdate (uid : nat) (f : User.t → User.t) (db : DB) :
  reports (findByIdAndUpdate uid f db) = reports db.
Proof. reflexivity. Qed.

Lemma isInt_range (lo hi : Z) (v : JsValue) :
  isInt lo hi v = true → ∃ z, intValue v = Some z ∧ lo ≤ z ≤ hi.
Proof.
  unfold isInt. destruct (intValue v) as [z|]; [|discriminate].
  intros H. apply andb_prop in H as [H1 H2].
  exists z. split; [reflexivity|]. lia.
Qed.

Ltac open_route :=
  unfold guarded, authenticateToken, requireAdmin, requireCitizen,
    requireCollector, requireRole;
  repeat case_match; simplify_eq; cbn [fst snd] in *.

Ltac same_report H :=
  eapply ev_kept; [exact H | reflexivity ..].

Ltac lookup_target id rid H :=
  cbn [reports set_reports set_users findByIdAndUpdate] in H;
  destruct (decide (id = rid)) as [->|?];
  [ rewrite lookup_insert_eq in H; injection H as <-
  | rewrite lookup_insert_ne in H by assumption; same_report H ].

Lemma submit_evolves db u b oid now rid r' :
  reports (ReportsRoutes.submit db u b oid now).2 !! rid = Some r' →
  evolves (reports db !! rid) r'.
Proof.
  unfold ReportsRoutes.submit. open_route; intros H; try same_report H.
  lookup_target oid rid H.
  apply ev_created; try reflexivity.
  match goal with
  | Hc : _ || _ = false |- _ => apply orb_false_elim in Hc as [Hc _];
      apply bool_decide_eq_false in Hc
  end.
  destruct (reports db !! rid) eqn:E; [|reflexivity].
  exfalso. eauto.
Qed.

Lemma verify_evolves db u id action notes now rid r' :
  reports (ReportsRoutes.verify db u id action notes now).2 !! rid = Some r' →
  evolves (reports db !! rid) r'.
Proof.
  unfold ReportsRoutes.verify. open_route; intros H; try same_report H.
  all: lookup_target id rid H.
  all: match goal with
       | Hs : negb (bool_decide (Report.status ?r = submitted)) = false |- _ =>
           apply negb_false_iff, bool_decide_eq_true in Hs;
           eapply (ev_moved _ _ r); [eassumption| cbn; rewrite Hs; reflexivity
                                     | | reflexivity ..]
       end.
  all: reflexivity.
Qed.

Ltac moved_from st :=
  match goal with
  | Hs : negb (bool_decide (Report.status ?r = st)) = false,
    Hr : reports _ !! _ = Some ?r |- _ =>
      apply negb_false_iff, bool_decide_eq_true in Hs;
      eapply (ev_moved _ _ r);
      [ exact Hr | cbn; rewrite Hs; reflexivity | | reflexivity .. ];
      reflexivity
  end.

Lemma assign_evolves db u id cid now rid r' :
  reports (ReportsRoutes.assign db u id cid now).2 !! rid = Some r' →
  evolves (reports db !! rid) r'.
Proof.
  unfold ReportsRoutes.assign. open_route; intros H; try same_report H.
  all: lookup_target id rid H.
  all: moved_from verified.
Qed.

Lemma start_evolves db u id file now rid r' :
  reports (ReportsRoutes.start db u id file now).2 !! rid = Some r' →
  evolves (reports db !! rid) r'.
Proof.
  unfold ReportsRoutes.start. open_route; intros H; try same_report H.
  all: lookup_target id rid H.
  all: moved_from assigned.
Qed.

Lemma complete_evolves db u id file notes now rid r' :
  reports (ReportsRoutes.complete db u id file notes now).2 !! rid = Some r' →
  evolves (reports db !! rid) r'.
Proof.
  unfold ReportsRoutes.complete. open_route; intros H; try same_report H.
  all: lookup_target id rid H.
  all: moved_from in_progress.
Qed.

Lemma awardPoints_evolves db u id points now rid r' :
  reports (ReportsRoutes.awardPoints db u id points now).2 !! rid = Some r' →
  evolves (reports db !! rid) r'.
Proof.
  unfold ReportsRoutes.awardPoints. open_route; intros H; try same_report H.
  all: lookup_target id rid H.
  all: match goal with
       | Hs : negb (bool_decide (Report.status ?r = completed)) = false,
         Hr : reports _ !! _ = Some ?r,
         Hv : negb (isInt 1 1000 _) = false,
         Hp : (0 <? Report.pointsAwarded ?r) = false |- _ =>
           apply negb_false_iff, bool_decide_eq_true in Hs;
           apply negb_false_iff, isInt_range in Hv as (z0 & Hz & Hrange);
           apply Z.ltb_ge in Hp;
           eapply (ev_awarded _ _ r);
           [ exact Hr | exact Hs | exact Hs | reflexivity | exact Hp
           | cbn;
             match goal with
             | |- _ ≤ ?z ≤ _ => assert (z0 = z) as <- by congruence
             end;
             exact Hrange
           | reflexivity ]
       end.
Qed.

Lemma serve_evolves db rq now rid r' :
  reports (ReportsRoutes.serve db rq now).2 !! rid = Some r' →
  evolves (reports db !! rid) r'.
Proof.
  destruct rq; cbn [ReportsRoutes.serve].
  - apply submit_evolves.
  - apply verify_evolves.
  - apply assign_evolves.
  - apply start_evolves.
  - apply complete_evolves.
  - apply awardPoints_evolves.
Qed.

Lemma valid_path_snoc (l : list Status) (b : Status) :
  Report.valid_path (l ++ [b])
  = Report.valid_path l
    && match last l with
       | Some a => Report.transition a b
       | None => true
       end.
Proof.
  induction l as [|a l IH]; [reflexivity|].
  destruct l as [|a' l].
  - cbn. now rewrite andb_true_r.
  - change (Report.valid_path ((a :: a' :: l) ++ [b]))
      with (Report.transition a a' && Report.valid_path ((a' :: l) ++ [b])).
    rewrite IH.
    change (Report.valid_path (a :: a' :: l))
      with (Report.transition a a' && Report.valid_path (a' :: l)).
    change (last (a :: a' :: l)) with (last (a' :: l)).
    now rewrite andb_assoc.
Qed.

Lemma valid_path_tail (a : Status) (l : list Status) :
  Report.valid_path (a :: l) = true → Report.valid_path l = true.
Proof.
  destruct l as [|b l]; [reflexivity|].
  change (Report.valid_path (a :: b :: l))
    with (Report.transition a b && Report.valid_path (b :: l)).
  intros H. now apply andb_prop in H as [_ H].
Qed.

Lemma evolves_onPath (old : option Report.t) (new : Report.t) :
  evolves old new →
  (∀ r, old = Some r → onPath r) →
  onPath new.
Proof.
  unfold onPath, Report.history_statuses.
  intros [Hold Hs Hh Hp | r Hold Hs Hh Hp Hc | r e Hold Ht He Hh Hp Hc
         | r Hold Hs Hs' Hh Hp Hp' Hc] Hinv.
  - rewrite Hh, Hs. split; reflexivity.
  - destruct (Hinv r Hold) as [Hv Hl]. rewrite Hh, Hs. now split.
  - destruct (Hinv r Hold) as [Hv Hl]. rewrite Hh, map_app.
    cbn [map]. rewrite He. split.
    + rewrite app_comm_cons, valid_path_snoc, Hv, Hl. exact Ht.
    + rewrite app_comm_cons. apply last_snoc.
  - destruct (Hinv r Hold) as [Hv Hl]. rewrite Hh, Hs'. rewrite <- Hs.
    now split.
Qed.

Lemma evolves_terminal (r new : Report.t) :
  evolves (Some r) new →
  Report.terminal (Report.status r) = true →
  Report.status new = Report.status r
  ∧ Report.statusHistory new = Report.statusHistory r.
Proof.
  intros [Hold Hs Hh Hp | r0 Hold Hs Hh Hp Hc | r0 e Hold Ht He Hh Hp Hc
         | r0 Hold Hs Hs' Hh Hp Hp' Hc] Hterm; simplify_eq.
  - now split.
  - exfalso. destruct (Report.status r0); try discriminate Hterm;
      destruct (Report.status new); discriminate Ht.
  - split; [congruence | assumption].
Qed.

(** No route removes a report. *)
Lemma serve_persists db rq now rid :
  is_Some (reports db !! rid) →
  is_Some (reports (ReportsRoutes.serve db rq now).2 !! rid).
Proof.
  intros Hsome.
  destruct rq; cbn [ReportsRoutes.serve];
    unfold ReportsRoutes.submit, ReportsRoutes.verify, ReportsRoutes.assign,
      ReportsRoutes.start, ReportsRoutes.complete, ReportsRoutes.awardPoints;
    open_route; try assumption;
    cbn [reports set_reports set_users findByIdAndUpdate];
    apply lookup_insert_is_Some'; right; assumption.
Qed.

Lemma serve_invariant db rq now :
  lifecycleInvariant db →
  lifecycleInvariant (ReportsRoutes.serve db rq now).2.
Proof.
  intros Hinv id r Hr. apply serve_evolves in Hr.
  eapply evolves_onPath; [exact Hr|]. intros r0 Hr0. eapply Hinv, Hr0.
Qed.

Lemma serveAll_invariant rqs : ∀ db,
  lifecycleInvariant db →
  lifecycleInvariant (ReportsRoutes.serveAll db rqs).
Proof.
  induction rqs as [|[rq now] rqs IH]; intros db Hinv; [exact Hinv|].
  cbn [ReportsRoutes.serveAll]. apply IH, serve_invariant, Hinv.
Qed.

Lemma serveAll_terminal rqs : ∀ db id r,
  reports db !! id = Some r →
  Report.terminal (Report.status r) = true →
  ∃ r', reports (ReportsRoutes.serveAll db rqs) !! id = Some r'
        ∧ Report.status r' = Report.status r
        ∧ Report.statusHistory r' = Report.statusHistory r.
Proof.
  induction rqs as [|[rq now] rqs IH]; intros db id r Hr Hterm.
  - exists r. now split.
  - cbn [ReportsRoutes.serveAll].
    destruct (serve_persists db rq now id) as [r1 Hr1]; [eauto|].
    pose proof (serve_evolves _ _ _ _ _ Hr1) as Hev. rewrite Hr in Hev.
    destruct (evolves_terminal _ _ Hev Hterm) as [Hs Hh].
    destruct (IH _ id r1 Hr1) as (r' & Hr' & Hs' & Hh');
      [rewrite Hs; exact Hterm|].
    exists r'. split; [exact Hr'|]. split; congruence.
Qed.

(** C4. Starting from stored reports that respect the lifecycle (none at
    all, for instance) and serving any sequence of requests to the
    lifecycle routes, with any callers and arguments: the statuses recorded
    in every report's [statusHistory] form a path of the graph
    submitted -> verified -> assigned -> in_progress -> completed with the
    one branch submitted -> rejected; that path continues from the initial
    [submitted] and ends in the report's current status, so no transition
    skips a state; and a report that is [completed] or [rejected] keeps its
    status and its history whatever is served afterwards. *)
Theorem statusHistory_is_a_valid_path (db : DB) (rqs : list (ReportsRoutes.Request * Z)) :
  lifecycleInvariant db →
  (∀ id r, reports (ReportsRoutes.serveAll db rqs) !! id = Some r →
     Report.valid_path (Report.history_statuses r) = true
     ∧ Report.valid_path (submitted :: Report.history_statuses r) = true
     ∧ last (submitted :: Report.history_statuses r) = Some (Report.status r))
  ∧ (∀ id r, reports db !! id = Some r →
     Report.terminal (Report.status r) = true →
     ∃ r', reports (ReportsRoutes.serveAll db rqs) !! id = Some r'
           ∧ Report.status r' = Report.status r
           ∧ Report.statusHistory r' = Report.statusHistory r).
Proof.
  intros Hinv. split.
  - intros id r Hr.
    destruct (serveAll_invariant rqs db Hinv id r Hr) as [Hv Hl].
    split; [eapply valid_path_tail, Hv|]. now split.
  - intros id r Hr Hterm. eapply serveAll_terminal; eassumption.
Qed.

Lemma statusHistory_is_a_valid_path_witness :
  lifecycleInvariant Sample.db0
  ∧ (∀ id r,
       reports (ReportsRoutes.serveAll Sample.db0 Sample.happyPath) !! id
       = Some r →
       Report.valid_path (Report.history_statuses r) = true
       ∧ Report.valid_path (submitted :: Report.history_statuses r) = true
       ∧ last (submitted :: Report.history_statuses r)
         = Some (Report.status r)).
Proof.
  assert (H : lifecycleInvariant Sample.db0).
  { intros id r Hr. cbn in Hr. rewrite lookup_empty in Hr. discriminate Hr. }
  split; [exact H|].
  exact (proj1 (statusHistory_is_a_valid_path Sample.db0 Sample.happyPath H)).
Defined.

(** ** Users across the lifecycle routes *)

Lemma alter_account (f : User.t → User.t) (id uid : nat)
    (m : gmap nat User.t) (u : User.t) (keepsPoints : bool) :
  (∀ x, sameAccount x (f x)
        ∧ (keepsPoints = true → User.points (f x) = User.points x)) →
  m !! uid = Some u →
  ∃ u', alter f id m !! uid = Some u' ∧ sameAccount u u'
        ∧ (keepsPoints = true → User.points u' = User.points u).
Proof.
  intros Hf Hu. destruct (decide (id = uid)) as [->|Hne].
  - rewrite lookup_alter_eq, Hu. exists (f u). split; [reflexivity|].
    apply Hf.
  - rewrite lookup_alter_ne by assumption. exists u.
    split; [assumption|]. repeat split.
Qed.

Ltac account_alter H :=
  eapply (alter_account _ _ _ _ _ true) in H;
  [ destruct H as (? & -> & ? & Hpts); eexists; split; [reflexivity|];
    split; [eassumption|]; apply Hpts; reflexivity
  | intros x; split; [repeat split | intros _; reflexivity] ].

Lemma serve_account db rq now uid u :
  users db !! uid = Some u →
  ∃ u', users (ReportsRoutes.serve db rq now).2 !! uid = Some u'
        ∧ sameAccount u u'
        ∧ match rq with
          | ReportsRoutes.AwardPoints _ _ _ => True
          | _ => User.points u' = User.points u
          end.
Proof.
  intros Hu.
  assert (Hsame : ∃ u', users db !! uid = Some u' ∧ sameAccount u u'
                        ∧ User.points u' = User.points u).
  { exists u. repeat split. exact Hu. }
  destruct rq; cbn [ReportsRoutes.serve];
    unfold ReportsRoutes.submit, ReportsRoutes.verify, ReportsRoutes.assign,
      ReportsRoutes.start, ReportsRoutes.complete, ReportsRoutes.awardPoints;
    open_route;
    try exact Hsame; clear Hsame;
    cbn [users reports set_reports set_users findByIdAndUpdate].
  all: try solve [account_alter Hu].
  all: try solve [exists u; repeat split; assumption].
  match goal with
  | Ha : User.addPoints ?z _ ?c = Returned ?a,
    Hc : users db !! ?cid = Some ?c |- _ =>
      unfold User.addPoints in Ha;
      destruct (decide (User.role c = citizen)); [|discriminate Ha];
      injection Ha as <-;
      assert (Hins : ∃ u1, <[cid := User.preSave now
                  (User.set_points (User.points c + z) c)]> (users db) !! uid
                  = Some u1 ∧ sameAccount u u1);
      [ destruct (decide (cid = uid)) as [Heq|Hne];
        [ rewrite Heq, lookup_insert_eq; eexists; split; [reflexivity|];
          assert (u = c) as -> by congruence; repeat split
        | rewrite lookup_insert_ne by assumption; exists u;
          split; [assumption|]; repeat split ]
      | ]
  end.
  destruct Hins as (u1 & Hu1 & Hs1).
  match goal with
  | |- ∃ _, alter ?f ?i _ !! _ = _ ∧ _ =>
      eapply (alter_account f i _ _ _ false) in Hu1;
        [| intros x; split; [repeat split | discriminate] ]
  end.
  destruct Hu1 as (u2 & Hu2 & Hs2 & _). exists u2.
  split; [exact Hu2|]. split; [|exact I].
  destruct Hs1 as (? & ? & ?), Hs2 as (? & ? & ?).
  repeat split; congruence.
Qed.


Lemma guarded_signedIn db uid r :
  signedIn db uid r →
  ∃ u, users db !! uid = Some u ∧ User.role u = r
       ∧ ∀ (A : Type) (k : User.t → Response * A) (d : A),
           guarded db uid (requireRole [r]) k d = k u.
Proof.
  intros (u & Hu & Ha & Hr). exists u. split; [exact Hu|]. split; [exact Hr|].
  intros A k d.
  unfold guarded, authenticateToken, requireRole. rewrite Hu, Ha, Hr.
  rewrite bool_decide_eq_true_2; [reflexivity|]. apply list_elem_of_singleton.
  reflexivity.
Qed.

(** ** The steps of the happy path *)








(** ** Awarding points *)










(** ** The end-to-end scenario *)





(** ** Validation of the award *)




Lemma evolves_awardRange (old : option Report.t) (new : Report.t) :
  evolves old new →
  (∀ r, old = Some r →
        Report.pointsAwarded r = 0 ∨ 1 ≤ Report.pointsAwarded r ≤ 1000) →
  Report.pointsAwarded new = 0 ∨ 1 ≤ Report.pointsAwarded new ≤ 1000.
Proof.
  intros [Hold Hs Hh Hp | r Hold Hs Hh Hp Hc | r e Hold Ht He Hh Hp Hc
         | r Hold Hs Hs' Hh Hp Hp' Hc] Hinv.
  - left. exact Hp.
  - rewrite Hp. apply Hinv, Hold.
  - rewrite Hp. apply Hinv, Hold.
  - right. exact Hp'.
Qed.

Lemma serve_awardRange db rq now :
  awardRange db → awardRange (ReportsRoutes.serve db rq now).2.
Proof.
  intros Hinv id r Hr. apply serve_evolves in Hr.
  eapply evolves_awardRange; [exact Hr|]. intros r0 Hr0. eapply Hinv, Hr0.
Qed.




Example award_refused_examples :
  isInt 1 1000 JsUndefined = false
  ∧ isInt 1 1000 (JsNumber (3 # 2)) = false
  ∧ isInt 1 1000 (JsNumber 0) = false
  ∧ isInt 1 1000 (JsNumber 1001) = false
  ∧ isInt 1 1000 (JsNumber 1) = true
  ∧ isInt 1 1000 (JsNumber (2000 # 2)) = true.
Proof. repeat split. Qed.

(** ** Balances never go below zero *)

Lemma insert_nonNegative (db : DB) (uid : nat) (u : User.t) :
  nonNegative db → 0 ≤ User.points u →
  nonNegative (set_users (<[uid := u]> (users db)) db).
Proof.
  intros Hinv Hu id x. cbn [users set_users].
  destruct (decide (uid = id)) as [->|Hne].
  - rewrite lookup_insert_eq. intros [= <-]. exact Hu.
  - rewrite lookup_insert_ne by assumption. apply Hinv.
Qed.

Lemma deductPoints_nonNegative (amount now : Z) (u u' : User.t) :
  User.deductPoints amount now u = Returned u' →
  0 ≤ User.points u' ∧ User.points u' = User.points u - amount.
Proof.
  unfold User.deductPoints.
  destruct (bool_decide (User.role u = citizen) && (amount <=? User.points u))
    eqn:Hc; [|discriminate].
  apply andb_prop in Hc as [_ Hle%Z.leb_le].
  intros [= <-]. cbn. lia.
Qed.

Lemma perform_nonNegative (st : Ledger.State) (c : Ledger.Call) (now : Z) :
  nonNegative st.1 → addsNonNegative c →
  nonNegative (Ledger.perform st c now).1.
Proof.
  destruct st as [db mem]. intros Hinv Hc.
  destruct c as [uid amount | uid amount | uid rewardId now2 rnd
                | uid id code suffix]; cbn [Ledger.perform fst snd].
  - unfold Ledger.onUser, User.addPoints.
    destruct (users db !! uid) as [u|] eqn:Hu; [|exact Hinv].
    destruct (decide (User.role u = citizen)); [|exact Hinv].
    cbn [snd]. apply insert_nonNegative; [exact Hinv|].
    pose proof (Hinv uid u Hu) as Hu0. cbn in Hu0, Hc |- *. lia.
  - unfold Ledger.onUser.
    destruct (users db !! uid) as [u|] eqn:Hu; [|exact Hinv].
    destruct (User.deductPoints amount now u) as [u'|] eqn:Hd; [|exact Hinv].
    cbn [snd]. apply insert_nonNegative; [exact Hinv|].
    apply (deductPoints_nonNegative _ _ _ _ Hd).
  - unfold UsersRoutes.redeem, Reward.redeem. open_route; try exact Hinv.
    all: match goal with
      | Hd : User.deductPoints _ _ _ = Returned _ |- _ =>
          apply deductPoints_nonNegative in Hd as [Hd _]
      end;
      intros i x; cbn [users set_users set_rewardStore];
      destruct (decide (uid = i)) as [->|Hne];
      [ rewrite lookup_insert_eq; intros [= <-]; assumption
      | rewrite lookup_insert_ne by assumption; apply Hinv ].
  - unfold RewardsRoutes.redeem. open_route; try exact Hinv.
    intros i x; cbn [users set_users];
      destruct (decide (uid = i)) as [->|Hne];
      [ rewrite lookup_insert_eq; intros [= <-]; cbn
      | rewrite lookup_insert_ne by assumption; apply Hinv ].
    match goal with
    | H : (User.points _ <? _) = false |- _ => apply Z.ltb_ge in H; lia
    end.
Qed.

Lemma trace_nonNegative (calls : list (Ledger.Call * Z)) :
  ∀ st : Ledger.State,
    nonNegative st.1 →
    Forall (λ c, addsNonNegative c.1) calls →
    Forall (λ st', nonNegative st'.1) (Ledger.trace st calls).
Proof.
  induction calls as [|[c now] calls IH]; intros st Hinv Hcalls;
    cbn [Ledger.trace]; [constructor|].
  inversion Hcalls as [|? ? Hc Hrest]; subst.
  assert (Hnext : nonNegative (Ledger.perform st c now).1)
    by (apply perform_nonNegative; assumption).
  constructor; [exact Hnext|]. apply IH; assumption.
Qed.

(** C2, as the code has it. From non-negative balances, any sequence of
    [addPoints] calls with non-negative amounts and of [deductPoints] and
    redemption calls with arbitrary arguments keeps every balance at or
    above zero at every step; and a [deductPoints] whose amount exceeds the
    balance throws and leaves the database as it is. [addPoints] itself
    does not check its amount: the only route calling it passes an amount
    between 1 and 1000. *)
Theorem balances_stay_non_negative
    (st : Ledger.State) (calls : list (Ledger.Call * Z)) :
  nonNegative st.1 →
  Forall (λ c, addsNonNegative c.1) calls →
  Forall (λ st', nonNegative st'.1) (Ledger.trace st calls)
  ∧ ∀ (uid : nat) (u : User.t) (amount now : Z),
      users st.1 !! uid = Some u →
      User.points u < amount →
      User.deductPoints amount now u
      = Thrown "Insufficient points or invalid user role"
      ∧ Ledger.perform st (Ledger.DeductPoints uid amount) now = st.
Proof.
  intros Hinv Hcalls. split; [apply trace_nonNegative; assumption|].
  intros uid u amount now Hu Hlt.
  assert (Hd : User.deductPoints amount now u
               = Thrown "Insufficient points or invalid user role").
  { unfold User.deductPoints.
    replace (amount <=? User.points u) with false
      by (symmetry; apply Z.leb_gt; exact Hlt).
    now rewrite andb_false_r. }
  split; [exact Hd|].
  destruct st as [db mem]. cbn [Ledger.perform fst snd] in *.
  unfold Ledger.onUser. now rewrite Hu, Hd.
Qed.

Lemma balances_stay_non_negative_witness :
  let st : Ledger.State := (Sample.shopDb, Sample.memory0) in
  let calls :=
    [ (Ledger.AddPoints 1 50, 1700000000000);
      (Ledger.DeductPoints 1 1000, 1700000001000);
      (Ledger.Redeem 1 7 1700000002001 "AB12", 1700000002000);
      (Ledger.RedeemInMemory 1 "reward_2" "K3TQ81ZX" "x9f2k1m0p",
       1700000003000) ] in
  Forall (λ st', nonNegative st'.1) (Ledger.trace st calls)
  ∧ Ledger.perform st (Ledger.DeductPoints 1 501) 1700000004000 = st.
Proof.
  intros st calls.
  assert (Hinv : nonNegative st.1).
  { unfold nonNegative. apply (bool_decide_unpack _). vm_compute. exact I. }
  assert (Hcalls : Forall (λ c, addsNonNegative c.1) calls).
  { repeat constructor. cbn. lia. }
  destruct (balances_stay_non_negative st calls Hinv Hcalls) as [Htrace Hded].
  split; [exact Htrace|].
  apply (Hded 1%nat (User.set_points 500 Sample.asha) 501 1700000004000).
  - vm_compute; reflexivity.
  - cbn. lia.
Defined.

(** C2 does not hold as stated: [addPoints] accepts any amount, and a
    negative one takes a balance of 0 below zero. *)
Lemma addPoints_negative_amount :
  let st : Ledger.State := (Sample.db0, Sample.memory0) in
  nonNegative st.1
  ∧ (User.points <$>
       users (Ledger.perform st (Ledger.AddPoints 1 (-5)) 1000).1 !! 1%nat)
    = Some (-5)
  ∧ ¬ nonNegative (Ledger.perform st (Ledger.AddPoints 1 (-5)) 1000).1.
Proof.
  intros st.
  split; [unfold nonNegative; apply (bool_decide_unpack _); vm_compute; exact I|].
  split; [vm_compute; reflexivity|].
  unfold nonNegative. intros H. apply (bool_decide_pack _) in H.
  vm_compute in H. exact H.
Qed.

(** ** Redeeming a reward: stock *)

Lemma redemptionsOf_snoc (id : nat) (l : list Reward.Redemption)
    (d : Reward.Redemption) :
  Reward.redemptionsOf id (l ++ [d])
  = Reward.redemptionsOf id l
    ++ (if decide (Reward.reward d = id) then [d] else []).
Proof.
  unfold Reward.redemptionsOf. rewrite filter_app. f_equal.
Qed.

(** What the model method does when nothing goes wrong at the storage
    layer: an unavailable reward throws before any write, and a redemption
    with a fresh code takes one from the stock and adds one record, which
    keeps the stock conserved. *)
Lemma redeem_conserves_stock_when_code_is_fresh
    (rewardId : nat) (this : Reward.t) (userId : nat) (now : Z) (rnd : string)
    (st : Reward.Store) :
  Reward.rewards st !! rewardId = Some this →
  stockConserved st →
  (Reward.isAvailable now this = false →
   Reward.redeem rewardId this userId now rnd st
   = (Thrown "Reward is not available for redemption", st))
  ∧ (Reward.isAvailable now this = true →
     Reward.codeTaken (Reward.generateCouponCode now rnd this)
       (Reward.redemptions st) = false →
     ∃ d st',
       Reward.redeem rewardId this userId now rnd st = (Returned d, st')
       ∧ Reward.redemptions st' = Reward.redemptions st ++ [d]
       ∧ (Reward.remainingQuantity <$> Reward.rewards st' !! rewardId)
         = Some (Reward.remainingQuantity this - 1)
       ∧ stockConserved st').
Proof.
  intros Hthis Hinv. unfold Reward.redeem. split.
  - intros ->. reflexivity.
  - intros Hav Hfresh. rewrite Hav. cbn [negb Reward.generatedCode
      Reward.redemptions Reward.rewards].
    change (Reward.generateCouponCode now rnd (Reward.take_one this))
      with (Reward.generateCouponCode now rnd this).
    rewrite Hfresh. eexists _, _. split; [reflexivity|].
    cbn [Reward.redemptions Reward.rewards].
    split; [reflexivity|]. split; [now rewrite lookup_insert_eq|].
    intros id r. cbn [Reward.redemptions Reward.rewards].
    rewrite redemptionsOf_snoc. cbn [Reward.reward].
    destruct (decide (rewardId = id)) as [->|Hne].
    + rewrite lookup_insert_eq. intros [= <-].
      destruct (Hinv id this Hthis) as [Hcount Hpos].
      unfold Reward.isAvailable in Hav.
      apply andb_prop in Hav as [[[_ Hrem%Z.ltb_lt]%andb_prop _]%andb_prop _].
      rewrite length_app. cbn. split; lia.
    + rewrite lookup_insert_ne by assumption. intros Hr.
      destruct (Hinv id r Hr) as [Hcount Hpos].
      rewrite app_nil_r. split; assumption.
Qed.

(** C3, at the failing input. Citizen 1 redeems reward 7 (two in stock)
    twice, one million milliseconds apart, and [Math.random] draws the
    same four characters both times, so the same coupon code is generated.
    The first redemption succeeds. The second saves the reward with its
    stock taken down to 0 and is then refused by the unique index on the
    code: the request fails, no redemption is stored, and yet the stock
    went down and the points were taken. Two have left the stock for one
    redemption on record. *)
Theorem redeem_duplicate_code_breaks_stock :
  let s1 :=
    UsersRoutes.redeem Sample.shopDb 1 7 1700000123456 1700000123456 "AB12" in
  let s2 :=
    UsersRoutes.redeem s1.2 1 7 1700001123456 1700001123456 "AB12" in
  stockConserved (rewardStore Sample.shopDb)
  ∧ s1.1 = Ok 200
  ∧ stockConserved (rewardStore s1.2)
  ∧ (Reward.remainingQuantity <$> Reward.rewards (rewardStore s1.2) !! 7%nat)
    = Some 1
  ∧ s2.1 = Err 500 REDEEM_ERROR
  ∧ Reward.redemptions (rewardStore s2.2)
    = Reward.redemptions (rewardStore s1.2)
  ∧ length (Reward.redemptionsOf 7 (Reward.redemptions (rewardStore s2.2)))
    = 1%nat
  ∧ (Reward.remainingQuantity <$> Reward.rewards (rewardStore s2.2) !! 7%nat)
    = Some 0
  ∧ (Reward.totalQuantity <$> Reward.rewards (rewardStore s2.2) !! 7%nat)
    = Some 2
  ∧ ¬ stockConserved (rewardStore s2.2)
  ∧ (User.points <$> users s2.2 !! 1%nat) = Some 300.
Proof.
  intros s1 s2.
  split; [unfold stockConserved; apply (bool_decide_unpack _); vm_compute; exact I|].
  split; [vm_compute; reflexivity|].
  split; [unfold stockConserved; apply (bool_decide_unpack _); vm_compute; exact I|].
  split; [vm_compute; reflexivity|].
  split; [vm_compute; reflexivity|].
  split; [vm_compute; reflexivity|].
  split; [vm_compute; reflexivity|].
  split; [vm_compute; reflexivity|].
  split; [vm_compute; reflexivity|].
  split; [|vm_compute; reflexivity].
  unfold stockConserved. intros H. apply (bool_decide_pack _) in H.
  vm_compute in H. exact H.
Qed.

(** ** Redeeming a reward: what a success does *)

Lemma find_updateFirst_take_one (id : string) (l : list RewardsRoutes.MockReward)
    (r : RewardsRoutes.MockReward) :
  find (λ x, String.eqb (RewardsRoutes._id x) id) l = Some r →
  find (λ x, String.eqb (RewardsRoutes._id x) id)
       (RewardsRoutes.updateFirst id RewardsRoutes.take_one l)
  = Some (RewardsRoutes.take_one r).
Proof.
  induction l as [|x l IH]; [discriminate|].
  cbn [find RewardsRoutes.updateFirst].
  destruct (String.eqb (RewardsRoutes._id x) id) eqn:Hx.
  - intros [= ->]. cbn [find RewardsRoutes.take_one RewardsRoutes._id].
    now rewrite Hx.
  - intros Hr. cbn [find]. rewrite Hx. apply IH, Hr.
Qed.

(** C6, as the code has it. There are two redemption routes.

    The route of the users router, on the reward catalogue of the
    database: when it succeeds it has taken exactly the reward's
    [pointsCost] from the user's balance, taken 1 from the reward's
    [remainingQuantity] (which stays non-negative), generated a coupon code
    and stored one redemption for this user and reward with status
    [active], [pointsUsed] equal to the reward's [pointsCost] and
    [expiresAt] equal to the reward's [validUntil]. When one of its own
    checks fails (the reward does not exist, is not available at the
    route's clock reading, or costs more than the balance) it answers
    404 or 400 and the database is unchanged; and whenever it fails with
    anything but its status-500 answer the database is unchanged.

    The route of the in-memory rewards router: when it succeeds it has
    taken the reward's [pointsRequired] from the user's balance, taken 1
    from the [availableQuantity] of the reward, and appended one redemption
    carrying the generated coupon code, [isUsed] false, [pointsUsed] equal
    to [pointsRequired] and [expiresAt] thirty days after the request;
    whenever it fails, neither the database nor the arrays change. *)
Theorem redeem_all_or_nothing
    (db : DB) (mem : RewardsRoutes.Memory) (uid rewardId : nat) (id : string)
    (now1 now2 now : Z) (rnd code suffix : string) :
  let res := UsersRoutes.redeem db uid rewardId now1 now2 rnd in
  let mres := RewardsRoutes.redeem db mem uid id now code suffix in
  (succeeded res.1 = true →
   ∃ user reward user' reward' d,
     users db !! uid = Some user
     ∧ Reward.rewards (rewardStore db) !! rewardId = Some reward
     ∧ users res.2 !! uid = Some user'
     ∧ User.points user' = User.points user - Reward.pointsCost reward
     ∧ Reward.rewards (rewardStore res.2) !! rewardId = Some reward'
     ∧ Reward.remainingQuantity reward' = Reward.remainingQuantity reward - 1
     ∧ 0 ≤ Reward.remainingQuantity reward'
     ∧ Reward.redemptions (rewardStore res.2)
       = Reward.redemptions (rewardStore db) ++ [d]
     ∧ Reward.user d = uid ∧ Reward.reward d = rewardId
     ∧ Reward.generatedCode d = Reward.generateCouponCode now2 rnd reward
     ∧ Reward.status d = Reward.active
     ∧ Reward.pointsUsed d = Reward.pointsCost reward
     ∧ Reward.expiresAt d = Reward.validUntil reward)
  ∧ (signedIn db uid citizen →
     (Reward.rewards (rewardStore db) !! rewardId = None →
      res = (Err 404 REWARD_NOT_FOUND, db))
     ∧ (∀ reward,
          Reward.rewards (rewardStore db) !! rewardId = Some reward →
          Reward.isAvailable now1 reward = false →
          res = (Err 400 REWARD_NOT_AVAILABLE, db))
     ∧ (∀ reward user,
          Reward.rewards (rewardStore db) !! rewardId = Some reward →
          Reward.isAvailable now1 reward = true →
          users db !! uid = Some user →
          User.points user < Reward.pointsCost reward →
          res = (Err 400 INSUFFICIENT_POINTS, db)))
  ∧ (succeeded res.1 = false → res.1 ≠ Err 500 REDEEM_ERROR → res.2 = db)
  ∧ (succeeded mres.1 = true →
     ∃ user reward user' d,
       users db !! uid = Some user
       ∧ find (λ x, String.eqb (RewardsRoutes._id x) id)
              (RewardsRoutes.rewards mem) = Some reward
       ∧ users mres.2.1 !! uid = Some user'
       ∧ User.points user'
         = User.points user - RewardsRoutes.pointsRequired reward
       ∧ find (λ x, String.eqb (RewardsRoutes._id x) id)
              (RewardsRoutes.rewards mres.2.2)
         = Some (RewardsRoutes.take_one reward)
       ∧ RewardsRoutes.availableQuantity (RewardsRoutes.take_one reward)
         = RewardsRoutes.availableQuantity reward - 1
       ∧ RewardsRoutes.redemptions mres.2.2
         = RewardsRoutes.redemptions mem ++ [d]
       ∧ RewardsRoutes.userId d = uid
       ∧ RewardsRoutes.rewardId d = RewardsRoutes._id reward
       ∧ RewardsRoutes.couponCode d = code
       ∧ RewardsRoutes.isUsed d = false
       ∧ RewardsRoutes.pointsUsed d = RewardsRoutes.pointsRequired reward
       ∧ RewardsRoutes.expiresAt d = now + RewardsRoutes.thirtyDays)
  ∧ (succeeded mres.1 = false → mres.2 = (db, mem)).
Proof.
  intros res mres. split; [|split; [|split; [|split]]].
  - subst res. unfold UsersRoutes.redeem, Reward.redeem.
    open_route; try discriminate. intros _.
    match goal with
    | Hd : User.deductPoints _ _ ?u = Returned ?u',
      Hav : negb (Reward.isAvailable now2 ?r) = false |- _ =>
        apply deductPoints_nonNegative in Hd as [_ Hd];
        apply negb_false_iff in Hav; unfold Reward.isAvailable in Hav;
        apply andb_prop in Hav
          as [[[_ Hrem%Z.ltb_lt]%andb_prop _]%andb_prop _];
        exists u, r, u'
    end.
    eexists _, _.
    cbn [users set_users set_rewardStore rewardStore Reward.rewards
         Reward.redemptions].
    rewrite !lookup_insert_eq.
    repeat (split; [first [eassumption | reflexivity | cbn; lia]|]).
    reflexivity.
  - intros Hin. subst res. unfold UsersRoutes.redeem, requireCitizen.
    destruct (guarded_signedIn db uid citizen Hin) as (u & Hu & Hur & ->).
    split; [|split].
    + intros ->. reflexivity.
    + intros reward -> ->. reflexivity.
    + intros reward user -> -> Huser Hlt.
      assert (u = user) as -> by congruence.
      replace (User.points user <? Reward.pointsCost reward) with true
        by (symmetry; apply Z.ltb_lt; exact Hlt).
      reflexivity.
  - subst res. unfold UsersRoutes.redeem, Reward.redeem.
    open_route; try reflexivity; try discriminate; intros _ Hne;
      contradiction.
  - subst mres. unfold RewardsRoutes.redeem.
    open_route; try discriminate. intros _.
    match goal with
    | Hu : users db !! uid = Some ?u, Hf : find _ _ = Some ?r |- _ =>
        exists u, r
    end.
    eexists _, _.
    cbn [users set_users RewardsRoutes.rewards RewardsRoutes.redemptions].
    rewrite lookup_insert_eq.
    split; [reflexivity|]. split; [reflexivity|]. split; [reflexivity|].
    split; [reflexivity|].
    split; [apply find_updateFirst_take_one; assumption|].
    repeat (split; [reflexivity|]). reflexivity.
  - subst mres. unfold RewardsRoutes.redeem.
    open_route; try reflexivity; discriminate.
Qed.

Lemma redeem_all_or_nothing_witness :
  let res :=
    UsersRoutes.redeem Sample.shopDb 1 7 1700000123456 1700000123456 "AB12" in
  let mres :=
    RewardsRoutes.redeem Sample.shopDb Sample.memory0 1 "reward_2"
      1700000003000 "K3TQ81ZX" "x9f2k1m0p" in
  succeeded res.1 = true
  ∧ succeeded mres.1 = true
  ∧ (∃ d, Reward.redemptions (rewardStore res.2)
          = Reward.redemptions (rewardStore Sample.shopDb) ++ [d]
          ∧ Reward.status d = Reward.active
          ∧ Reward.pointsUsed d = 100
          ∧ Reward.expiresAt d = 1800000000000)
  ∧ (∃ d, RewardsRoutes.redemptions mres.2.2
          = RewardsRoutes.redemptions Sample.memory0 ++ [d]
          ∧ RewardsRoutes.pointsUsed d = 150
          ∧ RewardsRoutes.expiresAt d
            = 1700000003000 + RewardsRoutes.thirtyDays).
Proof.
  intros res mres.
  assert (Hs : succeeded res.1 = true) by (vm_compute; reflexivity).
  assert (Hm : succeeded mres.1 = true) by (vm_compute; reflexivity).
  destruct (redeem_all_or_nothing Sample.shopDb Sample.memory0 1 7 "reward_2"
              1700000123456 1700000123456 1700000003000 "AB12" "K3TQ81ZX"
              "x9f2k1m0p") as (H1 & _ & _ & H4 & _).
  split; [exact Hs|]. split; [exact Hm|]. split.
  - destruct (H1 Hs)
      as (user & reward & user' & reward' & d & _ & Hr & _ & _ & _ & _ & _
          & Hd & _ & _ & _ & Hst & Hpu & Hex).
    assert (reward = Sample.voucher) as ->
      by (vm_compute in Hr; injection Hr as <-; reflexivity).
    exists d. split; [exact Hd|]. split; [exact Hst|].
    split; [exact Hpu | exact Hex].
  - destruct (H4 Hm)
      as (user & reward & user' & d & _ & Hr & _ & _ & _ & _ & Hd & _ & _ & _
          & _ & Hpu & Hex).
    assert (reward = Sample.ecoDiscount) as ->
      by (vm_compute in Hr; injection Hr as <-; reflexivity).
    exists d. split; [exact Hd|]. split; [exact Hpu | exact Hex].
Defined.

(** C6 does not hold as stated: a redemption made through the in-memory
    rewards router succeeds with an expiry thirty days after the request,
    which is not the reward's [validUntil]. *)
Lemma in_memory_redemption_expires_after_30_days :
  let mres :=
    RewardsRoutes.redeem Sample.shopDb Sample.memory0 1 "reward_2"
      1700000003000 "K3TQ81ZX" "x9f2k1m0p" in
  mres.1 = Ok 200
  ∧ ∃ d, last (RewardsRoutes.redemptions mres.2.2) = Some d
         ∧ RewardsRoutes.expiresAt d = 1702592003000
         ∧ RewardsRoutes.validUntil Sample.ecoDiscount = 1705184000000
         ∧ RewardsRoutes.expiresAt d
           ≠ RewardsRoutes.validUntil Sample.ecoDiscount.
Proof.
  intros mres. split; [vm_compute; reflexivity|].
  eexists. split; [vm_compute; reflexivity|].
  split; [reflexivity|]. split; [reflexivity|]. discriminate.
Qed.

(** ** Nearby reports *)

Section Nearby.

Local Open Scope R_scope.

Lemma Rleb_iff (a b : R) : Geo.Rleb a b = true ↔ a <= b.
Proof.
  unfold Geo.Rleb. destruct (Rle_dec a b); split; try tauto; discriminate.
Qed.

Lemma Rltb_iff (a b : R) : Geo.Rltb a b = true ↔ a < b.
Proof.
  unfold Geo.Rltb. destruct (Rlt_dec a b); split; try tauto; discriminate.
Qed.



Lemma Q2R_0 : Q2R 0 = 0.
Proof. unfold Q2R. cbn. lra. Qed.













End Nearby.

(** * Further properties *)

(** ** The haversine distance and the radius of [findNearby] *)

Section Distance.

Local Open Scope R_scope.








Lemma cos_degrees_nonneg (lat : R) :
  -90 <= lat <= 90 → 0 <= cos (lat * PI / 180).
Proof.
  intros [Hlo Hhi]. pose proof PI_RGT_0 as Hpi.
  apply cos_ge_0.
  - apply Rmult_le_reg_r with (r := 180 / PI).
    + apply Rdiv_lt_0_compat; lra.
    + replace (- (PI / 2) * (180 / PI)) with (-90) by (field; lra).
      replace (lat * PI / 180 * (180 / PI)) with lat by (field; lra).
      exact Hlo.
  - apply Rmult_le_reg_r with (r := 180 / PI).
    + apply Rdiv_lt_0_compat; lra.
    + replace (PI / 2 * (180 / PI)) with 90 by (field; lra).
      replace (lat * PI / 180 * (180 / PI)) with lat by (field; lra).
      exact Hhi.
Qed.

Lemma inBox_grows (lat lng r1 r2 : R) (d : Report.t) :
  -90 <= lat <= 90 → r1 <= r2 →
  Geo.inBox lat lng r1 d = true → Geo.inBox lat lng r2 d = true.
Proof.
  intros Hlat Hr. pose proof (cos_degrees_nonneg lat Hlat) as Hcos.
  unfold Geo.inBox, Geo.latInBox, Geo.lngInBox.
  rewrite !andb_true_iff, !Rleb_iff. intros [[H1 H2] H3].
  split; [split; lra|].
  destruct (Req_dec_T (111 * cos (lat * PI / 180)) 0) as [H0|Hn0].
  - apply Rltb_iff in H3. apply Rltb_iff. lra.
  - rewrite andb_true_iff, !Rleb_iff in H3 |- *. destruct H3 as [H3 H4].
    assert (Hd : 0 < 111 * cos (lat * PI / 180)) by lra.
    assert (r1 / (111 * cos (lat * PI / 180))
            <= r2 / (111 * cos (lat * PI / 180))).
    { unfold Rdiv. apply Rmult_le_compat_r; [|exact Hr].
      left. apply Rinv_0_lt_compat, Hd. }
    split; lra.
Qed.

(** X4. [findNearby] is monotone in the radius: for a query latitude
    between -90 and 90 (the poles included), every report found with a
    radius is also found with any larger radius. *)
Theorem findNearby_grows_with_the_radius
    (lat lng r1 r2 : R) (docs : list Report.t) (d : Report.t) :
  -90 <= lat <= 90 →
  r1 <= r2 →
  In d (Geo.findNearby lat lng r1 docs) →
  In d (Geo.findNearby lat lng r2 docs).
Proof.
  intros Hlat Hr. unfold Geo.findNearby. rewrite !filter_In.
  intros [Hin Hbox]. split; [exact Hin|].
  eapply inBox_grows; eassumption.
Qed.

Lemma findNearby_grows_with_the_radius_witness :
  -90 <= 0 <= 90
  ∧ 1 <= 5
  ∧ In (Sample.reportAt 0 0) (Geo.findNearby 0 0 1 [Sample.reportAt 0 0])
  ∧ In (Sample.reportAt 0 0) (Geo.findNearby 0 0 5 [Sample.reportAt 0 0]).
Proof.
  assert (H1 : -90 <= 0 <= 90) by lra.
  assert (H2 : 1 <= 5) by lra.
  assert (H3 : In (Sample.reportAt 0 0)
                 (Geo.findNearby 0 0 1 [Sample.reportAt 0 0])).
  { unfold Geo.findNearby. apply filter_In. split; [left; reflexivity|].
    unfold Geo.inBox, Geo.latInBox, Geo.lngInBox. cbn [Sample.reportAt
      Report.location Report.lat Report.lng]. rewrite Q2R_0.
    replace (0 * PI / 180) with 0 by (field; lra). rewrite cos_0.
    destruct (Req_dec_T (111 * 1) 0) as [H|_]; [lra|].
    rewrite !andb_true_iff, !Rleb_iff. lra. }
  split; [exact H1|]. split; [exact H2|]. split; [exact H3|].
  exact (findNearby_grows_with_the_radius 0 0 1 5 _ _ H1 H2 H3).
Defined.



End Distance.

(** ** What the status of a report says about its fields *)

Ltac report_cases Hr Hinv :=
  cbn [reports set_reports set_users findByIdAndUpdate] in Hr;
  match type of Hr with
  | <[?id := _]> _ !! ?rid = _ =>
      destruct (decide (id = rid)) as [->|?];
      [ rewrite lookup_insert_eq in Hr; injection Hr as <-
      | rewrite lookup_insert_ne in Hr by assumption; exact (Hinv _ _ Hr) ]
  end.

Ltac status_known :=
  repeat match goal with
  | H : negb (bool_decide _) = false |- _ =>
      apply negb_false_iff, bool_decide_eq_true in H
  end.

Ltac old_report Hinv :=
  match goal with
  | H : reports _ !! _ = Some ?r |- _ =>
      let Hold := fresh "Hold" in
      pose proof (Hinv _ _ H) as Hold; cbn beta in Hold
  end.

Ltac absurd_status Hx :=
  repeat match type of Hx with
         | _ ∨ _ => destruct Hx as [Hx|Hx]; [discriminate Hx|]
         end;
  first [ discriminate Hx | exact Hx
        | destruct Hx as [? Hx]; discriminate Hx ].

Ltac refute_with Hx :=
  exfalso;
  first
    [ absurd_status Hx
    | apply Hx; reflexivity
    | match goal with
      | H : _ ↔ _ |- _ => apply H in Hx; absurd_status Hx
      | H : _ → _ |- _ => apply H in Hx; discriminate Hx
      end ].

Ltac field_clause :=
  let Hx := fresh "Hx" in
  intros Hx;
  first
    [ solve [auto 10]
    | solve [eauto]
    | match goal with
      | H : _ ↔ _ |- _ => solve [apply H; auto 10]
      end
    | refute_with Hx ].

Lemma serve_wellFormed db rq now :
  reportsWellFormed db → reportsWellFormed (ReportsRoutes.serve db rq now).2.
Proof.
  intros Hinv rid r' Hr'. cbn beta.
  destruct rq; cbn [ReportsRoutes.serve] in Hr';
    unfold ReportsRoutes.submit, ReportsRoutes.verify, ReportsRoutes.assign,
      ReportsRoutes.start, ReportsRoutes.complete, ReportsRoutes.awardPoints
      in Hr';
    revert Hr'; open_route; intros Hr'; try exact (Hinv _ _ Hr').
  all: report_cases Hr' Hinv; status_known; try old_report Hinv.
  all: unfold fieldsMatchStatus in *; cbn.
  all: repeat match goal with
       | H : Report.status _ = _ |- _ => rewrite H in *
       end.
  all: rewrite ?elem_of_cons, ?elem_of_nil in *.
  all: unfold is_Some in *.
  all: repeat match goal with
       | H : _ ∧ _ |- _ => destruct H
       end.
  all: repeat split; field_clause.
Qed.

Lemma serveAll_wellFormed rqs : ∀ db,
  reportsWellFormed db → reportsWellFormed (ReportsRoutes.serveAll db rqs).
Proof.
  induction rqs as [|[rq now] rqs IH]; intros db Hinv; [exact Hinv|].
  cbn [ReportsRoutes.serveAll]. apply IH, serve_wellFormed, Hinv.
Qed.

(** X6. The status of a report fixes which of its fields are set. Starting
    from stored reports for which this holds (none at all, for instance)
    and serving any sequence of requests to the lifecycle routes: a report
    has an assignee and an assignment date exactly when it is [assigned],
    [in_progress] or [completed]; a verifier exactly when it is [verified]
    or further on that path (a rejected report has none); a completion
    date and a picture after the cleanup exactly when it is [completed];
    and points only when it is [completed]. *)
Theorem status_determines_fields (db : DB) (rqs : list (ReportsRoutes.Request * Z)) :
  reportsWellFormed db →
  ∀ id r, reports (ReportsRoutes.serveAll db rqs) !! id = Some r →
    (is_Some (Report.assignedTo r)
     ↔ Report.status r ∈ [assigned; in_progress; completed])
    ∧ (is_Some (Report.assignedAt r)
       ↔ Report.status r ∈ [assigned; in_progress; completed])
    ∧ (is_Some (Report.verifiedBy r)
       ↔ Report.status r ∈ [verified; assigned; in_progress; completed])
    ∧ (is_Some (Report.completedAt r) ↔ Report.status r = completed)
    ∧ (is_Some (Report.afterCleanup r) ↔ Report.status r = completed)
    ∧ (Report.pointsAwarded r ≠ 0 → Report.status r = completed).
Proof.
  intros Hinv id r Hr. exact (serveAll_wellFormed rqs db Hinv id r Hr).
Qed.

Lemma no_reports_wellFormed : reportsWellFormed Sample.db0.
Proof. intros id r Hr. cbn in Hr. rewrite lookup_empty in Hr. discriminate Hr. Qed.

Lemma status_determines_fields_witness :
  reportsWellFormed Sample.db0
  ∧ ∀ id r,
      reports (ReportsRoutes.serveAll Sample.db0 Sample.happyPath) !! id
      = Some r →
      (is_Some (Report.assignedTo r)
       ↔ Report.status r ∈ [assigned; in_progress; completed])
      ∧ (is_Some (Report.assignedAt r)
         ↔ Report.status r ∈ [assigned; in_progress; completed])
      ∧ (is_Some (Report.verifiedBy r)
         ↔ Report.status r ∈ [verified; assigned; in_progress; completed])
      ∧ (is_Some (Report.completedAt r) ↔ Report.status r = completed)
      ∧ (is_Some (Report.afterCleanup r) ↔ Report.status r = completed)
      ∧ (Report.pointsAwarded r ≠ 0 → Report.status r = completed).
Proof.
  split; [exact no_reports_wellFormed|].
  exact (status_determines_fields Sample.db0 Sample.happyPath
           no_reports_wellFormed).
Defined.

(** ** Assignees are collectors, verifiers are admins *)

Lemma role_of_guard (u : User.t) (r : Role) :
  bool_decide (User.role u ∈ [r]) = true → User.role u = r.
Proof.
  intros H. apply bool_decide_eq_true in H.
  apply list_elem_of_singleton in H. exact H.
Qed.

Lemma serve_staff db rq now rid r' :
  staffRegistered db →
  reports (ReportsRoutes.serve db rq now).2 !! rid = Some r' →
  (∀ c, Report.assignedTo r' = Some c →
        ∃ u, users db !! c = Some u ∧ User.role u = collector)
  ∧ (∀ a, Report.verifiedBy r' = Some a →
          ∃ u, users db !! a = Some u ∧ User.role u = admin).
Proof.
  intros Hinv Hr'.
  destruct rq; cbn [ReportsRoutes.serve] in Hr';
    unfold ReportsRoutes.submit, ReportsRoutes.verify, ReportsRoutes.assign,
      ReportsRoutes.start, ReportsRoutes.complete, ReportsRoutes.awardPoints
      in Hr';
    revert Hr'; open_route; intros Hr'; try exact (Hinv _ _ Hr').
  all: report_cases Hr' Hinv; status_known; try old_report Hinv.
  all: repeat match goal with
       | H : bool_decide (User.role _ ∈ [_]) = true |- _ =>
           apply role_of_guard in H
       | H : _ ∧ _ |- _ => destruct H
       end.
  all: cbn; split; intros x Hx;
    first [ discriminate Hx
          | injection Hx as <-; eexists; split; eassumption
          | solve [eauto] ].
Qed.

Lemma serve_staffRegistered db rq now :
  staffRegistered db → staffRegistered (ReportsRoutes.serve db rq now).2.
Proof.
  intros Hinv rid r' Hr'. cbn beta.
  destruct (serve_staff db rq now rid r' Hinv Hr') as [Hc Ha].
  split; [intros c Hx; destruct (Hc c Hx) as (u & Hu & Hrole)
         |intros a Hx; destruct (Ha a Hx) as (u & Hu & Hrole)].
  all: destruct (serve_account db rq now _ u Hu) as (u' & Hu' & (H1 & _) & _).
  all: exists u'; split; [exact Hu'|congruence].
Qed.

Lemma serveAll_staffRegistered rqs : ∀ db,
  staffRegistered db → staffRegistered (ReportsRoutes.serveAll db rqs).
Proof.
  induction rqs as [|[rq now] rqs IH]; intros db Hinv; [exact Hinv|].
  cbn [ReportsRoutes.serveAll]. apply IH, serve_staffRegistered, Hinv.
Qed.

(** X7. Reports are only ever assigned to collectors and verified by
    admins. Starting from stored reports for which this holds and serving
    any sequence of requests to the lifecycle routes: the [assignedTo] of
    every report is a registered user whose role is [collector], and its
    [verifiedBy] a registered user whose role is [admin]. *)
Theorem assignees_are_collectors (db : DB) (rqs : list (ReportsRoutes.Request * Z)) :
  staffRegistered db →
  ∀ id r, reports (ReportsRoutes.serveAll db rqs) !! id = Some r →
    (∀ c, Report.assignedTo r = Some c →
          ∃ u, users (ReportsRoutes.serveAll db rqs) !! c = Some u
               ∧ User.role u = collector)
    ∧ (∀ a, Report.verifiedBy r = Some a →
            ∃ u, users (ReportsRoutes.serveAll db rqs) !! a = Some u
                 ∧ User.role u = admin).
Proof.
  intros Hinv id r Hr. exact (serveAll_staffRegistered rqs db Hinv id r Hr).
Qed.

Lemma no_reports_staffRegistered : staffRegistered Sample.db0.
Proof. intros id r Hr. cbn in Hr. rewrite lookup_empty in Hr. discriminate Hr. Qed.

Lemma assignees_are_collectors_witness :
  staffRegistered Sample.db0
  ∧ ∀ id r,
      reports (ReportsRoutes.serveAll Sample.db0 Sample.happyPath) !! id
      = Some r →
      (∀ c, Report.assignedTo r = Some c →
            ∃ u, users (ReportsRoutes.serveAll Sample.db0 Sample.happyPath)
                   !! c = Some u
                 ∧ User.role u = collector)
      ∧ (∀ a, Report.verifiedBy r = Some a →
              ∃ u, users (ReportsRoutes.serveAll Sample.db0 Sample.happyPath)
                     !! a = Some u
                   ∧ User.role u = admin).
Proof.
  split; [exact no_reports_staffRegistered|].
  exact (assignees_are_collectors Sample.db0 Sample.happyPath
           no_reports_staffRegistered).
Defined.

(** ** The duration of a cleanup *)

Lemma find_app_Some {A : Type} (f : A → bool) (l l' : list A) (x : A) :
  find f l = Some x → find f (l ++ l') = Some x.
Proof.
  induction l as [|a l IH]; [discriminate|].
  cbn [find app]. destruct (f a); [trivial|exact IH].
Qed.









Example cleanup_of_the_sample_report :
  startedAt Sample.completedReport = Some 4000
  ∧ Report.completedAt Sample.completedReport = Some 904000
  ∧ Report.actualCleanupTime Sample.completedReport = Some 15.
Proof. vm_compute. repeat split. Qed.

(** ** The open tasks of a collector *)

Lemma workload_update (db : DB) (us' : gmap nat User.t) (id : nat)
    (rn : Report.t) (st : Reward.Store) :
  workloadConsistent db →
  (∀ c u', us' !! c = Some u' →
     ∃ u, users db !! c = Some u
          ∧ NoDup (User.assignedReports u')
          ∧ (id ∈ User.assignedReports u' ↔ openTask c rn)
          ∧ ∀ id', id' ≠ id →
              (id' ∈ User.assignedReports u' ↔ id' ∈ User.assignedReports u)) →
  workloadConsistent (mkDB us' (<[id := rn]> (reports db)) st).
Proof.
  intros Hinv Hus c u' Hu'. cbn [users reports] in *.
  destruct (Hus c u' Hu') as (u & Hu & Hnd & Hid & Hrest).
  split; [exact Hnd|]. intros id'.
  destruct (decide (id' = id)) as [->|Hne].
  - rewrite lookup_insert_eq, Hid. split; [eauto|].
    intros (r & [= <-] & Hr). exact Hr.
  - rewrite lookup_insert_ne by congruence. rewrite (Hrest id' Hne).
    exact (proj2 (Hinv c u Hu) id').
Qed.

Lemma same_list (db : DB) (c : nat) (u u' : User.t) (id : nat)
    (rn : Report.t) :
  workloadConsistent db →
  users db !! c = Some u →
  User.assignedReports u' = User.assignedReports u →
  ((∃ r, reports db !! id = Some r ∧ openTask c r) ↔ openTask c rn) →
  ∃ u0, users db !! c = Some u0
        ∧ NoDup (User.assignedReports u')
        ∧ (id ∈ User.assignedReports u' ↔ openTask c rn)
        ∧ ∀ id', id' ≠ id →
            (id' ∈ User.assignedReports u' ↔ id' ∈ User.assignedReports u0).
Proof.
  intros Hinv Hu Hl Hopen. exists u. rewrite Hl.
  destruct (Hinv c u Hu) as [Hnd Hiff].
  split; [exact Hu|]. split; [exact Hnd|].
  split; [rewrite Hiff; exact Hopen|]. tauto.
Qed.

Ltac open_iff :=
  unfold openTask; cbn;
  repeat match goal with
  | H : Report.status _ = _ |- _ => rewrite H in *
  end;
  rewrite ?elem_of_cons, ?elem_of_nil;
  split;
  [ intros (r0 & Hr0 & Ha0 & Hs0);
    rewrite ?elem_of_cons, ?elem_of_nil in Hs0; simplify_eq;
    repeat match goal with
    | H : Report.status _ = _ |- _ => rewrite H in *
    end;
    intuition (try discriminate; try congruence)
  | intros (Ha0 & Hs0);
    first
      [ solve [exfalso; intuition (try discriminate; try congruence)]
      | eexists; split; [eassumption|];
        rewrite ?elem_of_cons, ?elem_of_nil;
        repeat match goal with
        | H : Report.status _ = _ |- _ => rewrite H in *
        end;
        intuition (try discriminate; try congruence) ] ].

Lemma addPoints_assignedReports (p now : Z) (u u' : User.t) :
  User.addPoints p now u = Returned u' →
  User.assignedReports u' = User.assignedReports u.
Proof.
  unfold User.addPoints. destruct (decide (User.role u = citizen));
    [|discriminate]. intros [= <-]. reflexivity.
Qed.

Ltac list_kept :=
  eapply same_list;
  [ eassumption | eassumption
  | first [ reflexivity
          | cbn; eapply addPoints_assignedReports; eassumption ]
  | open_iff ].

Lemma added_to_list (db : DB) (c : nat) (u : User.t) (id : nat)
    (ro rn : Report.t) :
  workloadConsistent db →
  users db !! c = Some u →
  reports db !! id = Some ro →
  Report.status ro = verified →
  openTask c rn →
  ∃ u0, users db !! c = Some u0
        ∧ NoDup (User.assignedReports (User.addToSet_assignedReports id u))
        ∧ (id ∈ User.assignedReports (User.addToSet_assignedReports id u)
           ↔ openTask c rn)
        ∧ ∀ id', id' ≠ id →
            (id' ∈ User.assignedReports (User.addToSet_assignedReports id u)
             ↔ id' ∈ User.assignedReports u0).
Proof.
  intros Hinv Hu Hro Hs Hopen. exists u.
  destruct (Hinv c u Hu) as [Hnd Hiff].
  assert (Hnot : id ∉ User.assignedReports u).
  { rewrite Hiff. intros (r & Hr & _ & Hst). simplify_eq.
    rewrite Hs in Hst. rewrite !elem_of_cons, elem_of_nil in Hst.
    intuition discriminate. }
  cbn [User.addToSet_assignedReports User.assignedReports].
  rewrite bool_decide_eq_false_2 by exact Hnot.
  split; [exact Hu|]. split.
  - apply NoDup_app. split; [exact Hnd|]. split; [|apply NoDup_singleton].
    intros y Hy Hy'. apply list_elem_of_singleton in Hy'. congruence.
  - split.
    + rewrite elem_of_app, list_elem_of_singleton. tauto.
    + intros id' Hne. rewrite elem_of_app, list_elem_of_singleton. tauto.
Qed.

Lemma removed_from_list (db : DB) (c : nat) (u : User.t) (id : nat)
    (rn : Report.t) :
  workloadConsistent db →
  users db !! c = Some u →
  Report.status rn = completed →
  ∃ u0, users db !! c = Some u0
        ∧ NoDup (User.assignedReports (User.finish_task id u))
        ∧ (id ∈ User.assignedReports (User.finish_task id u)
           ↔ openTask c rn)
        ∧ ∀ id', id' ≠ id →
            (id' ∈ User.assignedReports (User.finish_task id u)
             ↔ id' ∈ User.assignedReports u0).
Proof.
  intros Hinv Hu Hs. exists u.
  destruct (Hinv c u Hu) as [Hnd Hiff].
  cbn [User.finish_task User.assignedReports].
  split; [exact Hu|]. split; [apply NoDup_filter, Hnd|]. split.
  - rewrite list_elem_of_filter. unfold openTask. rewrite Hs.
    rewrite !elem_of_cons, elem_of_nil. intuition discriminate.
  - intros id' Hne. rewrite list_elem_of_filter. tauto.
Qed.

Lemma serve_workload db rq now :
  workloadConsistent db →
  workloadConsistent (ReportsRoutes.serve db rq now).2.
Proof.
  intros Hinv.
  destruct rq; cbn [ReportsRoutes.serve];
    unfold ReportsRoutes.submit, ReportsRoutes.verify, ReportsRoutes.assign,
      ReportsRoutes.start, ReportsRoutes.complete, ReportsRoutes.awardPoints;
    open_route; try exact Hinv.
  all: status_known.
  all: try match goal with
       | H : bool_decide (is_Some _) || _ = false |- _ =>
           apply orb_false_elim in H as [H _];
           apply bool_decide_eq_false in H;
           apply eq_None_not_Some in H
       end.
  all: cbn [findByIdAndUpdate set_users set_reports users reports rewardStore].
  all: apply workload_update; [exact Hinv|]; intros c u' Hu'.
  all: cbn [findByIdAndUpdate set_users set_reports users reports rewardStore]
         in Hu'.
  all: try solve [list_kept].
  all: apply lookup_alter_Some in Hu' as [[<- (x & Hx & ->)] | [Hne Hu']].
  all: try (rewrite lookup_insert_eq in Hx; injection Hx as <-).
  all: try rewrite lookup_insert_ne in Hu' by assumption.
  all: simplify_eq.
  all: try solve [list_kept].
  - eapply added_to_list; try eassumption.
    unfold openTask. cbn. split; [reflexivity|].
    rewrite !elem_of_cons. auto.
  - eapply removed_from_list; [eassumption..|reflexivity].
  - eapply removed_from_list; [eassumption..|reflexivity].
  - eapply removed_from_list; [eassumption..|reflexivity].
  - eapply removed_from_list; [eassumption..|reflexivity].
Qed.

Lemma serveAll_workload rqs : ∀ db,
  workloadConsistent db →
  workloadConsistent (ReportsRoutes.serveAll db rqs).
Proof.
  induction rqs as [|[rq now] rqs IH]; intros db Hinv; [exact Hinv|].
  cbn [ReportsRoutes.serveAll]. apply IH, serve_workload, Hinv.
Qed.

(** X9. The [assignedReports] of a collector are the open tasks of that
    collector. Starting from stores for which this holds and serving any
    sequence of requests to the lifecycle routes: for every user, the list
    [assignedReports] has no repetition and holds exactly the ids of the
    stored reports that are assigned to that user and are [assigned] or
    [in_progress]; so an assignment adds the report to the list of its
    collector only, and its completion removes it. *)
Theorem assignedReports_are_the_open_tasks (db : DB) (rqs : list (ReportsRoutes.Request * Z)) :
  workloadConsistent db →
  ∀ c u, users (ReportsRoutes.serveAll db rqs) !! c = Some u →
    NoDup (User.assignedReports u)
    ∧ ∀ id, id ∈ User.assignedReports u
            ↔ ∃ r, reports (ReportsRoutes.serveAll db rqs) !! id = Some r
                   ∧ Report.assignedTo r = Some c
                   ∧ Report.status r ∈ [assigned; in_progress].
Proof.
  intros Hinv c u Hu. exact (serveAll_workload rqs db Hinv c u Hu).
Qed.

Lemma sample_workloadConsistent : workloadConsistent Sample.db0.
Proof.
  intros c u Hu. cbn [users Sample.db0] in Hu.
  assert (Hl : User.assignedReports u = []).
  { repeat (apply lookup_insert_Some in Hu as [[_ <-]|[_ Hu]];
            [reflexivity|]).
    rewrite lookup_empty in Hu. discriminate Hu. }
  rewrite Hl. split; [apply NoDup_nil_2|]. intros id. split.
  - intros H. apply elem_of_nil in H. destruct H.
  - intros (r & Hr & _). cbn in Hr. rewrite lookup_empty in Hr.
    discriminate Hr.
Qed.

Lemma assignedReports_are_the_open_tasks_witness :
  workloadConsistent Sample.db0
  ∧ ∀ c u,
      users (ReportsRoutes.serveAll Sample.db0 Sample.toCompletion) !! c
      = Some u →
      NoDup (User.assignedReports u)
      ∧ ∀ id, id ∈ User.assignedReports u
              ↔ ∃ r, reports
                       (ReportsRoutes.serveAll Sample.db0 Sample.toCompletion)
                       !! id = Some r
                     ∧ Report.assignedTo r = Some c
                     ∧ Report.status r ∈ [assigned; in_progress].
Proof.
  split; [exact sample_workloadConsistent|].
  exact (assignedReports_are_the_open_tasks Sample.db0 Sample.toCompletion
           sample_workloadConsistent).
Defined.

Example workload_while_in_progress :
  User.assignedReports
    <$> users (ReportsRoutes.serveAll Sample.db0 (take 4 Sample.toCompletion))
        !! 3%nat
  = Some [10%nat]
  ∧ User.assignedReports <$> users Sample.completedDb !! 3%nat = Some [].
Proof. vm_compute. split; reflexivity. Qed.

(** ** Balances and counters against the stored reports *)

Lemma mapSum_insert_new (f : Report.t → Z) (i : nat) (x : Report.t)
    (m : gmap nat Report.t) :
  m !! i = None → mapSum f (<[i := x]> m) = mapSum f m + f x.
Proof.
  intros Hi. unfold mapSum.
  rewrite map_fold_insert_L; [reflexivity| |exact Hi].
  intros. lia.
Qed.

Lemma mapSum_insert_old (f : Report.t → Z) (i : nat) (x y : Report.t)
    (m : gmap nat Report.t) :
  m !! i = Some y → mapSum f (<[i := x]> m) = mapSum f m - f y + f x.
Proof.
  intros Hi.
  rewrite <- (insert_delete_eq m i x).
  rewrite mapSum_insert_new by apply lookup_delete_eq.
  unfold mapSum at 2.
  rewrite (map_fold_delete_L _ _ i y m); [|intros; lia|exact Hi].
  fold (mapSum f (delete i m)). lia.
Qed.

Lemma addPoints_Returned (p now : Z) (u u' : User.t) :
  User.addPoints p now u = Returned u' →
  u' = User.preSave now (User.set_points (User.points u + p) u).
Proof.
  unfold User.addPoints. destruct (decide (User.role u = citizen));
    [|discriminate]. intros [= <-]. reflexivity.
Qed.

Lemma serve_unaccounted db rq now uid u :
  awardRange db →
  users db !! uid = Some u →
  ∃ u', users (ReportsRoutes.serve db rq now).2 !! uid = Some u'
        ∧ unaccounted (ReportsRoutes.serve db rq now).2 uid u'
          = unaccounted db uid u.
Proof.
  intros Hrange Hu.
  destruct rq; cbn [ReportsRoutes.serve];
    unfold ReportsRoutes.submit, ReportsRoutes.verify, ReportsRoutes.assign,
      ReportsRoutes.start, ReportsRoutes.complete, ReportsRoutes.awardPoints;
    open_route; try (exists u; split; [exact Hu|reflexivity]).
  all: status_known.
  all: try match goal with
       | H : bool_decide (is_Some _) || _ = false |- _ =>
           apply orb_false_elim in H as [H _];
           apply bool_decide_eq_false in H;
           apply eq_None_not_Some in H
       end.
  all: unfold unaccounted.
  all: cbn [findByIdAndUpdate set_users set_reports users reports rewardStore].
  all: try match goal with
       | |- context [alter _ ?k _ !! ?i] =>
           destruct (decide (k = i)) as [Heq|Hne]; [rewrite ?Heq in *|]
       end.
  all: repeat first
         [ rewrite lookup_alter_eq | rewrite lookup_alter_ne by assumption
         | rewrite lookup_insert_eq | rewrite lookup_insert_ne by assumption ].
  all: simplify_eq.
  all: rewrite ?Hu; cbn [fmap option_fmap option_map].
  all: eexists; (split; [reflexivity|]).
  all: first [ rewrite !mapSum_insert_new by assumption
             | erewrite !mapSum_insert_old by eassumption ].
  all: try match goal with
       | H : User.addPoints _ _ _ = Returned _ |- _ =>
           apply addPoints_Returned in H; subst
       end.
  all: try match goal with
       | Hv : negb (isInt 1 1000 _) = false, Hz : intValue _ = Some _ |- _ =>
           apply negb_false_iff, isInt_range in Hv as (z0 & Hz0 & Hz1);
           rewrite Hz in Hz0; injection Hz0 as <-
       end.
  all: try match goal with
       | Hr : reports _ !! _ = Some ?r,
         Hp : (0 <? Report.pointsAwarded ?r) = false |- _ =>
           apply Z.ltb_ge in Hp;
           let H0 := fresh "Hzero" in
           assert (H0 : Report.pointsAwarded r = 0)
             by (destruct (Hrange _ _ Hr); lia)
       end.
  all: unfold awardedTo, submittedBy, rewardedTo, finishedBy.
  all: cbn.
  all: repeat match goal with
       | H : Report.status _ = _ |- _ => rewrite H
       end.
  all: repeat match goal with
       | H : bool_decide (User.role _ ∈ [_]) = true |- _ =>
           apply role_of_guard in H
       end.
  all: repeat match goal with
       | |- (_, _) = (_, _) => apply (f_equal2 pair)
       end.
  all: repeat case_bool_decide.
  all: try lia.
  all: try solve [exfalso; intuition (try discriminate; try congruence)].
Qed.

Lemma serveAll_unaccounted rqs : ∀ db uid u,
  awardRange db →
  users db !! uid = Some u →
  ∃ u', users (ReportsRoutes.serveAll db rqs) !! uid = Some u'
        ∧ unaccounted (ReportsRoutes.serveAll db rqs) uid u'
          = unaccounted db uid u.
Proof.
  induction rqs as [|[rq now] rqs IH]; intros db uid u Hrange Hu.
  - exists u. split; [exact Hu|reflexivity].
  - cbn [ReportsRoutes.serveAll].
    destruct (serve_unaccounted db rq now uid u Hrange Hu) as (u1 & Hu1 & H1).
    destruct (IH _ uid u1 (serve_awardRange db rq now Hrange) Hu1)
      as (u' & Hu' & H').
    exists u'. split; [exact Hu'|congruence].
Qed.


Lemma no_reports_awardRange : awardRange Sample.db0.
Proof. intros id r Hr. cbn in Hr. rewrite lookup_empty in Hr. discriminate Hr. Qed.


(** X11. The two counters of a citizen follow the stored reports. Under
    the same conditions, [totalReports] of a user has grown by the number
    of stored reports the user submitted that are new, and
    [completedReports] by the number of the user's reports that newly
    carry an award: the counter is raised when points are awarded, not when
    the cleanup is completed. *)
Theorem citizen_counters_follow_the_reports
    (db : DB) (rqs : list (ReportsRoutes.Request * Z)) (uid : nat) (u : User.t) :
  awardRange db →
  users db !! uid = Some u →
  ∃ u', users (ReportsRoutes.serveAll db rqs) !! uid = Some u'
        ∧ User.totalReports u' - User.totalReports u
          = mapSum (submittedBy uid) (reports (ReportsRoutes.serveAll db rqs))
            - mapSum (submittedBy uid) (reports db)
        ∧ User.completedReports u' - User.completedReports u
          = mapSum (rewardedTo uid) (reports (ReportsRoutes.serveAll db rqs))
            - mapSum (rewardedTo uid) (reports db).
Proof.
  intros Hrange Hu.
  destruct (serveAll_unaccounted rqs db uid u Hrange Hu) as (u' & Hu' & H).
  exists u'. split; [exact Hu'|].
  unfold unaccounted in H. injection H as _ H2 H3 _. lia.
Qed.

Lemma citizen_counters_follow_the_reports_witness :
  awardRange Sample.db0
  ∧ users Sample.db0 !! 1%nat = Some Sample.asha
  ∧ ∃ u', users (ReportsRoutes.serveAll Sample.db0 Sample.toCompletion)
            !! 1%nat = Some u'
          ∧ User.totalReports u' - User.totalReports Sample.asha
            = mapSum (submittedBy 1)
                (reports
                   (ReportsRoutes.serveAll Sample.db0 Sample.toCompletion))
              - mapSum (submittedBy 1) (reports Sample.db0)
          ∧ User.completedReports u' - User.completedReports Sample.asha
            = mapSum (rewardedTo 1)
                (reports
                   (ReportsRoutes.serveAll Sample.db0 Sample.toCompletion))
              - mapSum (rewardedTo 1) (reports Sample.db0).
Proof.
  assert (H : users Sample.db0 !! 1%nat = Some Sample.asha) by reflexivity.
  split; [exact no_reports_awardRange|]. split; [exact H|].
  exact (citizen_counters_follow_the_reports Sample.db0 Sample.toCompletion
           1 Sample.asha no_reports_awardRange H).
Defined.

(** The completed report of the sample counts as submitted, and not yet as
    completed for its citizen, who has no points yet. *)
Example counters_after_completion :
  (λ u, (User.totalReports u, User.completedReports u, User.points u))
    <$> users Sample.completedDb !! 1%nat
  = Some (1, 0, 0)
  ∧ (λ u, (User.totalReports u, User.completedReports u, User.points u))
      <$> users (ReportsRoutes.serveAll Sample.db0 Sample.happyPath) !! 1%nat
    = Some (1, 1, 50).
Proof. vm_compute. split; reflexivity. Qed.

(** X12. [completedTasks] counts the cleanups a collector completed.
    Under the same conditions, [completedTasks] of a user has grown by the
    number of stored reports that are assigned to the user and newly
    [completed]. *)
Theorem completedTasks_follow_the_reports
    (db : DB) (rqs : list (ReportsRoutes.Request * Z)) (uid : nat) (u : User.t) :
  awardRange db →
  users db !! uid = Some u →
  ∃ u', users (ReportsRoutes.serveAll db rqs) !! uid = Some u'
        ∧ User.completedTasks u' - User.completedTasks u
          = mapSum (finishedBy uid) (reports (ReportsRoutes.serveAll db rqs))
            - mapSum (finishedBy uid) (reports db).
Proof.
  intros Hrange Hu.
  destruct (serveAll_unaccounted rqs db uid u Hrange Hu) as (u' & Hu' & H).
  exists u'. split; [exact Hu'|].
  unfold unaccounted in H. injection H as _ _ _ H4. lia.
Qed.

Lemma completedTasks_follow_the_reports_witness :
  awardRange Sample.db0
  ∧ users Sample.db0 !! 3%nat = Some Sample.carl
  ∧ ∃ u', users (ReportsRoutes.serveAll Sample.db0 Sample.toCompletion)
            !! 3%nat = Some u'
          ∧ User.completedTasks u' - User.completedTasks Sample.carl
            = mapSum (finishedBy 3)
                (reports
                   (ReportsRoutes.serveAll Sample.db0 Sample.toCompletion))
              - mapSum (finishedBy 3) (reports Sample.db0).
Proof.
  assert (H : users Sample.db0 !! 3%nat = Some Sample.carl) by reflexivity.
  split; [exact no_reports_awardRange|]. split; [exact H|].
  exact (completedTasks_follow_the_reports Sample.db0 Sample.toCompletion
           3 Sample.carl no_reports_awardRange H).
Defined.

(** ** Report identifiers *)










Example second_submission :
  (ReportsRoutes.submit Sample.completedDb 1 Sample.body 11 906000).1 = Ok 201
  ∧ Report.reportId
      <$> reports
            (ReportsRoutes.submit Sample.completedDb 1 Sample.body 11 906000).2
          !! 11%nat
    = Some (Some "WR000002").
Proof. vm_compute. split; reflexivity. Qed.

(** ** The limiter of sensitive operations *)

Lemma filter_all {A : Type} (P : A → Prop) `{∀ x, Decision (P x)}
    (l : list A) :
  Forall P l → filter P l = l.
Proof.
  induction 1 as [|x l Hx Hl IH]; [reflexivity|].
  rewrite filter_cons_True by exact Hx. now rewrite IH.
Qed.


Lemma filter_ext_elem {A : Type} (P Q : A → Prop)
    `{∀ x, Decision (P x)} `{∀ x, Decision (Q x)} (l : list A) :
  (∀ x, x ∈ l → (P x ↔ Q x)) → filter P l = filter Q l.
Proof.
  induction l as [|x l IH]; intros Hiff; [reflexivity|].
  assert (Hx : P x ↔ Q x) by (apply Hiff; left).
  assert (Hl : filter P l = filter Q l).
  { apply IH. intros y Hy. apply Hiff. now right. }
  destruct (decide (P x)) as [Hp|Hp].
  - rewrite !filter_cons_True by tauto. now rewrite Hl.
  - rewrite !filter_cons_False by tauto. exact Hl.
Qed.

Lemma recent_of_stored (A : list Z) (now : Z) :
  Forall (λ t, t ≤ now) A →
  filter (λ t, now - t < RateLimit.windowMs) (storedFor A)
  = filter (λ t, now - t < RateLimit.windowMs) A.
Proof.
  intros Hle. unfold storedFor. rewrite list_filter_filter.
  apply filter_ext_elem. intros t Ht. split; [tauto|].
  intros Hr. split; [exact Hr|]. cbn beta in Hr.
  destruct (last A) as [tl|] eqn:El; (cbn [from_option]; unfold Datatypes.id).
  - assert (tl ≤ now).
    { rewrite Forall_forall in Hle. apply Hle, last_Some_elem_of, El. }
    lia.
  - apply last_None in El. subst A. apply elem_of_nil in Ht. destruct Ht.
Qed.

Lemma storedFor_snoc (A : list Z) (now : Z) :
  Forall (λ t, t ≤ now) A →
  storedFor (A ++ [now])
  = filter (λ t, now - t < RateLimit.windowMs) (storedFor A) ++ [now].
Proof.
  intros Hle. rewrite recent_of_stored by exact Hle.
  unfold storedFor. rewrite last_snoc. (cbn [from_option]; unfold Datatypes.id).
  rewrite filter_app.
  rewrite (filter_cons_True _ now []) by (unfold RateLimit.windowMs; lia).
  reflexivity.
Qed.

Lemma ascending_snoc (A : list Z) (now : Z) :
  ascending A → Forall (λ t, t ≤ now) A → ascending (A ++ [now]).
Proof.
  intros Hasc Hle i j a b Hij Hi Hj.
  destruct (decide (j < length A)%nat) as [Hlt|Hge].
  - rewrite lookup_app_l in Hi by lia. rewrite lookup_app_l in Hj by lia.
    exact (Hasc i j a b Hij Hi Hj).
  - assert (Hb : b = now).
    { rewrite lookup_app_r in Hj by lia.
      destruct (j - length A)%nat; [cbn in Hj; congruence|].
      cbn in Hj. discriminate. }
    subst b. apply list_elem_of_lookup_2 in Hi.
    apply elem_of_app in Hi as [Hi|Hi].
    + rewrite Forall_forall in Hle. apply Hle, Hi.
    + apply list_elem_of_singleton in Hi. lia.
Qed.

Lemma spaced_snoc (A : list Z) (now : Z) :
  ascending A → spaced A →
  (length (filter (λ t, (now - t < RateLimit.windowMs)%Z) A) < 5)%nat →
  spaced (A ++ [now]).
Proof.
  intros Hasc Hsp Hfew i a b Hi Hj.
  destruct (decide (i + 5 < length A)%nat) as [Hlt|Hge].
  - rewrite lookup_app_l in Hi by lia. rewrite lookup_app_l in Hj by lia.
    eapply Hsp; eassumption.
  - assert (Hlen : (i + 5 = length A)%nat).
    { apply lookup_lt_Some in Hj. rewrite length_app in Hj. cbn in Hj. lia. }
    assert (Hb : b = now).
    { rewrite lookup_app_r in Hj by lia.
      replace (i + 5 - length A)%nat with 0%nat in Hj by lia.
      cbn in Hj. congruence. }
    subst b. rewrite lookup_app_l in Hi by lia.
    destruct (decide (RateLimit.windowMs ≤ now - a)) as [?|Hn]; [assumption|].
    exfalso.
    assert (Hall : Forall (λ t, now - t < RateLimit.windowMs) (drop i A)).
    { apply Forall_lookup. intros j t Ht. rewrite lookup_drop in Ht.
      assert (a ≤ t) by (apply (Hasc i (i + j)%nat a t); [lia|assumption..]).
      lia. }
    rewrite <- (take_drop i A), filter_app, length_app in Hfew.
    rewrite (filter_all _ _ Hall), length_drop in Hfew. lia.
Qed.

Lemma limiter_step (store : gmap string (list Z)) (k k' : string) (A : list Z)
    (now : Z) :
  limiterAt store k A →
  Forall (λ t, t ≤ now) A →
  limiterAt (RateLimit.sensitiveOperationLimit store k' now).2 k
    (A ++ match (RateLimit.sensitiveOperationLimit store k' now).1 with
          | RateLimit.Next => if bool_decide (k' = k) then [now] else []
          | RateLimit.RateLimited _ => []
          end).
Proof.
  intros (Hst & Hasc & Hsp) Hle.
  unfold RateLimit.sensitiveOperationLimit.
  destruct (RateLimit.maxAttempts <=? _)%nat eqn:Hfull; cbn [fst snd].
  - rewrite app_nil_r. now split.
  - apply Nat.leb_gt in Hfull.
    destruct (decide (k' = k)) as [->|Hne].
    + rewrite bool_decide_eq_true_2 by reflexivity.
      rewrite Hst in Hfull |- *.
      split; [|split].
      * rewrite lookup_insert_eq. (cbn [from_option]; unfold Datatypes.id).
        symmetry. apply storedFor_snoc, Hle.
      * apply ascending_snoc; assumption.
      * apply spaced_snoc; [assumption..|].
        rewrite <- recent_of_stored by exact Hle. exact Hfull.
    + rewrite bool_decide_eq_false_2 by exact Hne. rewrite app_nil_r.
      split; [|now split]. rewrite lookup_insert_ne by exact Hne. exact Hst.
Qed.

Lemma limiter_run (reqs : list (string * Z)) : ∀ store k A,
  limiterAt store k A →
  StronglySorted Z.le (reqs.*2) →
  Forall (λ t, Forall (λ now, t ≤ now) (reqs.*2)) A →
  limiterAt (RateLimit.run store reqs) k (A ++ RateLimit.accepted store reqs k).
Proof.
  induction reqs as [|[k' now] reqs IH]; intros store k A Hinv Hsorted Hle.
  - cbn. rewrite app_nil_r. exact Hinv.
  - cbn [RateLimit.run RateLimit.accepted fmap list_fmap snd] in *.
    apply StronglySorted_inv in Hsorted as [Hsorted Hnow].
    rewrite app_assoc. apply IH; [|exact Hsorted|].
    + apply limiter_step; [exact Hinv|].
      eapply Forall_impl; [exact Hle|]. cbn. intros t Ht.
      now apply Forall_inv in Ht.
    + apply Forall_app. split.
      * eapply Forall_impl; [exact Hle|]. cbn. intros t Ht.
        now apply Forall_inv_tail in Ht.
      * destruct (RateLimit.sensitiveOperationLimit store k' now).1;
          [|constructor].
        destruct (bool_decide (k' = k)); constructor; [exact Hnow|constructor].
Qed.

(** X14. The limiter lets through at most five attempts per key in any
    window of fifteen minutes. From an empty store, over any sequence of
    requests whose clock readings never go back: of the attempts let
    through for one key, the fifth after any given one comes at least
    fifteen minutes after it. *)
Theorem at_most_five_attempts_per_window
    (reqs : list (string * Z)) (k : string) (i : nat) (a b : Z) :
  StronglySorted Z.le (reqs.*2) →
  RateLimit.accepted ∅ reqs k !! i = Some a →
  RateLimit.accepted ∅ reqs k !! (i + 5)%nat = Some b →
  15 * 60 * 1000 ≤ b - a.
Proof.
  intros Hsorted Ha Hb.
  assert (Hinit : limiterAt ∅ k []).
  { split; [reflexivity|]. split.
    - intros ? ? ? ? _ H. rewrite lookup_nil in H. discriminate.
    - intros ? ? ? H. rewrite lookup_nil in H. discriminate. }
  destruct (limiter_run reqs ∅ k [] Hinit Hsorted (Forall_nil_2 _))
    as (_ & _ & Hsp).
  exact (Hsp i a b Ha Hb).
Qed.

Lemma at_most_five_attempts_per_window_witness :
  StronglySorted Z.le (loginAttempts.*2)
  ∧ RateLimit.accepted ∅ loginAttempts "203.0.113.7_/login" !! 0%nat = Some 0
  ∧ RateLimit.accepted ∅ loginAttempts "203.0.113.7_/login" !! (0 + 5)%nat
    = Some 900000
  ∧ 15 * 60 * 1000 ≤ 900000 - 0.
Proof.
  assert (H1 : StronglySorted Z.le (loginAttempts.*2)).
  { apply (bool_decide_unpack _). vm_compute. exact I. }
  assert (H2 : RateLimit.accepted ∅ loginAttempts "203.0.113.7_/login"
               !! 0%nat = Some 0) by (vm_compute; reflexivity).
  assert (H3 : RateLimit.accepted ∅ loginAttempts "203.0.113.7_/login"
               !! (0 + 5)%nat = Some 900000) by (vm_compute; reflexivity).
  split; [exact H1|]. split; [exact H2|]. split; [exact H3|].
  exact (at_most_five_attempts_per_window loginAttempts "203.0.113.7_/login"
           0 0 900000 H1 H2 H3).
Defined.

(** Of the seven attempts of the sample the sixth is refused. *)
Example login_attempts_accepted :
  RateLimit.accepted ∅ loginAttempts "203.0.113.7_/login"
  = [0; 1000; 2000; 3000; 4000; 900000].
Proof. vm_compute. reflexivity. Qed.

(** No key ever has more than five attempts in the store. *)
Lemma run_bounded (reqs : list (string * Z)) : ∀ store,
  storeBounded store → storeBounded (RateLimit.run store reqs).
Proof.
  induction reqs as [|[k now] reqs IH]; intros store Hb; [exact Hb|].
  cbn [RateLimit.run]. apply IH.
  unfold RateLimit.sensitiveOperationLimit.
  destruct (RateLimit.maxAttempts <=? _)%nat eqn:Hfull; cbn [snd];
    [exact Hb|].
  apply Nat.leb_gt in Hfull. intros k' l Hl.
  apply lookup_insert_Some in Hl as [[_ <-]|[_ Hl]]; [|exact (Hb k' l Hl)].
  rewrite length_app. cbn [length]. unfold RateLimit.maxAttempts in Hfull.
  lia.
Qed.

Lemma filter_keeps_all {A : Type} (P : A → Prop) `{∀ x, Decision (P x)}
    (l : list A) :
  (length l ≤ length (filter P l))%nat → filter P l = l.
Proof.
  induction l as [|x l IH]; [reflexivity|].
  destruct (decide (P x)) as [Hp|Hp].
  - rewrite filter_cons_True by exact Hp. cbn [length]. intros Hl.
    rewrite IH by lia. reflexivity.
  - rewrite filter_cons_False by exact Hp. cbn [length]. intros Hl.
    pose proof (length_filter P l). lia.
Qed.

(** X15. A refused attempt is not recorded, and its [retryAfter] is
    enough. When the limiter, in a state reached from an empty store,
    answers 429 to a request at clock reading [now]: the store is left as
    it was, [retryAfter] is at least one second, and the same key is let
    through at any clock reading that is [retryAfter] seconds or more
    after [now]. *)
Theorem retryAfter_is_enough
    (reqs : list (string * Z)) (k : string) (now r : Z) :
  (RateLimit.sensitiveOperationLimit (RateLimit.run ∅ reqs) k now).1
  = RateLimit.RateLimited r →
  (RateLimit.sensitiveOperationLimit (RateLimit.run ∅ reqs) k now).2
  = RateLimit.run ∅ reqs
  ∧ 1 ≤ r
  ∧ ∀ now', now + 1000 * r ≤ now' →
      (RateLimit.sensitiveOperationLimit (RateLimit.run ∅ reqs) k now').1
      = RateLimit.Next.
Proof.
  assert (Hb : storeBounded (RateLimit.run ∅ reqs)).
  { apply run_bounded. intros k' l Hl. rewrite lookup_empty in Hl.
    discriminate Hl. }
  revert Hb. generalize (RateLimit.run ∅ reqs). intros store Hb.
  unfold RateLimit.sensitiveOperationLimit.
  set (L := default [] (store !! k)).
  assert (HL : (length L ≤ 5)%nat).
  { unfold L. destruct (store !! k) as [l|] eqn:El; cbn; [|lia].
    exact (Hb k l El). }
  destruct (RateLimit.maxAttempts <=? _)%nat eqn:Hfull; cbn [fst snd];
    [|discriminate].
  intros [= <-]. apply Nat.leb_le in Hfull.
  unfold RateLimit.maxAttempts in Hfull.
  pose proof (length_filter (λ t, now - t < RateLimit.windowMs) L) as Hlen.
  assert (Hall : filter (λ t, now - t < RateLimit.windowMs) L = L)
    by (apply filter_keeps_all; lia).
  rewrite Hall in *.
  destruct L as [|t0 L'] eqn:EL; [cbn in Hfull; lia|]. cbn [hd].
  assert (Ht0 : now - t0 < RateLimit.windowMs).
  { assert (Hin : t0 ∈ filter (λ t, now - t < RateLimit.windowMs) (t0 :: L'))
      by (rewrite Hall; left).
    apply list_elem_of_filter in Hin as [Hin _]. exact Hin. }
  unfold RateLimit.ceilSeconds.
  split; [reflexivity|]. split.
  - Z.div_mod_to_equations. lia.
  - intros now' Hnow'.
    assert (Hexp : RateLimit.windowMs ≤ now' - t0)
      by (Z.div_mod_to_equations; lia).
    assert (Hlt : (length (filter (λ t, (now' - t < RateLimit.windowMs)%Z)
                             (t0 :: L')) < length (t0 :: L'))%nat).
    { apply (length_filter_lt _ _ t0); [left|lia]. }
    destruct (RateLimit.maxAttempts <=? _)%nat eqn:Hfull'; [|reflexivity].
    apply Nat.leb_le in Hfull'. unfold RateLimit.maxAttempts in Hfull'.
    cbn [length] in *. lia.
Qed.

Lemma retryAfter_is_enough_witness :
  (RateLimit.sensitiveOperationLimit
     (RateLimit.run ∅ (take 5 loginAttempts)) "203.0.113.7_/login" 5000).1
  = RateLimit.RateLimited 895
  ∧ (RateLimit.sensitiveOperationLimit
       (RateLimit.run ∅ (take 5 loginAttempts)) "203.0.113.7_/login" 5000).2
    = RateLimit.run ∅ (take 5 loginAttempts)
  ∧ 1 ≤ 895
  ∧ ∀ now', 5000 + 1000 * 895 ≤ now' →
      (RateLimit.sensitiveOperationLimit
         (RateLimit.run ∅ (take 5 loginAttempts)) "203.0.113.7_/login"
         now').1
      = RateLimit.Next.
Proof.
  assert (H : (RateLimit.sensitiveOperationLimit
                 (RateLimit.run ∅ (take 5 loginAttempts))
                 "203.0.113.7_/login" 5000).1
              = RateLimit.RateLimited 895) by (vm_compute; reflexivity).
  split; [exact H|].
  exact (retryAfter_is_enough (take 5 loginAttempts) "203.0.113.7_/login"
           5000 895 H).
Defined.

(** ** The routes of the admin *)

Ltac open_auth :=
  unfold withAuth, authenticateToken, requireAdmin, requireCitizen,
    requireCollector, requireRole;
  repeat case_match; simplify_eq; cbn [fst snd] in *.






Example admin_cannot_deactivate_self :
  (UsersAdmin.setStatus Sample.db0 2 2 false 1000).1
  = Failure 400 "CANNOT_DEACTIVATE_SELF"
  ∧ (UsersAdmin.setStatus Sample.db0 2 3 false 1000).1 = Json tt.
Proof. vm_compute. split; reflexivity. Qed.

(** ** A deactivated account *)

Lemma deactivated_is_refused db rq now u :
  users db !! caller rq = Some u →
  User.isActive u = false →
  ReportsRoutes.serve db rq now = (Err 401 ACCOUNT_DEACTIVATED, db).
Proof.
  intros Hu Ha.
  destruct rq; cbn [ReportsRoutes.serve caller] in *;
    unfold ReportsRoutes.submit, ReportsRoutes.verify, ReportsRoutes.assign,
      ReportsRoutes.start, ReportsRoutes.complete, ReportsRoutes.awardPoints,
      guarded, authenticateToken;
    rewrite Hu, Ha; reflexivity.
Qed.

(** X17. A deactivated account is locked out of the report lifecycle.
    Once an admin has deactivated an account through the status route,
    every request of that account to a lifecycle route is answered with
    401 [ACCOUNT_DEACTIVATED] and changes nothing, whatever the role of
    the account and the request. *)
Theorem deactivation_locks_out
    (db : DB) (adminId target : nat) (now : Z)
    (rq : ReportsRoutes.Request) (now' : Z) :
  (UsersAdmin.setStatus db adminId target false now).1 = Json tt →
  caller rq = target →
  ReportsRoutes.serve (UsersAdmin.setStatus db adminId target false now).2
    rq now'
  = (Err 401 ACCOUNT_DEACTIVATED,
     (UsersAdmin.setStatus db adminId target false now).2).
Proof.
  intros Hok <-. revert Hok. unfold UsersAdmin.setStatus.
  open_auth; try discriminate. intros _.
  eapply deactivated_is_refused;
    [cbn [users set_users]; apply lookup_insert_eq|reflexivity].
Qed.

Lemma deactivation_locks_out_witness :
  (UsersAdmin.setStatus Sample.db0 2 1 false 1000).1 = Json tt
  ∧ caller (ReportsRoutes.Submit 1 Sample.body 10) = 1%nat
  ∧ ReportsRoutes.serve (UsersAdmin.setStatus Sample.db0 2 1 false 1000).2
      (ReportsRoutes.Submit 1 Sample.body 10) 2000
    = (Err 401 ACCOUNT_DEACTIVATED,
       (UsersAdmin.setStatus Sample.db0 2 1 false 1000).2).
Proof.
  assert (H1 : (UsersAdmin.setStatus Sample.db0 2 1 false 1000).1 = Json tt)
    by (vm_compute; reflexivity).
  assert (H2 : caller (ReportsRoutes.Submit 1 Sample.body 10) = 1%nat)
    by reflexivity.
  split; [exact H1|]. split; [exact H2|].
  exact (deactivation_locks_out Sample.db0 2 1 1000
           (ReportsRoutes.Submit 1 Sample.body 10) 2000 H1 H2).
Defined.

(** ** Adjusting a balance by hand *)

Lemma adjustPoints_nonNegative db userId id points reason_ operation now :
  nonNegative db →
  (operation = "add" → 0 ≤ default 0 (intValue points)) →
  nonNegative
    (UsersAdmin.adjustPoints db userId id points reason_ operation now).2.
Proof.
  intros Hinv Hadd. unfold UsersAdmin.adjustPoints.
  open_auth; try exact Hinv.
  all: apply insert_nonNegative; [exact Hinv|]; cbn.
  - match goal with
    | H : (operation =? "add")%string = true |- _ => apply String.eqb_eq in H
    end.
    match goal with
    | H : users db !! id = Some ?u |- _ => pose proof (Hinv id u H) as Hu
    end.
    cbn in Hu. specialize (Hadd ltac:(assumption)). lia.
  - lia.
  - lia.
Qed.

(** X18. Adjusting a balance by hand cannot create a debt by subtracting
    or setting. Over any sequence of requests to the status and points
    routes of the admin, no balance becomes negative, provided none was
    and no adjustment adds a negative amount: [subtract] and [set] stop at
    zero, whatever the amount. *)
Theorem adjustments_keep_balances_non_negative
    (db : DB) (rqs : list (UsersAdmin.Request * Z)) :
  nonNegative db →
  Forall (λ rq, addsNoDebt rq.1) rqs →
  nonNegative (UsersAdmin.serveAll db rqs).
Proof.
  revert db. induction rqs as [|[rq now] rqs IH]; intros db Hinv Hrqs;
    [exact Hinv|].
  cbn [UsersAdmin.serveAll]. apply Forall_cons in Hrqs as [Hrq Hrqs].
  apply IH; [|exact Hrqs].
  destruct rq as [u id b|u id p r o]; cbn [UsersAdmin.serve].
  - unfold UsersAdmin.setStatus. open_auth; try exact Hinv.
    apply insert_nonNegative; [exact Hinv|]. cbn.
    match goal with
    | H : users db !! id = Some ?u |- _ => exact (Hinv id u H)
    end.
  - apply adjustPoints_nonNegative; [exact Hinv|exact Hrq].
Qed.

Lemma adjustments_keep_balances_non_negative_witness :
  nonNegative Sample.shopDb
  ∧ Forall (λ rq, addsNoDebt rq.1)
      [ (UsersAdmin.AdjustPoints 2 1 (JsNumber (700 # 1)) "fraud" "subtract",
         1000);
        (UsersAdmin.AdjustPoints 2 1 (JsNumber (-5 # 1)) "reset" "set",
         2000) ]
  ∧ nonNegative
      (UsersAdmin.serveAll Sample.shopDb
         [ (UsersAdmin.AdjustPoints 2 1 (JsNumber (700 # 1)) "fraud"
              "subtract", 1000);
           (UsersAdmin.AdjustPoints 2 1 (JsNumber (-5 # 1)) "reset" "set",
            2000) ]).
Proof.
  assert (H1 : nonNegative Sample.shopDb).
  { unfold nonNegative. apply (bool_decide_unpack _). vm_compute. exact I. }
  assert (H2 : Forall (λ rq, addsNoDebt rq.1)
      [ (UsersAdmin.AdjustPoints 2 1 (JsNumber (700 # 1)) "fraud" "subtract",
         1000);
        (UsersAdmin.AdjustPoints 2 1 (JsNumber (-5 # 1)) "reset" "set",
         2000) ]).
  { repeat constructor; cbn; discriminate. }
  split; [exact H1|]. split; [exact H2|].
  exact (adjustments_keep_balances_non_negative Sample.shopDb _ H1 H2).
Defined.

Example subtract_stops_at_zero :
  (UsersAdmin.adjustPoints Sample.shopDb 2 1 (JsNumber (700 # 1)) "fraud"
     "subtract" 1000).1
  = Json (UsersAdmin.mkAdjustment 500 0 (-500) "fraud")
  ∧ (UsersAdmin.adjustPoints Sample.shopDb 2 1 (JsNumber (-700 # 1)) "typo"
       "add" 1000).1
    = Json (UsersAdmin.mkAdjustment 500 (-200) (-700) "typo")
  ∧ (UsersAdmin.adjustPoints Sample.shopDb 2 2 (JsNumber (5 # 1)) "gift"
       "add" 1000).1
    = Failure 400 "INVALID_USER_ROLE".
Proof. vm_compute. repeat split. Qed.

(** ** Using a redemption *)

Lemma find_app_None {A : Type} (f : A → bool) (l l' : list A) :
  find f l = None → find f (l ++ l') = find f l'.
Proof.
  induction l as [|a l IH]; [reflexivity|].
  cbn [find app]. destruct (f a); [discriminate|exact IH].
Qed.

Lemma find_updateFirst_same (id : string) f
    (l : list RewardsRoutes.MockRedemption) r :
  (∀ x, RewardsRoutes.rd_id (f x) = RewardsRoutes.rd_id x) →
  find (λ r, String.eqb (RewardsRoutes.rd_id r) id) l = Some r →
  find (λ r, String.eqb (RewardsRoutes.rd_id r) id)
       (RedemptionsRoutes.updateFirst id f l) = Some (f r).
Proof.
  intros Hf. induction l as [|x l IH]; [discriminate|].
  cbn [find RedemptionsRoutes.updateFirst].
  destruct (String.eqb (RewardsRoutes.rd_id x) id) eqn:E.
  - intros [= <-]. cbn [find]. rewrite Hf, E. reflexivity.
  - intros H. cbn [find]. rewrite E. apply IH, H.
Qed.

Lemma find_updateFirst_other (id id' : string) f
    (l : list RewardsRoutes.MockRedemption) :
  (∀ x, RewardsRoutes.rd_id (f x) = RewardsRoutes.rd_id x) →
  id' ≠ id →
  find (λ r, String.eqb (RewardsRoutes.rd_id r) id)
       (RedemptionsRoutes.updateFirst id' f l)
  = find (λ r, String.eqb (RewardsRoutes.rd_id r) id) l.
Proof.
  intros Hf Hne. induction l as [|x l IH]; [reflexivity|].
  cbn [find RedemptionsRoutes.updateFirst].
  destruct (String.eqb (RewardsRoutes.rd_id x) id') eqn:E'.
  - cbn [find]. rewrite Hf.
    apply String.eqb_eq in E'.
    destruct (String.eqb (RewardsRoutes.rd_id x) id) eqn:E; [|reflexivity].
    apply String.eqb_eq in E. congruence.
  - cbn [find]. rewrite IH. reflexivity.
Qed.

Lemma serve_usedUp st rq now id :
  usedUp id st.2 → usedUp id (RedemptionsRoutes.serve st rq now).2.
Proof.
  intros (r & Hr & Hused). destruct st as [db mem]. unfold usedUp.
  destruct rq as [uid rid code suffix|uid rid]; cbn [RedemptionsRoutes.serve fst snd].
  - unfold RewardsRoutes.redeem. open_route; try (exists r; now split).
    cbn [RewardsRoutes.redemptions]. exists r. split; [|exact Hused].
    apply find_app_Some, Hr.
  - unfold RedemptionsRoutes.use. open_auth; try (exists r; now split).
    cbn [RewardsRoutes.redemptions].
    destruct (decide (rid = id)) as [->|Hne].
    + simplify_eq. congruence.
    + exists r. split; [|exact Hused].
      rewrite find_updateFirst_other; [exact Hr|reflexivity|exact Hne].
Qed.

Lemma serveAll_usedUp rqs : ∀ st id,
  usedUp id st.2 → usedUp id (RedemptionsRoutes.serveAll st rqs).2.
Proof.
  induction rqs as [|[rq now] rqs IH]; intros st id Hused; [exact Hused|].
  cbn [RedemptionsRoutes.serveAll]. apply IH, serve_usedUp, Hused.
Qed.

Lemma use_usedUp db mem uid id now :
  (RedemptionsRoutes.use db mem uid id now).1 = Json tt →
  usedUp id (RedemptionsRoutes.use db mem uid id now).2.
Proof.
  unfold RedemptionsRoutes.use. open_auth; try discriminate. intros _.
  match goal with
  | H : find _ _ = Some ?m |- _ => exists (RedemptionsRoutes.markUsed now m)
  end.
  split; [|reflexivity].
  cbn [RewardsRoutes.redemptions].
  apply find_updateFirst_same; [reflexivity|assumption].
Qed.

(** X19. A redemption is marked as used at most once. After a request has
    marked the redemption with an id as used, no request for that id
    succeeds any more: not from its owner, not from an admin, at no clock
    reading, and whatever redemptions and uses the rewards router serves in
    between. *)
Theorem redemption_is_used_at_most_once
    (db : DB) (mem : RewardsRoutes.Memory) (uid : nat) (id : string) (now : Z)
    (rqs : list (RedemptionsRoutes.Request * Z)) (uid' : nat) (now' : Z) :
  (RedemptionsRoutes.use db mem uid id now).1 = Json tt →
  (RedemptionsRoutes.use
     (RedemptionsRoutes.serveAll
        (db, (RedemptionsRoutes.use db mem uid id now).2) rqs).1
     (RedemptionsRoutes.serveAll
        (db, (RedemptionsRoutes.use db mem uid id now).2) rqs).2
     uid' id now').1
  ≠ Json tt.
Proof.
  intros Hok. apply use_usedUp in Hok.
  pose proof (serveAll_usedUp rqs
                (db, (RedemptionsRoutes.use db mem uid id now).2) id Hok)
    as (r & Hr & Hused).
  generalize dependent (RedemptionsRoutes.serveAll
                          (db, (RedemptionsRoutes.use db mem uid id now).2)
                          rqs).
  intros [db' mem'] Hr. cbn [fst snd] in *.
  unfold RedemptionsRoutes.use. open_auth; first [discriminate|congruence].
Qed.

(** X20. A coupon that was just redeemed can be used by its owner for
    thirty days. After a successful redemption through the rewards router
    at clock reading [now], when no earlier redemption carries the same id:
    a request of the same user to mark the new redemption as used succeeds
    at any clock reading up to thirty days after [now], and is refused as
    expired after that. *)
Theorem redeemed_coupon_can_be_used_for_thirty_days
    (db : DB) (mem : RewardsRoutes.Memory) (uid : nat) (rid : string)
    (now : Z) (code suffix : string) (now' : Z) :
  (RewardsRoutes.redeem db mem uid rid now code suffix).1 = Ok 200 →
  find (λ r, String.eqb (RewardsRoutes.rd_id r)
               ("redemption_" +:+ toString (Z.to_N now) +:+ "_" +:+ suffix))
       (RewardsRoutes.redemptions mem) = None →
  (now' ≤ now + 30 * 24 * 60 * 60 * 1000 →
   (RedemptionsRoutes.use
      (RewardsRoutes.redeem db mem uid rid now code suffix).2.1
      (RewardsRoutes.redeem db mem uid rid now code suffix).2.2
      uid ("redemption_" +:+ toString (Z.to_N now) +:+ "_" +:+ suffix)
      now').1 = Json tt)
  ∧ (now + 30 * 24 * 60 * 60 * 1000 < now' →
     (RedemptionsRoutes.use
        (RewardsRoutes.redeem db mem uid rid now code suffix).2.1
        (RewardsRoutes.redeem db mem uid rid now code suffix).2.2
        uid ("redemption_" +:+ toString (Z.to_N now) +:+ "_" +:+ suffix)
        now').1 = Failure 400 "Redemption has expired").
Proof.
  unfold RewardsRoutes.redeem. open_route; try discriminate.
  intros _ Hfresh.
  unfold RedemptionsRoutes.use, withAuth, authenticateToken.
  cbn [users set_users RewardsRoutes.redemptions].
  rewrite lookup_insert_eq. cbn [User.isActive User.preSave User.set_updatedAt
    User.set_points].
  match goal with
  | H : User.isActive _ = true |- _ => rewrite H
  end.
  rewrite find_app_None by exact Hfresh. cbn [find RewardsRoutes.rd_id].
  rewrite String.eqb_refl.
  cbn [RewardsRoutes.userId RewardsRoutes.isUsed RewardsRoutes.expiresAt].
  rewrite bool_decide_eq_true_2 by reflexivity. cbn [negb andb].
  unfold RewardsRoutes.thirtyDays. split; intros Hnow'.
  - destruct (_ <? now') eqn:E; [apply Z.ltb_lt in E; lia|reflexivity].
  - destruct (_ <? now') eqn:E; [reflexivity|apply Z.ltb_ge in E; lia].
Qed.

Lemma redeemed_coupon_can_be_used_for_thirty_days_witness :
  (RewardsRoutes.redeem Sample.shopDb Sample.memory0 1 "reward_2"
     1700000000000 "K7Q2M9XA" "x1y2z3w4q").1 = Ok 200
  ∧ find (λ r, String.eqb (RewardsRoutes.rd_id r)
                 ("redemption_" +:+ toString (Z.to_N 1700000000000) +:+ "_"
                  +:+ "x1y2z3w4q"))
         (RewardsRoutes.redemptions Sample.memory0) = None
  ∧ (1700000000001 ≤ 1700000000000 + 30 * 24 * 60 * 60 * 1000 →
     (RedemptionsRoutes.use
        (RewardsRoutes.redeem Sample.shopDb Sample.memory0 1 "reward_2"
           1700000000000 "K7Q2M9XA" "x1y2z3w4q").2.1
        (RewardsRoutes.redeem Sample.shopDb Sample.memory0 1 "reward_2"
           1700000000000 "K7Q2M9XA" "x1y2z3w4q").2.2
        1 ("redemption_" +:+ toString (Z.to_N 1700000000000) +:+ "_"
           +:+ "x1y2z3w4q")
        1700000000001).1 = Json tt).
Proof.
  assert (H1 : (RewardsRoutes.redeem Sample.shopDb Sample.memory0 1 "reward_2"
                  1700000000000 "K7Q2M9XA" "x1y2z3w4q").1 = Ok 200)
    by (vm_compute; reflexivity).
  assert (H2 : find (λ r, String.eqb (RewardsRoutes.rd_id r)
                 ("redemption_" +:+ toString (Z.to_N 1700000000000) +:+ "_"
                  +:+ "x1y2z3w4q"))
         (RewardsRoutes.redemptions Sample.memory0) = None)
    by reflexivity.
  split; [exact H1|]. split; [exact H2|].
  exact (proj1 (redeemed_coupon_can_be_used_for_thirty_days Sample.shopDb
                  Sample.memory0 1 "reward_2" 1700000000000 "K7Q2M9XA"
                  "x1y2z3w4q" 1700000000001 H1 H2)).
Defined.

Lemma redemption_is_used_at_most_once_witness :
  (RedemptionsRoutes.use
     (RewardsRoutes.redeem Sample.shopDb Sample.memory0 1 "reward_2"
        1700000000000 "K7Q2M9XA" "x1y2z3w4q").2.1
     (RewardsRoutes.redeem Sample.shopDb Sample.memory0 1 "reward_2"
        1700000000000 "K7Q2M9XA" "x1y2z3w4q").2.2
     1 "redemption_1700000000000_x1y2z3w4q" 1700000000001).1 = Json tt
  ∧ (RedemptionsRoutes.use
       (RedemptionsRoutes.serveAll
          ((RewardsRoutes.redeem Sample.shopDb Sample.memory0 1 "reward_2"
              1700000000000 "K7Q2M9XA" "x1y2z3w4q").2.1,
           (RedemptionsRoutes.use
              (RewardsRoutes.redeem Sample.shopDb Sample.memory0 1 "reward_2"
                 1700000000000 "K7Q2M9XA" "x1y2z3w4q").2.1
              (RewardsRoutes.redeem Sample.shopDb Sample.memory0 1 "reward_2"
                 1700000000000 "K7Q2M9XA" "x1y2z3w4q").2.2
              1 "redemption_1700000000000_x1y2z3w4q" 1700000000001).2)
          []).1
       (RedemptionsRoutes.serveAll
          ((RewardsRoutes.redeem Sample.shopDb Sample.memory0 1 "reward_2"
              1700000000000 "K7Q2M9XA" "x1y2z3w4q").2.1,
           (RedemptionsRoutes.use
              (RewardsRoutes.redeem Sample.shopDb Sample.memory0 1 "reward_2"
                 1700000000000 "K7Q2M9XA" "x1y2z3w4q").2.1
              (RewardsRoutes.redeem Sample.shopDb Sample.memory0 1 "reward_2"
                 1700000000000 "K7Q2M9XA" "x1y2z3w4q").2.2
              1 "redemption_1700000000000_x1y2z3w4q" 1700000000001).2)
          []).2
       2 "redemption_1700000000000_x1y2z3w4q" 1700000000002).1
    ≠ Json tt.
Proof.
  assert (H : (RedemptionsRoutes.use
     (RewardsRoutes.redeem Sample.shopDb Sample.memory0 1 "reward_2"
        1700000000000 "K7Q2M9XA" "x1y2z3w4q").2.1
     (RewardsRoutes.redeem Sample.shopDb Sample.memory0 1 "reward_2"
        1700000000000 "K7Q2M9XA" "x1y2z3w4q").2.2
     1 "redemption_1700000000000_x1y2z3w4q" 1700000000001).1 = Json tt)
    by (vm_compute; reflexivity).
  split; [exact H|].
  exact (redemption_is_used_at_most_once _ _ 1
           "redemption_1700000000000_x1y2z3w4q" 1700000000001 [] 2
           1700000000002 H).
Defined.

(** ** Points spent through the rewards router *)

Lemma spentBy_snoc (uid : nat) (l : list RewardsRoutes.MockRedemption)
    (r : RewardsRoutes.MockRedemption) :
  spentBy uid (l ++ [r])
  = spentBy uid l
    + (if bool_decide (RewardsRoutes.userId r = uid)
       then RewardsRoutes.pointsUsed r else 0).
Proof.
  unfold spentBy. rewrite filter_app, fmap_app, foldr_app.
  assert (Hgen : ∀ (xs : list Z) (a : Z),
            foldr Z.add a xs = foldr Z.add 0 xs + a).
  { induction xs as [|x xs IH]; intros a; cbn [foldr]; [lia|].
    rewrite IH. lia. }
  rewrite Hgen. f_equal.
  destruct (decide (RewardsRoutes.userId r = uid)) as [Hu|Hu].
  - rewrite filter_cons_True by exact Hu.
    rewrite bool_decide_eq_true_2 by exact Hu. cbn. lia.
  - rewrite filter_cons_False by exact Hu.
    rewrite bool_decide_eq_false_2 by exact Hu. reflexivity.
Qed.

Lemma spentBy_updateFirst (uid : nat) (id : string) (now : Z)
    (l : list RewardsRoutes.MockRedemption) :
  spentBy uid (RedemptionsRoutes.updateFirst id
                 (RedemptionsRoutes.markUsed now) l)
  = spentBy uid l.
Proof.
  unfold spentBy. induction l as [|x l IH]; [reflexivity|].
  cbn [RedemptionsRoutes.updateFirst].
  destruct (String.eqb (RewardsRoutes.rd_id x) id).
  - destruct (decide (RewardsRoutes.userId x = uid)) as [Hu|Hu].
    + rewrite !filter_cons_True by exact Hu. reflexivity.
    + rewrite !filter_cons_False by exact Hu. reflexivity.
  - destruct (decide (RewardsRoutes.userId x = uid)) as [Hu|Hu].
    + rewrite !filter_cons_True by exact Hu. cbn. cbn in IH. now rewrite IH.
    + rewrite !filter_cons_False by exact Hu. exact IH.
Qed.

Lemma serve_spent st rq now uid u :
  users st.1 !! uid = Some u →
  ∃ u', users (RedemptionsRoutes.serve st rq now).1 !! uid = Some u'
        ∧ User.points u'
          + spentBy uid
              (RewardsRoutes.redemptions (RedemptionsRoutes.serve st rq now).2)
          = User.points u + spentBy uid (RewardsRoutes.redemptions st.2).
Proof.
  destruct st as [db mem]. cbn [fst snd]. intros Hu.
  destruct rq as [uid0 rid code suffix|uid0 rid];
    cbn [RedemptionsRoutes.serve fst snd].
  - unfold RewardsRoutes.redeem. open_route;
      try (exists u; split; [exact Hu|reflexivity]).
    cbn [users set_users RewardsRoutes.redemptions].
    rewrite spentBy_snoc. cbn [RewardsRoutes.userId RewardsRoutes.pointsUsed].
    destruct (decide (uid0 = uid)) as [->|Hne].
    + rewrite lookup_insert_eq. eexists. split; [reflexivity|].
      rewrite bool_decide_eq_true_2 by reflexivity. simplify_eq. cbn. lia.
    + rewrite lookup_insert_ne by exact Hne. exists u. split; [exact Hu|].
      rewrite bool_decide_eq_false_2 by exact Hne. lia.
  - exists u. split; [exact Hu|]. f_equal.
    unfold RedemptionsRoutes.use. open_auth; try reflexivity.
    cbn [RewardsRoutes.redemptions]. apply spentBy_updateFirst.
Qed.

(** X21. The rewards router records every point it takes. Over any
    sequence of redemptions and uses served by the rewards router, for
    every registered user: the balance, plus the [pointsUsed] of the
    redemptions recorded for the user, stays what it was. So what leaves a
    balance is exactly what the new redemptions of that user record, and
    marking a redemption as used takes nothing. *)
Theorem points_spent_are_recorded
    (st : DB * RewardsRoutes.Memory)
    (rqs : list (RedemptionsRoutes.Request * Z)) (uid : nat) (u : User.t) :
  users st.1 !! uid = Some u →
  ∃ u', users (RedemptionsRoutes.serveAll st rqs).1 !! uid = Some u'
        ∧ User.points u'
          + spentBy uid
              (RewardsRoutes.redemptions (RedemptionsRoutes.serveAll st rqs).2)
          = User.points u + spentBy uid (RewardsRoutes.redemptions st.2).
Proof.
  revert st u. induction rqs as [|[rq now] rqs IH]; intros st u Hu.
  - exists u. split; [exact Hu|reflexivity].
  - cbn [RedemptionsRoutes.serveAll].
    destruct (serve_spent st rq now uid u Hu) as (u1 & Hu1 & H1).
    destruct (IH _ u1 Hu1) as (u' & Hu' & H').
    exists u'. split; [exact Hu'|lia].
Qed.

Lemma points_spent_are_recorded_witness :
  users (Sample.shopDb, Sample.memory0).1 !! 1%nat
  = Some (User.set_points 500 Sample.asha)
  ∧ ∃ u', users
            (RedemptionsRoutes.serveAll (Sample.shopDb, Sample.memory0)
               [ (RedemptionsRoutes.Redeem 1 "reward_2" "K7Q2M9XA"
                    "x1y2z3w4q", 1700000000000);
                 (RedemptionsRoutes.Use 1
                    "redemption_1700000000000_x1y2z3w4q", 1700000000001) ]).1
            !! 1%nat = Some u'
          ∧ User.points u'
            + spentBy 1
                (RewardsRoutes.redemptions
                   (RedemptionsRoutes.serveAll (Sample.shopDb, Sample.memory0)
                      [ (RedemptionsRoutes.Redeem 1 "reward_2" "K7Q2M9XA"
                           "x1y2z3w4q", 1700000000000);
                        (RedemptionsRoutes.Use 1
                           "redemption_1700000000000_x1y2z3w4q",
                         1700000000001) ]).2)
            = User.points (User.set_points 500 Sample.asha)
              + spentBy 1 (RewardsRoutes.redemptions
                             (Sample.shopDb, Sample.memory0).2).
Proof.
  assert (H : users (Sample.shopDb, Sample.memory0).1 !! 1%nat
              = Some (User.set_points 500 Sample.asha)) by reflexivity.
  split; [exact H|].
  exact (points_spent_are_recorded (Sample.shopDb, Sample.memory0) _ 1 _ H).
Defined.

Example redeem_then_use :
  (λ st, (User.points <$> users st.1 !! 1%nat,
          RewardsRoutes.isUsed <$> RewardsRoutes.redemptions st.2,
          spentBy 1 (RewardsRoutes.redemptions st.2)))
    (RedemptionsRoutes.serveAll (Sample.shopDb, Sample.memory0)
       [ (RedemptionsRoutes.Redeem 1 "reward_2" "K7Q2M9XA" "x1y2z3w4q",
          1700000000000);
         (RedemptionsRoutes.Use 1 "redemption_1700000000000_x1y2z3w4q",
          1700000000001) ])
  = (Some 350, [true], 150).
Proof. vm_compute. reflexivity. Qed.

(** ** The rewards on offer *)

Lemma getAvailable_spec (now : Z) (st : Reward.Store) (id : nat) (r : Reward.t) :
  (id, r) ∈ RewardQueries.getAvailable now st
  ↔ Reward.rewards st !! id = Some r ∧ Reward.isAvailable now r = true.
Proof.
  unfold RewardQueries.getAvailable.
  rewrite merge_sort_Permutation, list_elem_of_In, filter_In.
  rewrite <- list_elem_of_In, elem_of_map_to_list.
  unfold RewardQueries.inQuery, Reward.isAvailable. cbn [snd].
  rewrite !andb_true_iff, !bool_decide_eq_true, Z.ltb_lt, !Z.leb_le.
  tauto.
Qed.

Lemma cheaperFirst_sorted (now : Z) (st : Reward.Store) :
  StronglySorted RewardQueries.cheaperFirst
    (RewardQueries.getAvailable now st).
Proof.
  unfold RewardQueries.getAvailable. apply StronglySorted_merge_sort.
  - intros a b c. unfold RewardQueries.cheaperFirst. lia.
  - intros a b. unfold RewardQueries.cheaperFirst. lia.
Qed.

Lemma StronglySorted_map {A B : Type} (R : relation A) (S : relation B)
    (f : A → B) (l : list A) :
  (∀ a b, R a b → S (f a) (f b)) →
  StronglySorted R l → StronglySorted S (map f l).
Proof.
  intros Hf. induction 1 as [|x l Hl IH Hx]; cbn [map]; constructor.
  - exact IH.
  - apply Forall_forall. intros y Hy.
    apply list_elem_of_In, in_map_iff in Hy as (a & <- & Ha).
    apply Hf. rewrite Forall_forall in Hx. apply Hx, list_elem_of_In, Ha.
Qed.

(** X22. What the catalogue offers as affordable can be redeemed, and
    nothing else can. When [GET /api/users/rewards/available] answers a
    citizen at clock reading [now]: the offers come cheapest first; an
    offer marked [canAfford] is redeemed with success by a request of the
    same citizen in the same state, provided the reward is still valid at
    the second clock reading of the redemption and the coupon code drawn
    is not taken; and a redemption that succeeds in that state is one of a
    reward offered and marked [canAfford]. *)
Theorem offers_are_redeemable
    (db : DB) (uid : nat) (now : Z)
    (offers : list RewardQueries.Offer) (pts : Z) :
  RewardQueries.available db uid now = Json (offers, pts) →
  StronglySorted
    (λ a b, Reward.pointsCost (RewardQueries.o_reward a)
            ≤ Reward.pointsCost (RewardQueries.o_reward b)) offers
  ∧ (∀ o now2 rnd,
       o ∈ offers →
       RewardQueries.canAfford o = true →
       now ≤ now2 ≤ Reward.validUntil (RewardQueries.o_reward o) →
       Reward.codeTaken
         (Reward.generateCouponCode now2 rnd
            (Reward.take_one (RewardQueries.o_reward o)))
         (Reward.redemptions (rewardStore db)) = false →
       (UsersRoutes.redeem db uid (RewardQueries.o_id o) now now2 rnd).1
       = Ok 200)
  ∧ (∀ id now2 rnd,
       (UsersRoutes.redeem db uid id now now2 rnd).1 = Ok 200 →
       ∃ o, o ∈ offers ∧ RewardQueries.o_id o = id
            ∧ RewardQueries.canAfford o = true).
Proof.
  unfold RewardQueries.available. open_auth; try discriminate.
  intros [= <- <-].
  match goal with
  | H : bool_decide (User.role _ ∈ [citizen]) = true |- _ =>
      pose proof H as Hguard; apply role_of_guard in H
  end.
  split; [|split].
  - eapply StronglySorted_map; [|apply cheaperFirst_sorted].
    intros a b Hab. exact Hab.
  - intros o now2 rnd Ho Hafford Hnow2 Hcode.
    apply list_elem_of_In, in_map_iff in Ho as ([id r] & <- & Hin).
    apply list_elem_of_In, getAvailable_spec in Hin as [Hr Havail].
    cbn [RewardQueries.o_id RewardQueries.o_reward RewardQueries.canAfford
         fst snd] in *.
    apply bool_decide_eq_true in Hafford.
    unfold UsersRoutes.redeem, guarded, authenticateToken, requireCitizen,
      requireRole.
    repeat match goal with
    | H : users db !! uid = Some _ |- _ => rewrite H
    | H : User.isActive _ = true |- _ => rewrite H
    end.
    rewrite Hguard, Hr, Havail. cbn [negb].
    destruct (_ <? _) eqn:E; [apply Z.ltb_lt in E; lia|].
    unfold User.deductPoints.
    rewrite bool_decide_eq_true_2 by assumption.
    rewrite (proj2 (Z.leb_le _ _) Hafford). cbn [andb].
    unfold Reward.redeem. cbn [rewardStore set_users].
    assert (Havail2 : Reward.isAvailable now2 r = true).
    { unfold Reward.isAvailable in Havail |- *.
      rewrite !andb_true_iff, Z.ltb_lt, !Z.leb_le in Havail.
      rewrite !andb_true_iff, Z.ltb_lt, !Z.leb_le.
      destruct Havail as [[[Ha Hq] Hf] Hu]. repeat split; [assumption..|lia|lia]. }
    rewrite Havail2. cbn [negb Reward.redemptions Reward.generatedCode].
    rewrite Hcode. reflexivity.
  - intros id now2 rnd. unfold UsersRoutes.redeem. open_route; try discriminate.
    intros _.
    match goal with
    | H : Reward.rewards _ !! id = Some ?r |- _ =>
        exists (RewardQueries.mkOffer id r
                  (bool_decide (Reward.pointsCost r ≤ User.points t)))
    end.
    split; [|split; [reflexivity|]].
    + apply list_elem_of_In, in_map_iff. eexists (id, _).
      split; [reflexivity|]. apply list_elem_of_In, getAvailable_spec.
      split; [eassumption|].
      match goal with
      | H : negb (Reward.isAvailable now _) = false |- _ =>
          apply negb_false_iff in H; exact H
      end.
    + cbn. apply bool_decide_eq_true.
      match goal with
      | H : (User.points _ <? _) = false |- _ => apply Z.ltb_ge in H; exact H
      end.
Qed.

Lemma offers_are_redeemable_witness :
  RewardQueries.available Sample.shopDb 1 1700000000000
  = Json ([RewardQueries.mkOffer 7 Sample.voucher true], 500)
  ∧ StronglySorted
      (λ a b, Reward.pointsCost (RewardQueries.o_reward a)
              ≤ Reward.pointsCost (RewardQueries.o_reward b))
      [RewardQueries.mkOffer 7 Sample.voucher true].
Proof.
  assert (H : RewardQueries.available Sample.shopDb 1 1700000000000
              = Json ([RewardQueries.mkOffer 7 Sample.voucher true], 500))
    by (vm_compute; reflexivity).
  split; [exact H|].
  exact (proj1 (offers_are_redeemable Sample.shopDb 1 1700000000000 _ _ H)).
Defined.

(** ** Reading reports *)

Lemma findSorted_spec (db : DB) (f : ReportsQueries.Filter) (id : nat)
    (r : Report.t) :
  (id, r) ∈ ReportsQueries.findSorted db f
  ↔ reports db !! id = Some r ∧ ReportsQueries.matches f r = true.
Proof.
  unfold ReportsQueries.findSorted.
  rewrite merge_sort_Permutation, list_elem_of_In, filter_In.
  rewrite <- list_elem_of_In, elem_of_map_to_list. reflexivity.
Qed.

Ltac role_tests H :=
  repeat first
    [ progress change (bool_decide (citizen = citizen)) with true in H
    | progress change (bool_decide (admin = admin)) with true in H
    | progress change (bool_decide (collector = collector)) with true in H
    | progress change (bool_decide (citizen = admin)) with false in H
    | progress change (bool_decide (citizen = collector)) with false in H
    | progress change (bool_decide (admin = citizen)) with false in H
    | progress change (bool_decide (admin = collector)) with false in H
    | progress change (bool_decide (collector = citizen)) with false in H
    | progress change (bool_decide (collector = admin)) with false in H ].

Lemma buildFilter_confines (u : User.t) (uid : nat) (q : ReportsQueries.Query)
    (r : Report.t) :
  ReportsQueries.matches (ReportsQueries.buildFilter u uid q) r = true →
  mayRead u uid r.
Proof.
  unfold ReportsQueries.matches, ReportsQueries.buildFilter, mayRead.
  cbn [ReportsQueries.f_citizen ReportsQueries.f_assignedTo].
  rewrite !andb_true_iff. intros [[[[[Hc Ha] _] _] _] _].
  destruct (User.role u); [|exact I|];
    destruct (ReportsQueries.given (ReportsQueries.q_citizenId q)),
             (ReportsQueries.given (ReportsQueries.q_assignedTo q));
    role_tests Hc; role_tests Ha; cbn in Hc, Ha;
    try apply bool_decide_eq_true in Hc;
    try apply bool_decide_eq_true in Ha; assumption.
Qed.

(** X23. Reading reports is confined by the role of the caller. For a
    registered caller, whatever the query string of [GET /api/reports] and
    the id given to [GET /api/reports/:id]: every report in an answer is a
    stored report which, for a citizen, is one the caller submitted and,
    for a collector, one assigned to the caller. The parameters [citizenId]
    and [assignedTo] do not widen what a citizen or a collector sees. *)
Theorem reads_are_confined (db : DB) (uid : nat) (u : User.t) :
  users db !! uid = Some u →
  (∀ q l id r,
     ReportsQueries.getAll db uid q = Json l →
     (id, r) ∈ ReportsQueries.items l →
     reports db !! id = Some r ∧ mayRead u uid r)
  ∧ (∀ id r,
       ReportsQueries.getById db uid id = Json r →
       reports db !! id = Some r ∧ mayRead u uid r).
Proof.
  intros Hu. split.
  - intros q l id r. unfold ReportsQueries.getAll. open_auth; try discriminate.
    intros [= <-]. cbn [ReportsQueries.items]. intros Hin.
    eapply elem_of_sublist in Hin; [|apply sublist_take].
    eapply elem_of_sublist in Hin; [|apply sublist_drop].
    apply findSorted_spec in Hin as [Hr Hm].
    split; [exact Hr|]. eapply buildFilter_confines, Hm.
  - intros id r. unfold ReportsQueries.getById, ReportsQueries.populate.
    open_auth; try discriminate.
    all: intros [= <-]; split; [reflexivity|]; unfold mayRead.
    + match goal with
      | H : bool_decide (User.role u = citizen) = true |- _ =>
          apply bool_decide_eq_true in H; rewrite H
      end.
      match goal with
      | H : negb (bool_decide (_ = uid)) = false |- _ =>
          apply negb_false_iff, bool_decide_eq_true in H; subst
      end.
      cbn [mbind option_bind] in *. repeat case_match; simplify_eq.
      reflexivity.
    + match goal with
      | H : bool_decide (User.role u = citizen) = false |- _ =>
          apply bool_decide_eq_false in H
      end.
      destruct (User.role u); [contradiction|exact I|].
      match goal with
      | H : bool_decide (collector = collector) && _ = false |- _ =>
          change (bool_decide (collector = collector)) with true in H;
          cbn [andb] in H;
          apply negb_false_iff, bool_decide_eq_true in H
      end.
      destruct (Report.assignedTo _) as [a|]; [|discriminate].
      cbn [mbind option_bind] in *. repeat case_match; simplify_eq.
      reflexivity.
Qed.

Lemma reads_are_confined_witness :
  users Sample.completedDb !! 1%nat
  = Some (User.inc_totalReports Sample.asha)
  ∧ ∀ id r,
      ReportsQueries.getById Sample.completedDb 1 id = Json r →
      reports Sample.completedDb !! id = Some r
      ∧ mayRead (User.inc_totalReports Sample.asha) 1 r.
Proof.
  assert (H : users Sample.completedDb !! 1%nat
              = Some (User.inc_totalReports Sample.asha))
    by (vm_compute; reflexivity).
  split; [exact H|].
  exact (proj2 (reads_are_confined Sample.completedDb 1 _ H)).
Defined.

Example collector_reads_only_assigned_reports :
  ReportsQueries.getById Sample.completedDb 3 10 = Json Sample.completedReport
  ∧ ReportsQueries.getById
      (ReportsRoutes.serveAll Sample.db0 (take 2 Sample.toCompletion)) 3 10
    = Failure 403 "ACCESS_DENIED".
Proof. vm_compute. split; reflexivity. Qed.

(** ** Pages *)

Lemma concat_pages {A : Type} (n : nat) (l : list A) (k : nat) :
  concat (map (λ i, take n (drop (i * n) l)) (seq 0 k)) = take (k * n) l.
Proof.
  induction k as [|k IH]; [reflexivity|].
  rewrite seq_S, map_app, concat_app, IH. cbn [map concat Nat.add].
  rewrite app_nil_r, take_take_drop. f_equal. lia.
Qed.

Lemma ceilDiv_spec (a b : Z) :
  0 < b →
  (ReportsQueries.ceilDiv a b - 1) * b < a ≤ ReportsQueries.ceilDiv a b * b.
Proof.
  intros Hb. unfold ReportsQueries.ceilDiv.
  pose proof (Z.div_mod (- a) b ltac:(lia)) as Hdm.
  pose proof (Z.mod_pos_bound (- a) b Hb) as Hm.
  set (d := (- a) / b) in *. set (m := (- a) mod b) in *. clearbody d m.
  nia.
Qed.

Lemma findSorted_unique (db : DB) (f : ReportsQueries.Filter)
    (all : list (nat * Report.t)) :
  distinctDates db →
  all ≡ₚ List.filter (λ kv, ReportsQueries.matches f kv.2)
           (map_to_list (reports db)) →
  StronglySorted ReportsQueries.newerFirst all →
  ReportsQueries.findSorted db f = all.
Proof.
  intros Hdist Hperm Hsorted.
  assert (Hstored : ∀ x, x ∈ all → reports db !! x.1 = Some x.2).
  { intros [id r] Hx. rewrite Hperm in Hx.
    apply list_elem_of_In, filter_In in Hx as [Hx _].
    apply list_elem_of_In, elem_of_map_to_list in Hx. exact Hx. }
  apply (StronglySorted_unique_strong ReportsQueries.newerFirst).
  - intros [id1 r1] [id2 r2] H1 H2 H12 H21.
    unfold ReportsQueries.findSorted in H1.
    rewrite merge_sort_Permutation, <- Hperm in H1.
    apply Hstored in H1, H2. cbn [fst snd] in *.
    unfold ReportsQueries.newerFirst in *. cbn [snd] in *.
    assert (id1 = id2) by (eapply Hdist; [eassumption..|lia]).
    subst. congruence.
  - unfold ReportsQueries.findSorted. apply StronglySorted_merge_sort.
    + intros a b c. unfold ReportsQueries.newerFirst. lia.
    + intros a b. unfold ReportsQueries.newerFirst. lia.
  - exact Hsorted.
  - unfold ReportsQueries.findSorted. rewrite merge_sort_Permutation.
    symmetry. exact Hperm.
Qed.

(** X24. The pages of [GET /api/reports] cut the result into consecutive
    pieces. When no two stored reports have the same [createdAt] and a
    request is answered: [total] is the number of reports that match the
    filter of the request, [limit] is between 1 and 100 and no page is
    longer, [pages] is [total / limit] rounded up, and the pages 1 to
    [pages] of the same query, one after the other, are the matching
    reports from the newest to the oldest, each once. *)
Theorem pages_cut_the_result
    (db : DB) (uid : nat) (u : User.t) (q : ReportsQueries.Query)
    (l : ReportsQueries.Listing) (all : list (nat * Report.t)) :
  users db !! uid = Some u →
  ReportsQueries.getAll db uid q = Json l →
  distinctDates db →
  all ≡ₚ List.filter
           (λ kv, ReportsQueries.matches
                    (ReportsQueries.buildFilter u uid q) kv.2)
           (map_to_list (reports db)) →
  StronglySorted ReportsQueries.newerFirst all →
  ReportsQueries.total (ReportsQueries.pagination l) = Z.of_nat (length all)
  ∧ 1 ≤ ReportsQueries.limit (ReportsQueries.pagination l) ≤ 100
  ∧ Z.of_nat (length (ReportsQueries.items l))
    ≤ ReportsQueries.limit (ReportsQueries.pagination l)
  ∧ (ReportsQueries.pages (ReportsQueries.pagination l) - 1)
    * ReportsQueries.limit (ReportsQueries.pagination l)
    < ReportsQueries.total (ReportsQueries.pagination l)
    ≤ ReportsQueries.pages (ReportsQueries.pagination l)
      * ReportsQueries.limit (ReportsQueries.pagination l)
  ∧ concat
      (map (λ p, ReportsQueries.pageItems db uid q (Z.of_nat p))
           (seq 1 (Z.to_nat
                     (ReportsQueries.pages (ReportsQueries.pagination l)))))
    = all.
Proof.
  intros Hu Hl Hdist Hperm Hsorted.
  pose proof (findSorted_unique db _ all Hdist Hperm Hsorted) as Hfound.
  assert (Hpage : ∀ p, 1 ≤ p →
            ReportsQueries.getAll db uid (ReportsQueries.atPage p q)
            = Json (ReportsQueries.mkListing
                      (take (Z.to_nat (ReportsQueries.limit
                                         (ReportsQueries.pagination l)))
                         (drop (Z.to_nat
                                  ((p - 1)
                                   * ReportsQueries.limit
                                       (ReportsQueries.pagination l)))
                               all))
                      (ReportsQueries.mkPagination p
                         (ReportsQueries.pages (ReportsQueries.pagination l))
                         (ReportsQueries.total (ReportsQueries.pagination l))
                         (ReportsQueries.limit
                            (ReportsQueries.pagination l))))
          ∧ 1 ≤ ReportsQueries.limit (ReportsQueries.pagination l) ≤ 100
          ∧ ReportsQueries.total (ReportsQueries.pagination l)
            = Z.of_nat (length all)
          ∧ ReportsQueries.pages (ReportsQueries.pagination l)
            = ReportsQueries.ceilDiv
                (ReportsQueries.total (ReportsQueries.pagination l))
                (ReportsQueries.limit (ReportsQueries.pagination l))
          ∧ ReportsQueries.items l
            = take (Z.to_nat (ReportsQueries.limit
                                (ReportsQueries.pagination l)))
                (drop (Z.to_nat
                         ((ReportsQueries.current
                             (ReportsQueries.pagination l) - 1)
                          * ReportsQueries.limit
                              (ReportsQueries.pagination l)))
                      all)).
  { intros p Hp. revert Hl.
    unfold ReportsQueries.getAll, withAuth, authenticateToken.
    rewrite Hu. destruct (User.isActive u); [|discriminate].
    unfold ReportsQueries.validated.
    cbn [ReportsQueries.atPage ReportsQueries.q_page ReportsQueries.q_limit
         ReportsQueries.q_status ReportsQueries.q_priority
         ReportsQueries.q_citizenId ReportsQueries.q_assignedTo
         ReportsQueries.q_startDate ReportsQueries.q_endDate
         ReportsQueries.optionalIntFrom ReportsQueries.given].
    destruct (ReportsQueries.optionalIntFrom 1 (ReportsQueries.q_page q));
      [|discriminate].
    rewrite (proj2 (Z.leb_le 1 p) Hp). cbn [andb].
    destruct (ReportsQueries.optionalIntBetween 1 100
                (ReportsQueries.q_limit q)) eqn:Hlim; [|discriminate].
    cbn [andb].
    destruct (_ && _ && _ && _); [|discriminate]. cbn [negb].
    destruct (_ && _); [|discriminate]. cbn [negb].
    assert (Hf : ∀ p', ReportsQueries.buildFilter u uid
                         (ReportsQueries.atPage p' q)
                       = ReportsQueries.buildFilter u uid q) by reflexivity.
    change (ReportsQueries.buildFilter u uid _)
      with (ReportsQueries.buildFilter u uid q).
    rewrite Hfound. intros [= <-].
    cbn [ReportsQueries.pagination ReportsQueries.limit ReportsQueries.total
         ReportsQueries.pages ReportsQueries.items ReportsQueries.current
         default from_option]. unfold Datatypes.id.
    repeat split; try reflexivity.
    all: destruct (ReportsQueries.q_limit q) as [| |z]; cbn in Hlim |- *;
      try discriminate; try lia.
    all: apply andb_prop in Hlim as [H1 H2];
      apply Z.leb_le in H1, H2; assumption. }
  destruct (Hpage 1 ltac:(lia)) as (_ & Hlim & Htot & Hpages & Hitems).
  split; [exact Htot|]. split; [exact Hlim|]. split.
  { rewrite Hitems, length_take. lia. }
  split.
  { rewrite Hpages. apply ceilDiv_spec. lia. }
  set (lim := ReportsQueries.limit (ReportsQueries.pagination l)) in *.
  set (pgs := ReportsQueries.pages (ReportsQueries.pagination l)) in *.
  assert (Hmap : map (λ p, ReportsQueries.pageItems db uid q (Z.of_nat p))
                     (seq 1 (Z.to_nat pgs))
                 = map (λ i, take (Z.to_nat lim)
                               (drop (i * Z.to_nat lim) all))
                       (seq 0 (Z.to_nat pgs))).
  { rewrite <- seq_shift, map_map. apply map_ext. intros i.
    unfold ReportsQueries.pageItems.
    destruct (Hpage (Z.of_nat (S i)) ltac:(lia)) as (-> & _).
    cbn [ReportsQueries.items]. do 2 f_equal. nia. }
  rewrite Hmap, concat_pages. apply take_ge.
  pose proof (ceilDiv_spec (ReportsQueries.total
                              (ReportsQueries.pagination l)) lim
                ltac:(lia)) as [_ Hup].
  rewrite <- Hpages in Hup. fold pgs in Hup. nia.
Qed.

Lemma distinctDates_intro (db : DB) :
  NoDup (Report.createdAt <$> (map_to_list (reports db)).*2) →
  distinctDates db.
Proof.
  intros Hnd id1 id2 r1 r2 H1 H2 Heq.
  apply elem_of_map_to_list, list_elem_of_lookup in H1 as [i Hi].
  apply elem_of_map_to_list, list_elem_of_lookup in H2 as [j Hj].
  assert (i = j).
  { eapply NoDup_lookup; [exact Hnd| |].
    - rewrite !list_lookup_fmap, Hi. reflexivity.
    - rewrite !list_lookup_fmap, Hj. cbn. now rewrite Heq. }
  subst. congruence.
Qed.

Lemma pages_cut_the_result_witness :
  users twoReports !! 2%nat = Some Sample.root
  ∧ ReportsQueries.getAll twoReports 2 onePerPage = Json firstPage
  ∧ distinctDates twoReports
  ∧ bothReports
    ≡ₚ List.filter
         (λ kv, ReportsQueries.matches
                  (ReportsQueries.buildFilter Sample.root 2 onePerPage) kv.2)
         (map_to_list (reports twoReports))
  ∧ StronglySorted ReportsQueries.newerFirst bothReports
  ∧ concat
      (map (λ p, ReportsQueries.pageItems twoReports 2 onePerPage (Z.of_nat p))
           (seq 1 (Z.to_nat
                     (ReportsQueries.pages
                        (ReportsQueries.pagination firstPage)))))
    = bothReports.
Proof.
  assert (H1 : users twoReports !! 2%nat = Some Sample.root)
    by (vm_compute; reflexivity).
  assert (H2 : ReportsQueries.getAll twoReports 2 onePerPage = Json firstPage)
    by (vm_compute; reflexivity).
  assert (H3 : distinctDates twoReports).
  { apply distinctDates_intro. apply (bool_decide_unpack _). vm_compute.
    exact I. }
  assert (H4 : bothReports
    ≡ₚ List.filter
         (λ kv, ReportsQueries.matches
                  (ReportsQueries.buildFilter Sample.root 2 onePerPage) kv.2)
         (map_to_list (reports twoReports))).
  { unfold bothReports, ReportsQueries.findSorted.
    apply merge_sort_Permutation. }
  assert (H5 : StronglySorted ReportsQueries.newerFirst bothReports).
  { unfold bothReports, ReportsQueries.findSorted.
    apply StronglySorted_merge_sort.
    - intros a b c. unfold ReportsQueries.newerFirst. lia.
    - intros a b. unfold ReportsQueries.newerFirst. lia. }
  split; [exact H1|]. split; [exact H2|]. split; [exact H3|].
  split; [exact H4|]. split; [exact H5|].
  exact (proj2 (proj2 (proj2 (proj2
           (pages_cut_the_result twoReports 2 Sample.root onePerPage
              firstPage bothReports H1 H2 H3 H4 H5))))).
Defined.

Example two_pages_of_one_report :
  ReportsQueries.pagination firstPage = ReportsQueries.mkPagination 1 2 2 1
  ∧ (ReportsQueries.pageItems twoReports 2 onePerPage 1).*1 = [11%nat]
  ∧ (ReportsQueries.pageItems twoReports 2 onePerPage 2).*1 = [10%nat]
  ∧ ReportsQueries.pageItems twoReports 2 onePerPage 3 = [].
Proof. vm_compute. repeat split. Qed.

(** ** The history of a report only grows *)

Lemma serve_history db rq now id r :
  reports db !! id = Some r →
  ∃ r', reports (ReportsRoutes.serve db rq now).2 !! id = Some r'
        ∧ Report.statusHistory r `prefix_of` Report.statusHistory r'
        ∧ Report.citizen r' = Report.citizen r.
Proof.
  intros Hr.
  destruct (serve_persists db rq now id) as [r' Hr']; [eauto|].
  exists r'. split; [exact Hr'|].
  apply serve_evolves in Hr'. rewrite Hr in Hr'.
  destruct Hr' as [Hold Hs Hh Hp | r0 Hold Hs Hh Hp Hc | r0 e Hold Ht He Hh Hp Hc
                  | r0 Hold Hs Hs' Hh Hp Hp' Hc]; simplify_eq.
  - rewrite Hh. split; [reflexivity|exact Hc].
  - rewrite Hh. split; [apply prefix_app_r; reflexivity|exact Hc].
  - rewrite Hh. split; [reflexivity|exact Hc].
Qed.

(** X25. The history of a report is append-only. Whatever requests the
    lifecycle routes serve, a stored report stays stored under its id,
    keeps its citizen, and keeps every entry of its [statusHistory] in
    place: the history it had is a prefix of the history it has
    afterwards. *)
Theorem statusHistory_is_append_only
    (db : DB) (rqs : list (ReportsRoutes.Request * Z)) (id : nat) (r : Report.t) :
  reports db !! id = Some r →
  ∃ r', reports (ReportsRoutes.serveAll db rqs) !! id = Some r'
        ∧ Report.statusHistory r `prefix_of` Report.statusHistory r'
        ∧ Report.citizen r' = Report.citizen r.
Proof.
  revert db r. induction rqs as [|[rq now] rqs IH]; intros db r Hr.
  - exists r. split; [exact Hr|]. split; reflexivity.
  - cbn [ReportsRoutes.serveAll].
    destruct (serve_history db rq now id r Hr) as (r1 & Hr1 & Hp1 & Hc1).
    destruct (IH _ r1 Hr1) as (r' & Hr' & Hp' & Hc').
    exists r'. split; [exact Hr'|]. split; [|congruence].
    etransitivity; eassumption.
Qed.

Lemma statusHistory_is_append_only_witness :
  reports (ReportsRoutes.serveAll Sample.db0 (take 2 Sample.toCompletion))
    !! 10%nat
  = Some (default Sample.draft
            (reports
               (ReportsRoutes.serveAll Sample.db0 (take 2 Sample.toCompletion))
               !! 10%nat))
  ∧ ∃ r', reports
            (ReportsRoutes.serveAll
               (ReportsRoutes.serveAll Sample.db0 (take 2 Sample.toCompletion))
               (drop 2 Sample.toCompletion)) !! 10%nat = Some r'
          ∧ Report.statusHistory
              (default Sample.draft
                 (reports
                    (ReportsRoutes.serveAll Sample.db0
                       (take 2 Sample.toCompletion)) !! 10%nat))
            `prefix_of` Report.statusHistory r'
          ∧ Report.citizen r'
            = Report.citizen
                (default Sample.draft
                   (reports
                      (ReportsRoutes.serveAll Sample.db0
                         (take 2 Sample.toCompletion)) !! 10%nat)).
Proof.
  assert (H : reports
                (ReportsRoutes.serveAll Sample.db0 (take 2 Sample.toCompletion))
                !! 10%nat
              = Some (default Sample.draft
                        (reports
                           (ReportsRoutes.serveAll Sample.db0
                              (take 2 Sample.toCompletion)) !! 10%nat)))
    by (vm_compute; reflexivity).
  split; [exact H|].
  exact (statusHistory_is_append_only _ (drop 2 Sample.toCompletion) 10 _ H).
Defined.

(** ** Stock and redemptions of the catalogue *)

Lemma redeem_neverOversold
    (rewardId : nat) (this : Reward.t) (userId : nat) (now : Z) (rnd : string)
    (st : Reward.Store) :
  Reward.rewards st !! rewardId = Some this →
  neverOversold st →
  neverOversold (Reward.redeem rewardId this userId now rnd st).2.
Proof.
  intros Hthis Hinv. unfold Reward.redeem.
  destruct (Reward.isAvailable now this) eqn:Hav; cbn [negb snd];
    [|exact Hinv].
  unfold Reward.isAvailable in Hav.
  apply andb_prop in Hav as [[[_ Hrem%Z.ltb_lt]%andb_prop _]%andb_prop _].
  destruct (Hinv rewardId this Hthis) as [Hcount Hpos].
  cbn [Reward.rewards Reward.redemptions].
  destruct (Reward.codeTaken _ _); cbn [snd]; intros id r;
    cbn [Reward.rewards Reward.redemptions].
  - destruct (decide (rewardId = id)) as [->|Hne].
    + rewrite lookup_insert_eq. intros [= <-]. cbn. lia.
    + rewrite lookup_insert_ne by assumption. intros Hr. exact (Hinv id r Hr).
  - rewrite redemptionsOf_snoc. cbn [Reward.reward].
    destruct (decide (rewardId = id)) as [->|Hne].
    + rewrite lookup_insert_eq. intros [= <-].
      rewrite length_app. cbn. lia.
    + rewrite lookup_insert_ne by assumption. intros Hr.
      rewrite app_nil_r. exact (Hinv id r Hr).
Qed.

Lemma perform_neverOversold (st : Ledger.State) (c : Ledger.Call) (now : Z) :
  neverOversold (rewardStore st.1) →
  neverOversold (rewardStore (Ledger.perform st c now).1).
Proof.
  intros Hinv. destruct st as [db mem].
  destruct c as [uid amount|uid amount|uid rewardId now2 rnd|uid id code suffix];
    cbn [Ledger.perform fst snd] in *.
  - unfold Ledger.onUser. repeat case_match; exact Hinv.
  - unfold Ledger.onUser. repeat case_match; exact Hinv.
  - unfold UsersRoutes.redeem. open_route; try exact Hinv.
    all: cbn [rewardStore set_rewardStore set_users] in *.
    all: match goal with
         | H : Reward.redeem ?i ?r ?u ?n ?rnd0 ?st0 = (?o, ?st') |- _ =>
             replace st' with (Reward.redeem i r u n rnd0 st0).2
               by (rewrite H; reflexivity);
             apply redeem_neverOversold; assumption
         end.
  - unfold RewardsRoutes.redeem. open_route; exact Hinv.
Qed.

(** X26. No reward of the catalogue is oversold. Over any sequence of
    calls that move points, the redemptions of the users router among them,
    also those that fail half way: no reward has more redemptions on
    record than have left its stock, and no stock goes below zero,
    provided this held at the start. *)
Theorem no_reward_is_oversold
    (st : Ledger.State) (calls : list (Ledger.Call * Z)) :
  neverOversold (rewardStore st.1) →
  Forall (λ s : Ledger.State, neverOversold (rewardStore s.1))
         (Ledger.trace st calls).
Proof.
  revert st. induction calls as [|[c now] calls IH]; intros st Hinv;
    cbn [Ledger.trace]; constructor.
  - apply perform_neverOversold, Hinv.
  - apply IH, perform_neverOversold, Hinv.
Qed.

Lemma no_reward_is_oversold_witness :
  neverOversold (rewardStore (Sample.shopDb, Sample.memory0).1)
  ∧ Forall (λ s : Ledger.State, neverOversold (rewardStore s.1))
      (Ledger.trace (Sample.shopDb, Sample.memory0)
         [ (Ledger.Redeem 1 7 1700000000000 "AB12", 1700000000000);
           (Ledger.Redeem 1 7 1700001000000 "AB12", 1700001000000) ]).
Proof.
  assert (H : neverOversold (rewardStore (Sample.shopDb, Sample.memory0).1)).
  { unfold neverOversold. apply (bool_decide_unpack _). vm_compute. exact I. }
  split; [exact H|].
  exact (no_reward_is_oversold (Sample.shopDb, Sample.memory0) _ H).
Defined.

(** ** The collectors an admin can assign to *)

Lemma workload_counts (db : DB) (c : nat) (u : User.t) :
  workloadConsistent db →
  users db !! c = Some u →
  length (User.assignedReports u) = openTasks db c.
Proof.
  intros Hinv Hu. destruct (Hinv c u Hu) as [Hnd Hiff].
  unfold openTasks. rewrite <- length_map_to_list.
  rewrite <- (length_fmap fst (map_to_list _)).
  apply Permutation_length, NoDup_Permutation;
    [exact Hnd|apply NoDup_fst_map_to_list|].
  intros id. rewrite Hiff, list_elem_of_fmap. split.
  - intros (r & Hr & Hopen). exists (id, r). split; [reflexivity|].
    apply elem_of_map_to_list, map_lookup_filter_Some. now split.
  - intros ([id' r] & -> & Hin).
    apply elem_of_map_to_list, map_lookup_filter_Some in Hin as [Hr Hopen].
    exists r. now split.
Qed.

(** X27. The list of collectors shows the admin who can take a task and
    how many each one has. When the stored [assignedReports] are the open
    tasks (as the lifecycle routes keep them) and
    [GET /api/users/collectors/available] answers: the list holds exactly
    the users who are collectors and active, those with more completed
    tasks first, and the [currentWorkload] of each is the number of stored
    reports assigned to that collector that are [assigned] or
    [in_progress]. *)
Theorem available_collectors_and_their_workload
    (db : DB) (uid : nat) (cs : list UsersQueries.Collector) :
  workloadConsistent db →
  UsersQueries.availableCollectors db uid = Json cs →
  (∀ c u, (∃ w, UsersQueries.mkCollector c u w ∈ cs)
          ↔ users db !! c = Some u ∧ User.role u = collector
            ∧ User.isActive u = true)
  ∧ (∀ x, x ∈ cs →
       UsersQueries.currentWorkload x
       = Z.of_nat (openTasks db (UsersQueries.c_id x)))
  ∧ StronglySorted
      (λ a b, User.completedTasks (UsersQueries.c_user b)
              ≤ User.completedTasks (UsersQueries.c_user a)) cs.
Proof.
  intros Hinv. unfold UsersQueries.availableCollectors.
  open_auth; try discriminate. intros [= <-].
  assert (Hspec : ∀ c u,
            (c, u) ∈ merge_sort UsersQueries.moreTasksFirst
                       (List.filter
                          (λ kv, bool_decide (User.role kv.2 = collector)
                                 && bool_decide (User.isActive kv.2 = true))
                          (map_to_list (users db)))
            ↔ users db !! c = Some u ∧ User.role u = collector
              ∧ User.isActive u = true).
  { intros c u. rewrite merge_sort_Permutation, list_elem_of_In, filter_In.
    rewrite <- list_elem_of_In, elem_of_map_to_list. cbn [snd].
    rewrite andb_true_iff, !bool_decide_eq_true. tauto. }
  split; [|split].
  - intros c u. rewrite <- Hspec. split.
    + intros (w & Hin).
      apply list_elem_of_In, in_map_iff in Hin as ([c' u'] & [= <- <- _] & Hin).
      apply list_elem_of_In, Hin.
    + intros Hin. eexists. apply list_elem_of_In, in_map_iff.
      exists (c, u). split; [reflexivity|]. apply list_elem_of_In, Hin.
  - intros x Hx.
    apply list_elem_of_In, in_map_iff in Hx as ([c u] & <- & Hin).
    apply list_elem_of_In, Hspec in Hin as (Hu & _).
    cbn [UsersQueries.currentWorkload UsersQueries.c_id fst snd].
    f_equal. apply workload_counts; assumption.
  - eapply StronglySorted_map; [|apply StronglySorted_merge_sort].
    + intros a b Hab. exact Hab.
    + intros a b c. unfold UsersQueries.moreTasksFirst. lia.
    + intros a b. unfold UsersQueries.moreTasksFirst. lia.
Qed.

Lemma available_collectors_and_their_workload_witness :
  workloadConsistent
    (ReportsRoutes.serveAll Sample.db0 (take 3 Sample.toCompletion))
  ∧ UsersQueries.availableCollectors
      (ReportsRoutes.serveAll Sample.db0 (take 3 Sample.toCompletion)) 2
    = Json [UsersQueries.mkCollector 3
              (User.addToSet_assignedReports 10 Sample.carl) 1]
  ∧ ∀ x, x ∈ [UsersQueries.mkCollector 3
                (User.addToSet_assignedReports 10 Sample.carl) 1] →
         UsersQueries.currentWorkload x
         = Z.of_nat
             (openTasks
                (ReportsRoutes.serveAll Sample.db0 (take 3 Sample.toCompletion))
                (UsersQueries.c_id x)).
Proof.
  assert (H1 : workloadConsistent
                 (ReportsRoutes.serveAll Sample.db0
                    (take 3 Sample.toCompletion)))
    by (apply serveAll_workload, sample_workloadConsistent).
  assert (H2 : UsersQueries.availableCollectors
                 (ReportsRoutes.serveAll Sample.db0
                    (take 3 Sample.toCompletion)) 2
               = Json [UsersQueries.mkCollector 3
                         (User.addToSet_assignedReports 10 Sample.carl) 1])
    by (vm_compute; reflexivity).
  split; [exact H1|]. split; [exact H2|].
  exact (proj1 (proj2 (available_collectors_and_their_workload _ 2 _ H1 H2))).
Defined.
